(** * VenturaEngine: the Renderable base class and the VentureBank actor

    A shallow embedding of [src/engine/core/renderable.ts] and
    [src/game/gameActors/ventureBank.ts].  JavaScript numbers are IEEE 754
    binary64 values and are modelled by the kernel's primitive floats, so
    that every definition below evaluates exactly as the program does.
    Objects that the program shares by reference (buttons, banks) live in
    a store and are named by their identity. *)

From Stdlib Require Import PrimFloat Uint63.
From stdpp Require Import gmap strings list.

(** ** Numbers *)

Abbreviation number := float (only parsing).

Declare Scope js_scope.
Delimit Scope js_scope with js.
Infix "+." := PrimFloat.add (at level 50, left associativity) : js_scope.
Infix "-." := PrimFloat.sub (at level 50, left associativity) : js_scope.
Infix "/." := PrimFloat.div (at level 40, left associativity) : js_scope.
Local Open Scope js_scope.

(** [array.length] as a number (exact below 2^53). *)
Definition of_length (n : nat) : number :=
  PrimFloat.of_uint63 (Uint63.of_Z (Z.of_nat n)).

(** ** Object identity

    [this] is used by the program as the context of a subscription.  A
    bank and a button are named by their position in the store; a display
    component by its owner and its name. *)

Inductive ObjId : Type :=
| BankId (n : nat)
| ButtonId (n : nat)
| ComponentId (owner : ObjId) (name : string).

#[global] Instance ObjId_eq_dec : EqDecision ObjId.
Proof. solve_decision. Defined.

(** ** Subscriptions *)

Module EventSubscription.

(** Modelled from the spec: the subscription list of an event
    ([EventSubscription], not among the sources).  Subscribers are
    (context, callback) pairs; [subscribe] appends, [unsubscribe] drops
    every callback of a context, and publishing visits the subscribers
    in subscription order, synchronously. *)
Record Subscriber (H : Type) : Type :=
  { context : ObjId; callback : H }.
Arguments context {H} _.
Arguments callback {H} _.
Arguments Build_Subscriber {H} _ _.

Definition t (H : Type) : Type := list (Subscriber H).

(** Modelled from the spec: [subscribe(context, callback)] registers the
    callback after those already subscribed. *)
Definition subscribe {H} (ctx : ObjId) (cb : H) (e : t H) : t H :=
  e ++ [ {| context := ctx; callback := cb |} ].

(** Modelled from the spec: [unsubscribe(context)] removes every callback
    registered under the context. *)
Definition unsubscribe {H} (ctx : ObjId) (e : t H) : t H :=
  filter (fun s => context s ≠ ctx) e.

(** Modelled from the spec: the callbacks a publication invokes, in
    subscription order. *)
Definition callbacks {H} (e : t H) : list H := map callback e.

End EventSubscription.

(** ** The rendering backend *)

Module PIXI.

(** Modelled from the spec: the backend container ([PIXI.Container], an
    external library).  It is created, destroyed, has nested children,
    settable transform fields (position x/y, scale x/y, rotation) and a
    measured height. *)
Record Point : Type := { x : number; y : number }.

Record ContainerTransform : Type :=
  { position : Point; scale : Point; rotation : number }.

Record Container : Type :=
  { transform : ContainerTransform;
    height : number;
    children : list ObjId;
    destroyed : bool }.

(** Modelled from the spec: [new PIXI.Container()], at the origin, of
    scale 1, not rotated, empty. *)
Definition new_Container : Container :=
  {| transform := {| position := {| x := 0; y := 0 |};
                     scale := {| x := 1; y := 1 |};
                     rotation := 0 |};
     height := 0;
     children := [];
     destroyed := false |}.

(** Modelled from the spec: [container.destroy()]. *)
Definition destroy (c : Container) : Container :=
  {| transform := transform c; height := height c;
     children := children c; destroyed := true |}.

(** Modelled from the spec: [container.addChild(child)], nested child
    attachment. *)
Definition addChild (child : ObjId) (c : Container) : Container :=
  {| transform := transform c; height := height c;
     children := children c ++ [child]; destroyed := destroyed c |}.

(** An assignment to the transform fields of a container. *)
Definition set_transform (f : ContainerTransform -> ContainerTransform)
    (c : Container) : Container :=
  {| transform := f (transform c); height := height c;
     children := children c; destroyed := destroyed c |}.

(** The backend measuring the content of a container. *)
Definition set_height (h : number) (c : Container) : Container :=
  {| transform := transform c; height := h;
     children := children c; destroyed := destroyed c |}.

End PIXI.

(** ** Transforms *)

Module Vector.

(** Modelled from the spec: one observable component of a transform
    (the vector class is not among the sources).  It holds x, y and z
    and the subscription list [onComponentChanged]. *)
Record t (H : Type) : Type :=
  { x : number; y : number; z : number;
    onComponentChanged : EventSubscription.t H }.
Arguments x {H} _.
Arguments y {H} _.
Arguments z {H} _.
Arguments onComponentChanged {H} _.
Arguments Build_t {H} _ _ _ _.

(** Modelled from the spec: a new component, with no subscriber. *)
Definition make {H} (a b c : number) : t H :=
  {| x := a; y := b; z := c; onComponentChanged := [] |}.

Inductive Axis : Type := X | Y | Z.

(** Modelled from the spec: [v.x = a], [v.y = a], [v.z = a]; the store
    only, the notification is [Renderable.change]. *)
Definition assign {H} (ax : Axis) (a : number) (v : t H) : t H :=
  match ax with
  | X => {| x := a; y := y v; z := z v;
            onComponentChanged := onComponentChanged v |}
  | Y => {| x := x v; y := a; z := z v;
            onComponentChanged := onComponentChanged v |}
  | Z => {| x := x v; y := y v; z := a;
            onComponentChanged := onComponentChanged v |}
  end.

(** Modelled from the spec: [v.set(a, b)]; [v.set(a)] is uniform.  The
    store only. *)
Definition set {H} (a : number) (b : option number) (v : t H) : t H :=
  {| x := a; y := default a b; z := z v;
     onComponentChanged := onComponentChanged v |}.

(** The component with another subscription list. *)
Definition with_subscribers {H} (e : EventSubscription.t H) (v : t H) : t H :=
  {| x := x v; y := y v; z := z v; onComponentChanged := e |}.

End Vector.

Module Transform.

(** Modelled from the spec: [Transform] (not among the sources) has
    three observable components, position, scale and rotation;
    [destroy] releases their subscriber lists. *)
Record t (H : Type) : Type :=
  { position : Vector.t H; scale : Vector.t H; rotation : Vector.t H }.
Arguments position {H} _.
Arguments scale {H} _.
Arguments rotation {H} _.
Arguments Build_t {H} _ _ _.

Inductive Component : Type := Position | Scale | Rotation.

(** Modelled from the spec: [new Transform()], at the origin, of scale 1,
    not rotated, with no subscriber. *)
Definition new_Transform {H} : t H :=
  {| position := Vector.make 0 0 0;
     scale := Vector.make 1 1 1;
     rotation := Vector.make 0 0 0 |}.

(** The component [c] of a transform. *)
Definition get {H} (c : Component) (tr : t H) : Vector.t H :=
  match c with
  | Position => position tr
  | Scale => scale tr
  | Rotation => rotation tr
  end.

(** A transform with its component [c] replaced. *)
Definition update {H} (c : Component) (f : Vector.t H -> Vector.t H)
    (tr : t H) : t H :=
  match c with
  | Position => {| position := f (position tr); scale := scale tr;
                   rotation := rotation tr |}
  | Scale => {| position := position tr; scale := f (scale tr);
                rotation := rotation tr |}
  | Rotation => {| position := position tr; scale := scale tr;
                   rotation := f (rotation tr) |}
  end.

(** Modelled from the spec: [transform.destroy()] releases the subscriber
    lists of the three components. *)
Definition destroy {H} (tr : t H) : t H :=
  {| position := Vector.with_subscribers [] (position tr);
     scale := Vector.with_subscribers [] (scale tr);
     rotation := Vector.with_subscribers [] (rotation tr) |}.

End Transform.

(** ** Renderable ([src/engine/core/renderable.ts]) *)

Module Renderable.

(** The three bound methods the constructor subscribes. *)
Inductive Handler : Type :=
| OnPositionChanged
| OnScaleChanged
| OnRotationChanged.

(** What a method does to the outside: allocations, subscriptions,
    releases and the callbacks a publication runs, in program order. *)
Inductive Effect : Type :=
| NewContainer
| NewTransform
| Subscribe (c : Transform.Component) (ctx : ObjId) (h : Handler)
| DestroyContainer
| DestroyTransform
| Call (h : Handler).

Definition Eff (A : Type) : Type := (A * list Effect)%type.

#[global] Instance Eff_ret : MRet Eff := fun A a => (a, []).
#[global] Instance Eff_bind : MBind Eff := fun A B k m =>
  let r := k m.1 in (r.1, m.2 ++ r.2).

Definition tell (e : Effect) : Eff unit := (tt, [e]).

(** [_internalAssetData] is declared without a value; the base class
    never assigns it. *)
Record t : Type :=
  { _internalAssetData : option PIXI.Container;
    container : PIXI.Container;
    transform : Transform.t Handler }.

Definition with_container (c : PIXI.Container) (r : t) : t :=
  {| _internalAssetData := _internalAssetData r;
     container := c; transform := transform r |}.

Definition with_transform (tr : Transform.t Handler) (r : t) : t :=
  {| _internalAssetData := _internalAssetData r;
     container := container r; transform := tr |}.

(** [new PIXI.Container()] and [new Transform()]. *)
Definition new_Container : Eff PIXI.Container :=
  tell NewContainer;; mret PIXI.new_Container.

Definition new_Transform : Eff (Transform.t Handler) :=
  tell NewTransform;; mret Transform.new_Transform.

(** [transform.<c>.onComponentChanged.subscribe(ctx, h)]. *)
Definition subscribe (c : Transform.Component) (ctx : ObjId) (h : Handler)
    (tr : Transform.t Handler) : Eff (Transform.t Handler) :=
  tell (Subscribe c ctx h);;
  mret (Transform.update c
          (fun v => Vector.with_subscribers
                      (EventSubscription.subscribe ctx h
                         (Vector.onComponentChanged v)) v) tr).

Definition constructor (this : ObjId) : Eff t :=
  container ← new_Container;
  transform ← new_Transform;
  transform ← subscribe Transform.Position this OnPositionChanged transform;
  transform ← subscribe Transform.Scale this OnScaleChanged transform;
  transform ← subscribe Transform.Rotation this OnRotationChanged transform;
  mret {| _internalAssetData := None;
          container := container; transform := transform |}.

Definition destroy (r : t) : Eff t :=
  container ← (tell DestroyContainer;; mret (PIXI.destroy (container r)));
  transform ← (tell DestroyTransform;; mret (Transform.destroy (transform r)));
  mret {| _internalAssetData := _internalAssetData r;
          container := container; transform := transform |}.

Definition onPositionChanged (r : t) : t :=
  let r :=
    with_container
      (PIXI.set_transform
         (fun ct => {| PIXI.position :=
                         {| PIXI.x := Vector.x (Transform.position (transform r));
                            PIXI.y := PIXI.y (PIXI.position ct) |};
                       PIXI.scale := PIXI.scale ct;
                       PIXI.rotation := PIXI.rotation ct |})
         (container r)) r in
  with_container
    (PIXI.set_transform
       (fun ct => {| PIXI.position :=
                       {| PIXI.x := PIXI.x (PIXI.position ct);
                          PIXI.y := Vector.y (Transform.position (transform r)) |};
                     PIXI.scale := PIXI.scale ct;
                     PIXI.rotation := PIXI.rotation ct |})
       (container r)) r.

Definition onScaleChanged (r : t) : t :=
  let r :=
    with_container
      (PIXI.set_transform
         (fun ct => {| PIXI.position := PIXI.position ct;
                       PIXI.scale :=
                         {| PIXI.x := Vector.x (Transform.scale (transform r));
                            PIXI.y := PIXI.y (PIXI.scale ct) |};
                       PIXI.rotation := PIXI.rotation ct |})
         (container r)) r in
  with_container
    (PIXI.set_transform
       (fun ct => {| PIXI.position := PIXI.position ct;
                     PIXI.scale :=
                       {| PIXI.x := PIXI.x (PIXI.scale ct);
                          PIXI.y := Vector.y (Transform.scale (transform r)) |};
                     PIXI.rotation := PIXI.rotation ct |})
       (container r)) r.

Definition onRotationChanged (r : t) : t :=
  with_container
    (PIXI.set_transform
       (fun ct => {| PIXI.position := PIXI.position ct;
                     PIXI.scale := PIXI.scale ct;
                     PIXI.rotation := Vector.z (Transform.rotation (transform r)) |})
       (container r)) r.

Definition invoke (h : Handler) (r : t) : t :=
  match h with
  | OnPositionChanged => onPositionChanged r
  | OnScaleChanged => onScaleChanged r
  | OnRotationChanged => onRotationChanged r
  end.

(** Publishing [onComponentChanged]: every subscribed callback runs, in
    subscription order, on the renderable it is bound to. *)
Fixpoint publish (e : EventSubscription.t Handler) (r : t) : Eff t :=
  match e with
  | [] => mret r
  | s :: e =>
      r ← (tell (Call (EventSubscription.callback s));;
           mret (invoke (EventSubscription.callback s) r));
      publish e r
  end.

(** A change of the transform: an assignment to one field of a
    component, or a call of its [set]. *)
Inductive Change : Type :=
| Assign (c : Transform.Component) (ax : Vector.Axis) (a : number)
| CallSet (c : Transform.Component) (a : number) (b : option number).

Definition changed (ch : Change) : Transform.Component :=
  match ch with Assign c _ _ | CallSet c _ _ => c end.

Definition write (ch : Change) (tr : Transform.t Handler) : Transform.t Handler :=
  match ch with
  | Assign c ax a => Transform.update c (Vector.assign ax a) tr
  | CallSet c a b => Transform.update c (Vector.set a b) tr
  end.

(** Modelled from the spec: changing a sub-value of a transform stores
    it and then notifies the subscribers of that component, once,
    before the change returns (the setters are not among the sources). *)
Definition change (ch : Change) (r : t) : Eff t :=
  let r := with_transform (write ch (transform r)) r in
  publish (Vector.onComponentChanged (Transform.get (changed ch) (transform r))) r.

Fixpoint changes (chs : list Change) (r : t) : Eff t :=
  match chs with
  | [] => mret r
  | ch :: chs => r ← change ch r; changes chs r
  end.

End Renderable.

(** ** Observables *)

Module Observable.

(** Modelled from the spec: [Observable<T>] (not among the sources) is
    one mutable value with change notification.  [setValue] replaces the
    value and notifies every subscriber, in subscription order, also
    when the value is unchanged; [adjust] is [setValue (getValue + d)].
    A subscriber is known by its context; its callback belongs to a
    component that is not among the sources, so a call of [setValue] is
    recorded as one notification: the value and the subscribers it was
    delivered to, in order. *)
Record t (T : Type) : Type :=
  { value : T; subscribers : list ObjId }.
Arguments value {T} _.
Arguments subscribers {T} _.
Arguments Build_t {T} _ _.

Record Notification (T : Type) : Type :=
  { payload : T; observers : list ObjId }.
Arguments payload {T} _.
Arguments observers {T} _.
Arguments Build_Notification {T} _ _.

(** Modelled from the spec: [new Observable(v)]. *)
Definition new {T} (v : T) : t T := {| value := v; subscribers := [] |}.

(** Modelled from the spec: [getValue()]. *)
Definition getValue {T} (o : t T) : T := value o.

(** Modelled from the spec: [subscribe(context, callback)]. *)
Definition subscribe {T} (ctx : ObjId) (o : t T) : t T :=
  {| value := value o; subscribers := subscribers o ++ [ctx] |}.

(** Modelled from the spec: [unsubscribe(context)]. *)
Definition unsubscribe {T} (ctx : ObjId) (o : t T) : t T :=
  {| value := value o; subscribers := filter (fun c => c ≠ ctx) (subscribers o) |}.

(** Modelled from the spec: [setValue(v)] replaces the value and notifies
    all subscribers with the new value. *)
Definition setValue {T} (v : T) (o : t T) : t T * Notification T :=
  ({| value := v; subscribers := subscribers o |},
   {| payload := v; observers := subscribers o |}).

(** Modelled from the spec: [adjust(d)] is [setValue(getValue() + d)]. *)
Definition adjust (d : number) (o : t number) : t number * Notification number :=
  setValue (getValue o +. d) o.

End Observable.

(** ** Display components *)

Inductive TextFormatMode : Type := CURRENCY.

Record TextStyle : Type :=
  { fill : number;
    fontSize : option string;
    stroke : option number;
    strokeThickness : option number }.

(** What a text component shows: an observable of its owner, a fixed
    string or a fixed amount. *)
Inductive TextSource : Type :=
| Bound (owner : ObjId)
| Literal (s : string)
| Amount (n : number).

Module TextComponent.

(** Modelled from the spec: a text display component (not among the
    sources), a renderable with a name, a text source, a format and a
    style; a position given in its data is applied to its transform. *)
Record Data : Type :=
  { name : string;
    text : TextSource;
    maxSize_x : option number;
    format : option TextFormatMode;
    style : option TextStyle;
    position : option (number * number) }.

Record t : Type :=
  { data : Data; textStyle : option TextStyle; base : Renderable.t }.

(** Modelled from the spec: [new TextComponent(data)], a renderable; the
    style and the position of the data are applied. *)
Definition constructor (this : ObjId) (d : Data) : t :=
  let r := (Renderable.constructor this).1 in
  {| data := d;
     textStyle := style d;
     base := match position d with
             | Some (a, b) =>
                 (Renderable.change
                    (Renderable.CallSet Transform.Position a (Some b)) r).1
             | None => r
             end |}.

(** Modelled from the spec: [setStyle(style)]. *)
Definition setStyle (s : TextStyle) (c : t) : t :=
  {| data := data c; textStyle := Some s; base := base c |}.

(** The text component with its renderable part replaced. *)
Definition with_base (r : Renderable.t) (c : t) : t :=
  {| data := data c; textStyle := textStyle c; base := r |}.

End TextComponent.

Module SpriteComponent.

(** Modelled from the spec: a sprite display component (not among the
    sources), a renderable with a name and the name of its asset. *)
Record Data : Type := { name : string; assetName : string }.

Record t : Type := { data : Data; base : Renderable.t }.

(** Modelled from the spec: [new SpriteComponent(data)], a renderable. *)
Definition constructor (this : ObjId) (d : Data) : t :=
  {| data := d; base := (Renderable.constructor this).1 |}.

End SpriteComponent.

Inductive DisplayComponent : Type :=
| Text (c : TextComponent.t)
| Sprite (c : SpriteComponent.t).

(** The name a display component is registered under. *)
Definition component_name (c : DisplayComponent) : string :=
  match c with
  | Text c => TextComponent.name (TextComponent.data c)
  | Sprite c => SpriteComponent.name (SpriteComponent.data c)
  end.

(** Every display component is a renderable. *)
Definition component_base (c : DisplayComponent) : Renderable.t :=
  match c with
  | Text c => TextComponent.base c
  | Sprite c => SpriteComponent.base c
  end.

(** ** Actors *)

Module Actor.

(** Modelled from the spec: [Actor] (not among the sources) is a
    renderable that owns its configuration data, an ordered list of
    child actors and a mapping of named display components. *)
Record t (D : Type) : Type :=
  { _objectData : D;
    base : Renderable.t;
    children : list ObjId;
    displayComponents : gmap string DisplayComponent }.
Arguments _objectData {D} _.
Arguments base {D} _.
Arguments children {D} _.
Arguments displayComponents {D} _.
Arguments Build_t {D} _ _ _ _.

(** Modelled from the spec: [new Actor(actorData)], a renderable that
    keeps its data and owns no child and no display component yet. *)
Definition constructor {D} (this : ObjId) (actorData : D) : t D :=
  {| _objectData := actorData;
     base := (Renderable.constructor this).1;
     children := [];
     displayComponents := ∅ |}.

(** Modelled from the spec: [addDisplayComponent(c)] attaches the
    component to the container and stores it under its name. *)
Definition addDisplayComponent {D} (this : ObjId) (c : DisplayComponent)
    (a : t D) : t D :=
  {| _objectData := _objectData a;
     base := Renderable.with_container
               (PIXI.addChild (ComponentId this (component_name c))
                  (Renderable.container (base a))) (base a);
     children := children a;
     displayComponents := <[component_name c := c]> (displayComponents a) |}.

(** Modelled from the spec: [getDisplayComponent(name)], [None] standing
    for [undefined]. *)
Definition getDisplayComponent {D} (name : string) (a : t D)
    : option DisplayComponent :=
  displayComponents a !! name.

(** Modelled from the spec: [addChild(child)] attaches the child to the
    container and appends it to the children. *)
Definition addChild {D} (child : ObjId) (a : t D) : t D :=
  {| _objectData := _objectData a;
     base := Renderable.with_container
               (PIXI.addChild child (Renderable.container (base a))) (base a);
     children := children a ++ [child];
     displayComponents := displayComponents a |}.

(** The actor with its renderable part replaced. *)
Definition with_base {D} (r : Renderable.t) (a : t D) : t D :=
  {| _objectData := _objectData a; base := r; children := children a;
     displayComponents := displayComponents a |}.

End Actor.

(** ** Configuration data *)

Module VentureBusinessData.
(** Modelled from the spec: a business record of the game configuration
    ([ventureBusiness.ts] is not among the sources). *)
Record t : Type := { name : string; icon : string; managerCost : number }.
End VentureBusinessData.

Module VentureBusiness.
(** Modelled from the spec: the business actor that completes a cycle;
    the bank reads its [profit]. *)
Record t : Type := { data : VentureBusinessData.t; profit : number }.
End VentureBusiness.

Module ButtonData.
(** Modelled from the spec: the button template ([button.ts] is not
    among the sources); [labels] is optional. *)
Record t : Type := { name : string; labels : option (list string) }.
End ButtonData.

Module VentureBankData.
Record t : Type :=
  { name : string;
    baseManagerButtonData : ButtonData.t;
    businesses : list VentureBusinessData.t }.
End VentureBankData.

Inductive PurchaseMode : Type := ONE | TEN | HUNDRED | MAX.

Definition PurchaseMode_value (m : PurchaseMode) : Z :=
  match m with ONE => 1 | TEN => 10 | HUNDRED => 100 | MAX => -1 end.

(** A button is an actor over its button data. *)
Definition Button : Type := Actor.t ButtonData.t.

(** ** VentureBank ([src/game/gameActors/ventureBank.ts]) *)

Module VentureBank.

Record t : Type :=
  { actor : Actor.t VentureBankData.t;
    balance : Observable.t number;
    purchaseMode : Observable.t PurchaseMode;
    globalProfitMultiplier : Observable.t number;
    managerButtons : gmap string nat }.

Definition with_actor (f : Actor.t VentureBankData.t -> Actor.t VentureBankData.t)
    (b : t) : t :=
  {| actor := f (actor b); balance := balance b; purchaseMode := purchaseMode b;
     globalProfitMultiplier := globalProfitMultiplier b;
     managerButtons := managerButtons b |}.

Definition with_balance (o : Observable.t number) (b : t) : t :=
  {| actor := actor b; balance := o; purchaseMode := purchaseMode b;
     globalProfitMultiplier := globalProfitMultiplier b;
     managerButtons := managerButtons b |}.

Definition with_globalProfitMultiplier (o : Observable.t number) (b : t) : t :=
  {| actor := actor b; balance := balance b; purchaseMode := purchaseMode b;
     globalProfitMultiplier := o;
     managerButtons := managerButtons b |}.

Definition with_managerButtons (f : gmap string nat -> gmap string nat) (b : t) : t :=
  {| actor := actor b; balance := balance b; purchaseMode := purchaseMode b;
     globalProfitMultiplier := globalProfitMultiplier b;
     managerButtons := f (managerButtons b) |}.

(** The arrow function the constructor subscribes to
    [GameEvent.ON_CYCLE_COMPLETE]; it captures [this]. *)
Inductive CycleHandler : Type := AdjustBalance (this : nat).

#[global] Instance CycleHandler_eq_dec : EqDecision CycleHandler.
Proof. solve_decision. Defined.

(** The mutable world the bank runs in: the banks and buttons (shared by
    reference, named by their index), the process-wide cycle event, the
    key-value store, the window height and the notifications the
    observables of the banks have made. *)
Record World : Type :=
  { banks : list t;
    buttons : list Button;
    ON_CYCLE_COMPLETE : EventSubscription.t CycleHandler;
    localStorage : gmap string number;
    innerHeight : number;
    notified : list (Observable.Notification number) }.

Definition with_banks (x : list t) (w : World) : World :=
  {| banks := x; buttons := buttons w; ON_CYCLE_COMPLETE := ON_CYCLE_COMPLETE w;
     localStorage := localStorage w; innerHeight := innerHeight w;
     notified := notified w |}.

Definition with_buttons (x : list Button) (w : World) : World :=
  {| banks := banks w; buttons := x; ON_CYCLE_COMPLETE := ON_CYCLE_COMPLETE w;
     localStorage := localStorage w; innerHeight := innerHeight w;
     notified := notified w |}.

Definition with_ON_CYCLE_COMPLETE (x : EventSubscription.t CycleHandler)
    (w : World) : World :=
  {| banks := banks w; buttons := buttons w; ON_CYCLE_COMPLETE := x;
     localStorage := localStorage w; innerHeight := innerHeight w;
     notified := notified w |}.

Definition with_localStorage (x : gmap string number) (w : World) : World :=
  {| banks := banks w; buttons := buttons w;
     ON_CYCLE_COMPLETE := ON_CYCLE_COMPLETE w;
     localStorage := x; innerHeight := innerHeight w;
     notified := notified w |}.

Definition with_notified (x : list (Observable.Notification number))
    (w : World) : World :=
  {| banks := banks w; buttons := buttons w;
     ON_CYCLE_COMPLETE := ON_CYCLE_COMPLETE w;
     localStorage := localStorage w; innerHeight := innerHeight w;
     notified := x |}.

(** *** Effects: state and exceptions *)

(** [TypeError]: a property is read from [undefined].  [Dangling]: an
    identity that names no object of the world (no program state has
    one). *)
Inductive Error : Type :=
| TypeError (reading : string)
| Dangling (id : ObjId).

Inductive Result (A : Type) : Type :=
| Ok (a : A)
| Throw (e : Error).
Arguments Ok {A} _.
Arguments Throw {A} _.

Definition M (A : Type) : Type := World -> Result (A * World).

#[global] Instance M_ret : MRet M := fun A a w => Ok (a, w).
#[global] Instance M_bind : MBind M := fun A B k m w =>
  match m w with
  | Ok (a, w) => k a w
  | Throw e => Throw e
  end.

Definition get : M World := fun w => Ok (w, w).
Definition modify (f : World -> World) : M unit := fun w => Ok (tt, f w).
Definition throw {A} (e : Error) : M A := fun _ => Throw e.

Fixpoint forM_ {A} (l : list A) (body : A -> M unit) : M unit :=
  match l with
  | [] => mret tt
  | a :: l => body a;; forM_ l body
  end.

Definition get_bank (this : nat) : M t :=
  w ← get;
  match banks w !! this with
  | Some b => mret b
  | None => throw (Dangling (BankId this))
  end.

Definition modify_bank (this : nat) (f : t -> t) : M unit :=
  b ← get_bank this;
  modify (fun w => with_banks (<[this := f b]> (banks w)) w).

Definition get_button (id : nat) : M Button :=
  w ← get;
  match buttons w !! id with
  | Some b => mret b
  | None => throw (Dangling (ButtonId id))
  end.

Definition modify_button (id : nat) (f : Button -> Button) : M unit :=
  b ← get_button id;
  modify (fun w => with_buttons (<[id := f b]> (buttons w)) w).

Definition notify (n : Observable.Notification number) : M unit :=
  modify (fun w => with_notified (notified w ++ [n]) w).

(** [this.balance.setValue(v)], [this.balance.adjust(d)] and
    [this.globalProfitMultiplier.setValue(v)]. *)
Definition balance_setValue (this : nat) (v : number) : M unit :=
  b ← get_bank this;
  let r := Observable.setValue v (balance b) in
  modify_bank this (with_balance r.1);; notify r.2.

Definition balance_adjust (this : nat) (d : number) : M unit :=
  b ← get_bank this;
  let r := Observable.adjust d (balance b) in
  modify_bank this (with_balance r.1);; notify r.2.

Definition globalProfitMultiplier_setValue (this : nat) (v : number) : M unit :=
  b ← get_bank this;
  let r := Observable.setValue v (globalProfitMultiplier b) in
  modify_bank this (with_globalProfitMultiplier r.1);; notify r.2.

(** Modelled from the spec: [Engine.localStorage] (not among the
    sources) is a synchronous key-value store; [getNumber] returns the
    stored number, or the default it is given when the key is absent. *)
Definition localStorage_setValue (key : string) (v : number) : M unit :=
  modify (fun w => with_localStorage (<[key := v]> (localStorage w)) w).

(** Modelled from the spec: [getNumber(key, default)]. *)
Definition localStorage_getNumber (key : string) (d : number) : M number :=
  w ← get; mret (default d (localStorage w !! key)).

(** Modelled from the spec: the process-wide event
    [GameEvent.ON_CYCLE_COMPLETE] ([gameEvents.ts] is not among the
    sources); publishing runs every handler, in subscription order. *)
Definition ON_CYCLE_COMPLETE_subscribe (ctx : ObjId) (h : CycleHandler) : M unit :=
  modify (fun w =>
    with_ON_CYCLE_COMPLETE (EventSubscription.subscribe ctx h (ON_CYCLE_COMPLETE w)) w).

(** [(business) => { this.balance.adjust(business.profit); }] *)
Definition run_CycleHandler (h : CycleHandler) (business : VentureBusiness.t) : M unit :=
  match h with
  | AdjustBalance this => balance_adjust this (VentureBusiness.profit business)
  end.

(** Modelled from the spec: publishing the event runs the handlers
    subscribed at that moment, in subscription order, before it
    returns. *)
Definition ON_CYCLE_COMPLETE_publish (business : VentureBusiness.t) : M unit :=
  w ← get;
  forM_ (EventSubscription.callbacks (ON_CYCLE_COMPLETE w))
        (fun h => run_CycleHandler h business).

(** Modelled from the spec: [new Button(data)] ([button.ts] is not among
    the sources), an actor over the button data, stored under a new
    identity. *)
Definition new_Button (data : ButtonData.t) : M nat :=
  w ← get;
  let id := length (buttons w) in
  modify (with_buttons (buttons w ++ [Actor.constructor (ButtonId id) data]));;
  mret id.

(** [button.transform.<change>], for a button of the store. *)
Definition button_change (id : nat) (ch : Renderable.Change) : M unit :=
  modify_button id
    (fun b => Actor.with_base (Renderable.change ch (Actor.base b)).1 b).

(** [this.managerButtons[name]], about to be dereferenced. *)
Definition managerButton (this : nat) (name : string) : M nat :=
  b ← get_bank this;
  match managerButtons b !! name with
  | Some id => mret id
  | None => throw (TypeError "managerButtons[name]")
  end.

(** The body of the loop of [createManagerButtons], for one business. *)
Definition createManagerButton (this : nat) (business : VentureBusinessData.t) : M unit :=
  bank ← get_bank this;
  let base := VentureBankData.baseManagerButtonData (Actor._objectData (actor bank)) in
  let name := VentureBusinessData.name business in
  let managerButtonData :=
    {| ButtonData.name := name;
       ButtonData.labels := Some (default [] (ButtonData.labels base)) |} in
  managerButton ← new_Button managerButtonData;
  let button := ButtonId managerButton in
  let iconSprite :=
    SpriteComponent.constructor (ComponentId button (name +:+ "ManagerIcon"))
      {| SpriteComponent.name := name +:+ "ManagerIcon";
         SpriteComponent.assetName := VentureBusinessData.icon business |} in
  modify_button managerButton
    (Actor.addDisplayComponent button (Sprite iconSprite));;
  modify_button managerButton
    (Actor.addDisplayComponent button
       (Text (TextComponent.constructor
                (ComponentId button (name +:+ "ManagerButton"))
                {| TextComponent.name := name +:+ "ManagerButton";
                   TextComponent.text := Literal ("Buy " +:+ name +:+ " Manager");
                   TextComponent.maxSize_x := None;
                   TextComponent.format := None;
                   TextComponent.style :=
                     Some {| fill := 16777215%float; fontSize := None;
                             stroke := None; strokeThickness := None |};
                   TextComponent.position := Some (200, 10)%float |})));;
  modify_button managerButton
    (Actor.addDisplayComponent button
       (Text (TextComponent.constructor
                (ComponentId button (name +:+ "ManagerPrice"))
                {| TextComponent.name := name +:+ "ManagerPrice";
                   TextComponent.text :=
                     Amount (VentureBusinessData.managerCost business);
                   TextComponent.maxSize_x := None;
                   TextComponent.format := Some CURRENCY;
                   TextComponent.style :=
                     Some {| fill := 16777215%float; fontSize := Some "24pt";
                             stroke := None; strokeThickness := None |};
                   TextComponent.position := Some (200, 70)%float |})));;
  modify_bank this (with_managerButtons (<[name := managerButton]>));;
  modify_bank this (with_actor (Actor.addChild button)).

Definition createManagerButtons (this : nat) : M unit :=
  bank ← get_bank this;
  forM_ (VentureBankData.businesses (Actor._objectData (actor bank)))
    (createManagerButton this).

Definition constructor (actorData : VentureBankData.t) : M nat :=
  w ← get;
  let this := length (banks w) in
  modify (with_banks
            (banks w ++
               [ {| actor := Actor.constructor (BankId this) actorData;
                    purchaseMode := Observable.new ONE;
                    globalProfitMultiplier := Observable.new 1%float;
                    balance := Observable.new 0%float;
                    managerButtons := ∅ |} ]));;
  let text := ComponentId (BankId this) "balanceText" in
  let balanceText :=
    TextComponent.constructor text
      {| TextComponent.name := "balanceText";
         TextComponent.text := Bound (BankId this);
         TextComponent.maxSize_x := Some 415%float;
         TextComponent.format := Some CURRENCY;
         TextComponent.style := None;
         TextComponent.position := None |} in
  modify_bank this (fun b => with_balance (Observable.subscribe text (balance b)) b);;
  let balanceText :=
    TextComponent.setStyle
      {| fill := 16777215%float; fontSize := Some "64px";
         stroke := Some 8947848%float; strokeThickness := Some 7%float |} balanceText in
  let balanceText :=
    TextComponent.with_base
      (Renderable.change (Renderable.CallSet Transform.Position 10 (Some 0%float))
         (TextComponent.base balanceText)).1 balanceText in
  modify_bank this (with_actor (Actor.addDisplayComponent (BankId this) (Text balanceText)));;
  balance_adjust this 0;;
  ON_CYCLE_COMPLETE_subscribe (BankId this) (AdjustBalance this);;
  createManagerButtons this;;
  mret this.

(** *** The lifecycle methods

    [Actor.load], [Actor.save] and [Actor.restore] (the [super] calls)
    are not among the sources; they are parameters. *)

Section Lifecycle.

Variable Actor_load : nat -> World -> World.
Variable Actor_save : nat -> World -> World.
Variable Actor_restore : nat -> World -> World.

(** The locals of [load]. *)
Definition startingHeight (balanceText : DisplayComponent) : number :=
  Vector.y (Transform.position (Renderable.transform (component_base balanceText)))
  +. PIXI.height (Renderable.container (component_base balanceText)).

Definition availableRoom (w : World) (balanceText : DisplayComponent) : number :=
  innerHeight w -. startingHeight balanceText.

Definition heightPerButton (w : World) (balanceText : DisplayComponent)
    (businesses : list VentureBusinessData.t) : number :=
  availableRoom w balanceText /. of_length (length businesses).

Definition scaleFactor (w : World) (balanceText : DisplayComponent)
    (businesses : list VentureBusinessData.t) (firstButton : Button) : number :=
  heightPerButton w balanceText businesses
  /. PIXI.height (Renderable.container (Actor.base firstButton)).

(** The [for] loop of [load]; [spawnHeight] is its running variable. *)
Fixpoint load_loop (this : nat) (scaleFactor heightPerButton : number)
    (businesses : list VentureBusinessData.t) (spawnHeight : number) : M unit :=
  match businesses with
  | [] => mret tt
  | business :: businesses =>
      (id ← managerButton this (VentureBusinessData.name business);
       button_change id (Renderable.CallSet Transform.Scale scaleFactor None));;
      (id ← managerButton this (VentureBusinessData.name business);
       button_change id (Renderable.Assign Transform.Position Vector.Y spawnHeight));;
      load_loop this scaleFactor heightPerButton businesses
        (spawnHeight +. heightPerButton)
  end.

Definition load (this : nat) : M unit :=
  modify (Actor_load this);;
  bank ← get_bank this;
  let businesses := VentureBankData.businesses (Actor._objectData (actor bank)) in
  balanceText ← match Actor.getDisplayComponent "balanceText" (actor bank) with
                 | Some c => mret c
                 | None => throw (TypeError "balanceText.transform")
                 end;
  w ← get;
  first ← match businesses !! 0 with
           | Some business => mret business
           | None => throw (TypeError "businesses[0].name")
           end;
  id ← managerButton this (VentureBusinessData.name first);
  firstButton ← get_button id;
  load_loop this
    (scaleFactor w balanceText businesses firstButton)
    (heightPerButton w balanceText businesses)
    businesses
    (startingHeight balanceText).

Definition save (this : nat) : M unit :=
  modify (Actor_save this);;
  (bank ← get_bank this;
   localStorage_setValue "Balance" (Observable.getValue (balance bank)));;
  (bank ← get_bank this;
   localStorage_setValue "GlobalProfitMultiplier"
     (Observable.getValue (globalProfitMultiplier bank))).

Definition restore (this : nat) : M unit :=
  modify (Actor_restore this);;
  (v ← localStorage_getNumber "Balance" 0;
   balance_setValue this v);;
  (v ← localStorage_getNumber "GlobalProfitMultiplier" 1;
   globalProfitMultiplier_setValue this v).

End Lifecycle.

(** A world with no object and an empty store. *)
Definition empty_World (innerHeight : number) : World :=
  {| banks := []; buttons := []; ON_CYCLE_COMPLETE := [];
     localStorage := ∅; innerHeight := innerHeight; notified := [] |}.

End VentureBank.

(** ** Vocabulary of the statements *)

(** The subscriptions the constructor of a renderable makes, and no
    other. *)
Definition wired (this : ObjId) (r : Renderable.t) : Prop :=
  Vector.onComponentChanged (Transform.position (Renderable.transform r))
    = [ {| EventSubscription.context := this;
           EventSubscription.callback := Renderable.OnPositionChanged |} ]
  ∧ Vector.onComponentChanged (Transform.scale (Renderable.transform r))
    = [ {| EventSubscription.context := this;
           EventSubscription.callback := Renderable.OnScaleChanged |} ]
  ∧ Vector.onComponentChanged (Transform.rotation (Renderable.transform r))
    = [ {| EventSubscription.context := this;
           EventSubscription.callback := Renderable.OnRotationChanged |} ].

(** Two containers agree on everything but the transform fields that
    mirror component [c]. *)
Definition same_outside (c : Transform.Component) (k k' : PIXI.Container) : Prop :=
  PIXI.height k' = PIXI.height k
  ∧ PIXI.children k' = PIXI.children k
  ∧ PIXI.destroyed k' = PIXI.destroyed k
  ∧ match c with
    | Transform.Position =>
        PIXI.scale (PIXI.transform k') = PIXI.scale (PIXI.transform k)
        ∧ PIXI.rotation (PIXI.transform k') = PIXI.rotation (PIXI.transform k)
    | Transform.Scale =>
        PIXI.position (PIXI.transform k') = PIXI.position (PIXI.transform k)
        ∧ PIXI.rotation (PIXI.transform k') = PIXI.rotation (PIXI.transform k)
    | Transform.Rotation =>
        PIXI.position (PIXI.transform k') = PIXI.position (PIXI.transform k)
        ∧ PIXI.scale (PIXI.transform k') = PIXI.scale (PIXI.transform k)
    end.

(** Classifiers of the effects of a renderable, for counting them. *)
Definition is_NewContainer (e : Renderable.Effect) : bool :=
  match e with Renderable.NewContainer => true | _ => false end.

Definition is_NewTransform (e : Renderable.Effect) : bool :=
  match e with Renderable.NewTransform => true | _ => false end.

Definition is_Subscribe (e : Renderable.Effect) : bool :=
  match e with Renderable.Subscribe _ _ _ => true | _ => false end.

(** The value of [spawnHeight] when the loop of [load] reaches the
    business of index [i]: [start] with [slot] added [i] times. *)
Fixpoint offset (start slot : number) (i : nat) : number :=
  match i with
  | 0 => start
  | S i => offset start slot i +. slot
  end.

(** One round of the loop of [load] on a button. *)
Definition placed (scaleFactor spawnHeight : number) (b : Button) : Button :=
  let b := Actor.with_base
             (Renderable.change
                (Renderable.CallSet Transform.Scale scaleFactor None) (Actor.base b)).1 b in
  Actor.with_base
    (Renderable.change
       (Renderable.Assign Transform.Position Vector.Y spawnHeight) (Actor.base b)).1 b.

(** The names of the configured businesses, in order. *)
Definition names (businesses : list VentureBusinessData.t) : list string :=
  map VentureBusinessData.name businesses.

(** The button a bank of the world has registered under a name. *)
Definition registered_button (w : VentureBank.World) (this : nat) (name : string)
    : option Button :=
  bank ← VentureBank.banks w !! this;
  id ← VentureBank.managerButtons bank !! name;
  VentureBank.buttons w !! id.

(** The last position at which a name occurs in a list. *)
Fixpoint last_index (name : string) (l : list string) : option nat :=
  match l with
  | [] => None
  | n :: l =>
      match last_index name l with
      | Some i => Some (S i)
      | None => if decide (n = name) then Some 0 else None
      end
  end.

(** The bank as its constructor has it when it reaches
    [createManagerButtons]: the initial observables, the balance text
    subscribed to the balance and added as a display component, and the
    balance adjusted by 0. *)
Definition initial_bank (this : nat) (actorData : VentureBankData.t) : VentureBank.t :=
  let text := ComponentId (BankId this) "balanceText" in
  let balanceText :=
    TextComponent.with_base
      (Renderable.change (Renderable.CallSet Transform.Position 10 (Some 0%float))
         (Renderable.constructor text).1).1
      {| TextComponent.data :=
           {| TextComponent.name := "balanceText";
              TextComponent.text := Bound (BankId this);
              TextComponent.maxSize_x := Some 415%float;
              TextComponent.format := Some CURRENCY;
              TextComponent.style := None;
              TextComponent.position := None |};
         TextComponent.textStyle :=
           Some {| fill := 16777215%float; fontSize := Some "64px";
                   stroke := Some 8947848%float; strokeThickness := Some 7%float |};
         TextComponent.base := (Renderable.constructor text).1 |} in
  {| VentureBank.actor :=
       Actor.addDisplayComponent (BankId this) (Text balanceText)
         (Actor.constructor (BankId this) actorData);
     VentureBank.balance :=
       (Observable.adjust 0 (Observable.subscribe text (Observable.new 0%float))).1;
     VentureBank.purchaseMode := Observable.new ONE;
     VentureBank.globalProfitMultiplier := Observable.new 1%float;
     VentureBank.managerButtons := ∅ |}.

(** What [createManagerButtons] does to the bank itself: the button of
    identity [id] is stored under the name and added as a child. *)
Definition registered (id : nat) (name : string) (bank : VentureBank.t) : VentureBank.t :=
  VentureBank.with_actor (Actor.addChild (ButtonId id))
    (VentureBank.with_managerButtons (<[name := id]>) bank).

Fixpoint registered_all (first : nat) (businesses : list VentureBusinessData.t)
    (bank : VentureBank.t) : VentureBank.t :=
  match businesses with
  | [] => bank
  | business :: businesses =>
      registered_all (S first) businesses
        (registered first (VentureBusinessData.name business) bank)
  end.

(** Every bank of the world is subscribed to the cycle event exactly
    once, by its own handler, and nothing else is: the state the
    constructors build from a world without banks. *)
Definition subscribed_once (w : VentureBank.World) : Prop :=
  EventSubscription.callbacks (VentureBank.ON_CYCLE_COMPLETE w)
  = map VentureBank.AdjustBalance (seq 0 (length (VentureBank.banks w))).

(** ** The scenarios of the specification *)

Module Scenario.

Import VentureBank.

Definition business (name : string) : VentureBusinessData.t :=
  {| VentureBusinessData.name := name;
     VentureBusinessData.icon := name +:+ "Icon";
     VentureBusinessData.managerCost := 1000 |}.

Definition actorData : VentureBankData.t :=
  {| VentureBankData.name := "bank";
     VentureBankData.baseManagerButtonData :=
       {| ButtonData.name := "managerButton"; ButtonData.labels := None |};
     VentureBankData.businesses :=
       [business "Lemonade"; business "Newspaper"; business "CarWash"] |}.

Definition measured (h : number) (r : Renderable.t) : Renderable.t :=
  Renderable.with_container (PIXI.set_height h (Renderable.container r)) r.

Definition measured_component (h : number) (c : DisplayComponent) : DisplayComponent :=
  match c with
  | Text c => Text (TextComponent.with_base (measured h (TextComponent.base c)) c)
  | Sprite c =>
      Sprite {| SpriteComponent.data := SpriteComponent.data c;
                SpriteComponent.base := measured h (SpriteComponent.base c) |}
  end.

(** An [Actor.load] after which the backend measures the balance text
    of the bank at [textHeight] and every button at [buttonHeight]. *)
Definition measure (textHeight buttonHeight : number) (this : nat) (w : World) : World :=
  with_buttons
    (map (fun b => Actor.with_base (measured buttonHeight (Actor.base b)) b) (buttons w))
    (with_banks
       (alter
          (with_actor (fun a =>
             {| Actor._objectData := Actor._objectData a;
                Actor.base := Actor.base a;
                Actor.children := Actor.children a;
                Actor.displayComponents :=
                  alter (measured_component textHeight) "balanceText"
                    (Actor.displayComponents a) |}))
          this (banks w)) w).

(** Base-class methods that do nothing. *)
Definition unchanged (this : nat) (w : World) : World := w.

(** The world after [new VentureBank(actorData)] in a window of height
    680, and after [load] with a text of height 80 and buttons of
    height 200. *)
Definition constructed : World :=
  match constructor actorData (empty_World 680) with
  | Ok (_, w) => w
  | Throw _ => empty_World 680
  end.

Definition loaded : Result (unit * World) :=
  load (measure 80 200) 0 constructed.

(** The locals of [load] in that run: the starting height, the
    available room, the height per button and the scale factor. *)
Definition layout : option (number * number * number * number) :=
  let w := measure 80 200 0 constructed in
  bank ← banks w !! 0;
  let businesses := VentureBankData.businesses (Actor._objectData (actor bank)) in
  balanceText ← Actor.getDisplayComponent "balanceText" (actor bank);
  first ← businesses !! 0;
  firstButton ← registered_button w 0 (VentureBusinessData.name first);
  Some (startingHeight balanceText,
        availableRoom w balanceText,
        heightPerButton w balanceText businesses,
        scaleFactor w balanceText businesses firstButton).

(** A bank configured without businesses. *)
Definition constructed_without_businesses : World :=
  match constructor
          {| VentureBankData.name := "bank";
             VentureBankData.baseManagerButtonData :=
               {| ButtonData.name := "managerButton"; ButtonData.labels := None |};
             VentureBankData.businesses := [] |} (empty_World 680) with
  | Ok (_, w) => w
  | Throw _ => empty_World 680
  end.

Definition button_y (w : World) (name : string) : option number :=
  b ← registered_button w 0 name;
  Some (Vector.y (Transform.position (Renderable.transform (Actor.base b)))).

(** The y the backend container of the button has. *)
Definition button_container_y (w : World) (name : string) : option number :=
  b ← registered_button w 0 name;
  Some (PIXI.y (PIXI.position (PIXI.transform (Renderable.container (Actor.base b))))).

Definition button_scale (w : World) (name : string) : option (number * number) :=
  b ← registered_button w 0 name;
  Some (Vector.x (Transform.scale (Renderable.transform (Actor.base b))),
        Vector.y (Transform.scale (Renderable.transform (Actor.base b)))).

(** The constructed world once the bank holds balance [b] and
    multiplier [m]. *)
Definition holding (b m : number) : World :=
  match (balance_setValue 0 b;; globalProfitMultiplier_setValue 0 m) constructed with
  | Ok (_, w) => w
  | Throw _ => constructed
  end.

(** A business whose cycle earns [p]. *)
Definition earning (p : number) : VentureBusiness.t :=
  {| VentureBusiness.data := business "Lemonade"; VentureBusiness.profit := p |}.

Definition balance_of (w : World) (this : nat) : option number :=
  b ← banks w !! this; Some (Observable.value (balance b)).

End Scenario.

(** ** Vocabulary of the further statements *)

#[global] Instance Component_eq_dec : EqDecision Transform.Component.
Proof. solve_decision. Defined.

(** The container fields of component [c] hold the current values of the
    transform. *)
Definition mirrored (c : Transform.Component) (r : Renderable.t) : Prop :=
  match c with
  | Transform.Position =>
      PIXI.x (PIXI.position (PIXI.transform (Renderable.container r)))
        = Vector.x (Transform.position (Renderable.transform r))
      ∧ PIXI.y (PIXI.position (PIXI.transform (Renderable.container r)))
        = Vector.y (Transform.position (Renderable.transform r))
  | Transform.Scale =>
      PIXI.x (PIXI.scale (PIXI.transform (Renderable.container r)))
        = Vector.x (Transform.scale (Renderable.transform r))
      ∧ PIXI.y (PIXI.scale (PIXI.transform (Renderable.container r)))
        = Vector.y (Transform.scale (Renderable.transform r))
  | Transform.Rotation =>
      PIXI.rotation (PIXI.transform (Renderable.container r))
        = Vector.z (Transform.rotation (Renderable.transform r))
  end.

(** The transform after a list of changes, callbacks apart. *)
Definition written (chs : list Renderable.Change)
    (tr : Transform.t Renderable.Handler) : Transform.t Renderable.Handler :=
  foldl (fun tr ch => Renderable.write ch tr) tr chs.

(** What the loop of [load] does to the buttons of the world, as a
    function: the button of each business in turn is given the scale
    and the running height (the loop stops at a business without an
    entry, where the program throws). *)
Fixpoint placements (managerButtons : gmap string nat)
    (scaleFactor heightPerButton : number)
    (businesses : list VentureBusinessData.t) (spawnHeight : number)
    (buttons : list Button) : list Button :=
  match businesses with
  | [] => buttons
  | business :: businesses =>
      match managerButtons !! VentureBusinessData.name business with
      | Some id =>
          placements managerButtons scaleFactor heightPerButton businesses
            (spawnHeight +. heightPerButton)
            (alter (placed scaleFactor spawnHeight) id buttons)
      | None => buttons
      end
  end.

(** ** Further scenarios *)

Module Faults.

Import VentureBank.

(** A base-class [load] after which the bank has lost the manager
    button entry of [name]. *)
Definition forgetting (name : string) (this : nat) (w : World) : World :=
  let w := Scenario.measure 80 200 this w in
  with_banks (alter (with_managerButtons (delete name)) this (banks w)) w.

(** A base-class [load] after which the bank has lost its balance
    text. *)
Definition without_balanceText (this : nat) (w : World) : World :=
  let w := Scenario.measure 80 200 this w in
  with_banks
    (alter
       (with_actor (fun a =>
          {| Actor._objectData := Actor._objectData a;
             Actor.base := Actor.base a;
             Actor.children := Actor.children a;
             Actor.displayComponents :=
               delete "balanceText" (Actor.displayComponents a) |}))
       this (banks w)) w.

End Faults.

(** Runs of [load] off the scenario of the specification: in a window
    of another height, and for a bank two of whose businesses have one
    name. *)
Module Deviations.

Import VentureBank.

(** The world after [new VentureBank(actorData)] in a window of height
    [innerHeight]. *)
Definition constructed_in (innerHeight : number) (actorData : VentureBankData.t)
    : World :=
  match constructor actorData (empty_World innerHeight) with
  | Ok (_, w) => w
  | Throw _ => empty_World innerHeight
  end.

(** [load] on it, with a text of height 80 and buttons of height 200. *)
Definition loaded_in (innerHeight : number) (actorData : VentureBankData.t)
    : Result (unit * World) :=
  load (Scenario.measure 80 200) 0 (constructed_in innerHeight actorData).

(** The locals of [load] in that run: the starting height, the
    available room, the height per button and the scale factor. *)
Definition layout_in (innerHeight : number) (actorData : VentureBankData.t)
    : option (number * number * number * number) :=
  let w := Scenario.measure 80 200 0 (constructed_in innerHeight actorData) in
  bank ← banks w !! 0;
  let businesses := VentureBankData.businesses (Actor._objectData (actor bank)) in
  balanceText ← Actor.getDisplayComponent "balanceText" (actor bank);
  first ← businesses !! 0;
  firstButton ← registered_button w 0 (VentureBusinessData.name first);
  Some (startingHeight balanceText,
        availableRoom w balanceText,
        heightPerButton w balanceText businesses,
        scaleFactor w balanceText businesses firstButton).

(** The scenario's bank with "Lemonade" in the place of "CarWash". *)
Definition actorData_twice : VentureBankData.t :=
  {| VentureBankData.name := "bank";
     VentureBankData.baseManagerButtonData :=
       {| ButtonData.name := "managerButton"; ButtonData.labels := None |};
     VentureBankData.businesses :=
       [Scenario.business "Lemonade"; Scenario.business "Newspaper";
        Scenario.business "Lemonade"] |}.

(** The y of the buttons of a world, in the order of their creation. *)
Definition buttons_y (w : World) : list number :=
  map (fun b => Vector.y (Transform.position (Renderable.transform (Actor.base b))))
    (buttons w).

(** The buttons attached to the bank, in the order of their
    attachment. *)
Definition bank_children (w : World) : option (list ObjId) :=
  bank ← banks w !! 0; Some (Actor.children (actor bank)).

End Deviations.

(** The manager button [createManagerButtons] makes for a business,
    under identity [id] and from the button template [base]: its data,
    its three display components and the order in which they are
    attached. *)
Definition manager_button (base : ButtonData.t) (id : nat)
    (business : VentureBusinessData.t) (button : Button) : Prop :=
  let name := VentureBusinessData.name business in
  Actor._objectData button
    = {| ButtonData.name := name;
         ButtonData.labels := Some (default [] (ButtonData.labels base)) |}
  ∧ Actor.children button = []
  ∧ wired (ButtonId id) (Actor.base button)
  ∧ PIXI.children (Renderable.container (Actor.base button))
    = [ ComponentId (ButtonId id) (name +:+ "ManagerIcon");
        ComponentId (ButtonId id) (name +:+ "ManagerButton");
        ComponentId (ButtonId id) (name +:+ "ManagerPrice") ]
  ∧ dom (Actor.displayComponents button)
    = {[ name +:+ "ManagerIcon"; name +:+ "ManagerButton"; name +:+ "ManagerPrice" ]}
  ∧ (∃ c, Actor.getDisplayComponent (name +:+ "ManagerIcon") button = Some (Sprite c)
          ∧ SpriteComponent.data c
            = {| SpriteComponent.name := name +:+ "ManagerIcon";
                 SpriteComponent.assetName := VentureBusinessData.icon business |})
  ∧ (∃ c, Actor.getDisplayComponent (name +:+ "ManagerButton") button = Some (Text c)
          ∧ TextComponent.text (TextComponent.data c)
            = Literal ("Buy " +:+ name +:+ " Manager")
          ∧ TextComponent.format (TextComponent.data c) = None
          ∧ TextComponent.position (TextComponent.data c) = Some (200, 10)%float)
  ∧ (∃ c, Actor.getDisplayComponent (name +:+ "ManagerPrice") button = Some (Text c)
          ∧ TextComponent.text (TextComponent.data c)
            = Amount (VentureBusinessData.managerCost business)
          ∧ TextComponent.format (TextComponent.data c) = Some CURRENCY
          ∧ TextComponent.position (TextComponent.data c) = Some (200, 70)%float).

(** A balance after the profits of a list of businesses have been
    added to it, one after the other. *)
Definition earned (balance : number) (businesses : list VentureBusiness.t) : number :=
  foldl (fun b business => b +. VentureBusiness.profit business) balance businesses.

(** ** Game ([src/engine/core/game.ts]) *)

Module Game.

(** The abstract game: the loaded game data, of any type, and the
    active flag.  [saveGame] and [restoreGame] are abstract. *)
Record t (D : Type) : Type := { _gameData : D; isActive : bool }.
Arguments _gameData {D} _.
Arguments isActive {D} _.
Arguments Build_t {D} _ _.

Definition constructor {D} (gameData : D) : t D :=
  {| _gameData := gameData; isActive := true |}.

(** [update(deltaTime)] has an empty body. *)
Definition update {D} (deltaTime : number) (g : t D) : t D := g.

(** [game.isActive = b]: the flag is public. *)
Definition set_isActive {D} (b : bool) (g : t D) : t D :=
  {| _gameData := _gameData g; isActive := b |}.

(** What the engine may do to a game between its construction and now:
    tick it, or set its flag. *)
Inductive Step : Type := Tick (deltaTime : number) | SetActive (b : bool).

Definition step {D} (s : Step) (g : t D) : t D :=
  match s with
  | Tick deltaTime => update deltaTime g
  | SetActive b => set_isActive b g
  end.

Definition run {D} (steps : list Step) (g : t D) : t D :=
  foldl (fun g s => step s g) g steps.

(** The flag a list of steps leaves, from the flag before it. *)
Definition last_flag (steps : list Step) (flag : bool) : bool :=
  foldl (fun flag s => match s with Tick _ => flag | SetActive b => b end) flag steps.

End Game.

(** What [load] leaves alone in a button: its data, its child actors,
    its display components, the x and z of its position, its rotation,
    its subscriptions, its asset data and, in its container, the
    measured height, the attached children and the destroyed flag; in a
    button that has the subscriptions of its constructor, where no
    rotation callback runs, also the rotation of the container. *)
Definition moved_vertically (before after : Button) : Prop :=
  Actor._objectData after = Actor._objectData before
  ∧ Actor.children after = Actor.children before
  ∧ Actor.displayComponents after = Actor.displayComponents before
  ∧ Vector.x (Transform.position (Renderable.transform (Actor.base after)))
    = Vector.x (Transform.position (Renderable.transform (Actor.base before)))
  ∧ Vector.z (Transform.position (Renderable.transform (Actor.base after)))
    = Vector.z (Transform.position (Renderable.transform (Actor.base before)))
  ∧ Transform.rotation (Renderable.transform (Actor.base after))
    = Transform.rotation (Renderable.transform (Actor.base before))
  ∧ (∀ c, Vector.onComponentChanged
            (Transform.get c (Renderable.transform (Actor.base after)))
          = Vector.onComponentChanged
              (Transform.get c (Renderable.transform (Actor.base before))))
  ∧ PIXI.height (Renderable.container (Actor.base after))
    = PIXI.height (Renderable.container (Actor.base before))
  ∧ PIXI.children (Renderable.container (Actor.base after))
    = PIXI.children (Renderable.container (Actor.base before))
  ∧ PIXI.destroyed (Renderable.container (Actor.base after))
    = PIXI.destroyed (Renderable.container (Actor.base before))
  ∧ Renderable._internalAssetData (Actor.base after)
    = Renderable._internalAssetData (Actor.base before)
  ∧ (∀ ctx, wired ctx (Actor.base before) ->
       PIXI.rotation (PIXI.transform (Renderable.container (Actor.base after)))
       = PIXI.rotation (PIXI.transform (Renderable.container (Actor.base before)))).

(** * Renderable *)

Section RenderableFacts.

Import Renderable.

Lemma constructor_wired (this : ObjId) : wired this (constructor this).1.
Proof. repeat split. Qed.

Lemma wired_write (this : ObjId) (ch : Change) (r : t) :
  wired this r -> wired this (with_transform (write ch (transform r)) r).
Proof.
  intros (Hp & Hs & Hr).
  destruct ch as [[] [] a|[] a b]; repeat split; assumption.
Qed.

Lemma wired_invoke (this : ObjId) (h : Handler) (r : t) :
  wired this r -> wired this (invoke h r).
Proof. intros H. destruct h; exact H. Qed.

(** Under the constructor's wiring a change runs one callback, the one
    of the changed component. *)
Lemma change_wired (this : ObjId) (ch : Change) (r : t) :
  wired this r ->
  change ch r =
    (invoke (match changed ch with
             | Transform.Position => OnPositionChanged
             | Transform.Scale => OnScaleChanged
             | Transform.Rotation => OnRotationChanged
             end) (with_transform (write ch (transform r)) r),
     [Call (match changed ch with
            | Transform.Position => OnPositionChanged
            | Transform.Scale => OnScaleChanged
            | Transform.Rotation => OnRotationChanged
            end)]).
Proof.
  intros H. apply (wired_write this ch) in H. destruct H as (Hp & Hs & Hr).
  unfold change.
  destruct (changed ch); cbn [Transform.get];
    [rewrite Hp | rewrite Hs | rewrite Hr]; reflexivity.
Qed.

Lemma change_preserves_wired (this : ObjId) (ch : Change) (r : t) :
  wired this r -> wired this (change ch r).1.
Proof.
  intros H. rewrite (change_wired this ch r H). cbn [fst].
  apply wired_invoke, wired_write, H.
Qed.

Lemma changes_preserve_wired (this : ObjId) (chs : list Change) (r : t) :
  wired this r -> wired this (changes chs r).1.
Proof.
  revert r. induction chs as [|ch chs IH]; intros r H; [exact H|].
  cbn. apply IH, change_preserves_wired, H.
Qed.

Lemma invoke_transform (h : Handler) (r : t) : transform (invoke h r) = transform r.
Proof. destruct h; reflexivity. Qed.

End RenderableFacts.

Section RenderableClaims.

Import Renderable.

(** C5.  Constructing a renderable allocates exactly one backend
    container and exactly one transform, in that order, and then makes
    exactly three subscriptions: position changes to
    [onPositionChanged], scale changes to [onScaleChanged] and rotation
    changes to [onRotationChanged], each with the renderable itself as
    the context.  The subscriber lists of the new transform hold these
    three entries and nothing else. *)
Theorem constructor_allocates_and_subscribes (this : ObjId) :
  (constructor this).2 =
    [ NewContainer; NewTransform;
      Subscribe Transform.Position this OnPositionChanged;
      Subscribe Transform.Scale this OnScaleChanged;
      Subscribe Transform.Rotation this OnRotationChanged ]
  ∧ length (List.filter is_NewContainer (constructor this).2) = 1
  ∧ length (List.filter is_NewTransform (constructor this).2) = 1
  ∧ length (List.filter is_Subscribe (constructor this).2) = 3
  ∧ wired this (constructor this).1.
Proof.
  split; [reflexivity|].
  split; [reflexivity|].
  split; [reflexivity|].
  split; [reflexivity|].
  apply constructor_wired.
Qed.

(** C6.  One call of [destroy] releases both owned resources, the
    backend container first and the transform second: the container is
    destroyed, the subscriber lists of the transform are released. *)
Theorem destroy_releases_container_then_transform (r : t) :
  (destroy r).2 = [DestroyContainer; DestroyTransform]
  ∧ PIXI.destroyed (container (destroy r).1) = true
  ∧ container (destroy r).1 = PIXI.destroy (container r)
  ∧ transform (destroy r).1 = Transform.destroy (transform r)
  ∧ (∀ c, Vector.onComponentChanged (Transform.get c (transform (destroy r).1)) = []).
Proof.
  repeat split. intros []; reflexivity.
Qed.

(** C4.  Each synchronization callback copies the current values of the
    transform into the container: [onPositionChanged] the position x and
    y, [onScaleChanged] the scale x and y, [onRotationChanged] the
    rotation z.  The constructor leaves a renderable with its three
    subscriptions and no other, and this is kept by every change.  On
    every renderable in that state, whatever its container, its asset
    data and the values of its transform are (a button, a bank, a
    display component), a change of the position, the scale or the
    rotation of its transform stores the new values and runs exactly
    one callback, the one of the changed component, after which the
    container fields of that component equal the transform's current
    values.  In particular this holds on a renderable built by the
    constructor and changed any number of times since. *)
Theorem change_runs_one_synchronization :
  (∀ r : t,
      PIXI.x (PIXI.position (PIXI.transform (container (onPositionChanged r))))
        = Vector.x (Transform.position (transform r))
      ∧ PIXI.y (PIXI.position (PIXI.transform (container (onPositionChanged r))))
        = Vector.y (Transform.position (transform r))
      ∧ PIXI.x (PIXI.scale (PIXI.transform (container (onScaleChanged r))))
        = Vector.x (Transform.scale (transform r))
      ∧ PIXI.y (PIXI.scale (PIXI.transform (container (onScaleChanged r))))
        = Vector.y (Transform.scale (transform r))
      ∧ PIXI.rotation (PIXI.transform (container (onRotationChanged r)))
        = Vector.z (Transform.rotation (transform r)))
  ∧ (∀ this : ObjId, wired this (constructor this).1)
  ∧ (∀ (this : ObjId) (r : t) (ch : Change),
        wired this r ->
        wired this (change ch r).1
        ∧ transform (change ch r).1 = write ch (transform r)
        ∧ match changed ch with
          | Transform.Position =>
              (change ch r).2 = [Call OnPositionChanged]
              ∧ PIXI.x (PIXI.position (PIXI.transform (container (change ch r).1)))
                = Vector.x (Transform.position (transform (change ch r).1))
              ∧ PIXI.y (PIXI.position (PIXI.transform (container (change ch r).1)))
                = Vector.y (Transform.position (transform (change ch r).1))
          | Transform.Scale =>
              (change ch r).2 = [Call OnScaleChanged]
              ∧ PIXI.x (PIXI.scale (PIXI.transform (container (change ch r).1)))
                = Vector.x (Transform.scale (transform (change ch r).1))
              ∧ PIXI.y (PIXI.scale (PIXI.transform (container (change ch r).1)))
                = Vector.y (Transform.scale (transform (change ch r).1))
          | Transform.Rotation =>
              (change ch r).2 = [Call OnRotationChanged]
              ∧ PIXI.rotation (PIXI.transform (container (change ch r).1))
                = Vector.z (Transform.rotation (transform (change ch r).1))
          end)
  ∧ (∀ (this : ObjId) (earlier : list Change) (ch : Change),
        let r := (changes earlier (constructor this).1).1 in
        let r' := (change ch r).1 in
        transform r' = write ch (transform r)
        ∧ match changed ch with
          | Transform.Position =>
              (change ch r).2 = [Call OnPositionChanged]
              ∧ PIXI.x (PIXI.position (PIXI.transform (container r')))
                = Vector.x (Transform.position (transform r'))
              ∧ PIXI.y (PIXI.position (PIXI.transform (container r')))
                = Vector.y (Transform.position (transform r'))
          | Transform.Scale =>
              (change ch r).2 = [Call OnScaleChanged]
              ∧ PIXI.x (PIXI.scale (PIXI.transform (container r')))
                = Vector.x (Transform.scale (transform r'))
              ∧ PIXI.y (PIXI.scale (PIXI.transform (container r')))
                = Vector.y (Transform.scale (transform r'))
          | Transform.Rotation =>
              (change ch r).2 = [Call OnRotationChanged]
              ∧ PIXI.rotation (PIXI.transform (container r'))
                = Vector.z (Transform.rotation (transform r'))
          end).
Proof.
  split; [intros r; repeat split|].
  split; [apply constructor_wired|].
  split.
  - intros this r ch H.
    split; [apply change_preserves_wired, H|].
    rewrite (change_wired this ch r H). cbn [fst snd].
    split; [apply invoke_transform|].
    destruct (changed ch); repeat split.
  - intros this earlier ch r r'. subst r'.
    assert (H : wired this r)
      by (apply changes_preserve_wired, constructor_wired).
    rewrite (change_wired this ch r H). cbn [fst snd].
    split; [apply invoke_transform|].
    destruct (changed ch); repeat split.
Qed.

(** C7.  The synchronization callbacks mutate only the container fields
    they mirror.  [onPositionChanged] leaves the transform and the asset
    data of the renderable and, in the container, the scale, the
    rotation, the height, the children and the destroyed flag as they
    were;
    [onScaleChanged] and [onRotationChanged] likewise for their fields.
    Hence a change of one component of the transform of a renderable
    leaves every container field outside that component untouched. *)
Theorem synchronization_frame :
  (∀ r : t,
      transform (onPositionChanged r) = transform r
      ∧ _internalAssetData (onPositionChanged r) = _internalAssetData r
      ∧ same_outside Transform.Position (container r) (container (onPositionChanged r)))
  ∧ (∀ r : t,
      transform (onScaleChanged r) = transform r
      ∧ _internalAssetData (onScaleChanged r) = _internalAssetData r
      ∧ same_outside Transform.Scale (container r) (container (onScaleChanged r)))
  ∧ (∀ r : t,
      transform (onRotationChanged r) = transform r
      ∧ _internalAssetData (onRotationChanged r) = _internalAssetData r
      ∧ same_outside Transform.Rotation (container r) (container (onRotationChanged r)))
  ∧ (∀ (this : ObjId) (earlier : list Change) (ch : Change),
        let r := (changes earlier (constructor this).1).1 in
        _internalAssetData (change ch r).1 = _internalAssetData r
        ∧ same_outside (changed ch) (container r) (container (change ch r).1)).
Proof.
  split; [intros r; repeat split|].
  split; [intros r; repeat split|].
  split; [intros r; repeat split|].
  intros this earlier ch r.
  assert (H : wired this r)
    by (apply changes_preserve_wired, constructor_wired).
  rewrite (change_wired this ch r H). cbn [fst].
  destruct (changed ch); repeat split.
Qed.

(** The example of the specification: position.x = 5 gives
    container.x = 5. *)
Example position_x_5 :
  PIXI.x (PIXI.position (PIXI.transform (container
    (change (Assign Transform.Position Vector.X 5)
       (constructor (ButtonId 0)).1).1))) = 5%float.
Proof. reflexivity. Qed.

End RenderableClaims.

(** * VentureBank *)

Section MonadFacts.

Import VentureBank.

Lemma bind_Ok {A B} (m : M A) (k : A -> M B) (w w1 : World) (a : A) :
  m w = Ok (a, w1) -> (m ≫= k) w = k a w1.
Proof. intros H. unfold mbind, M_bind. rewrite H. reflexivity. Qed.

Lemma bind_Throw {A B} (m : M A) (k : A -> M B) (w : World) (e : Error) :
  m w = Throw e -> (m ≫= k) w = Throw e.
Proof. intros H. unfold mbind, M_bind. rewrite H. reflexivity. Qed.

Lemma get_bank_Ok (w : World) (this : nat) (b : t) :
  banks w !! this = Some b -> get_bank this w = Ok (b, w).
Proof. intros H. unfold get_bank, mbind, M_bind, get. rewrite H. reflexivity. Qed.

Lemma modify_bank_Ok (w : World) (this : nat) (b : t) (f : t -> t) :
  banks w !! this = Some b ->
  modify_bank this f w = Ok (tt, with_banks (<[this := f b]> (banks w)) w).
Proof.
  intros H. unfold modify_bank.
  rewrite (bind_Ok _ _ _ _ _ (get_bank_Ok w this b H)). reflexivity.
Qed.

Lemma get_button_Ok (w : World) (id : nat) (b : Button) :
  buttons w !! id = Some b -> get_button id w = Ok (b, w).
Proof. intros H. unfold get_button, mbind, M_bind, get. rewrite H. reflexivity. Qed.

Lemma modify_button_Ok (w : World) (id : nat) (b : Button) (f : Button -> Button) :
  buttons w !! id = Some b ->
  modify_button id f w = Ok (tt, with_buttons (<[id := f b]> (buttons w)) w).
Proof.
  intros H. unfold modify_button.
  rewrite (bind_Ok _ _ _ _ _ (get_button_Ok w id b H)). reflexivity.
Qed.

Lemma balance_setValue_Ok (w : World) (this : nat) (b : t) (v : number) :
  banks w !! this = Some b ->
  balance_setValue this v w =
    Ok (tt, with_notified
              (notified w ++ [(Observable.setValue v (balance b)).2])
              (with_banks
                 (<[this := with_balance (Observable.setValue v (balance b)).1 b]>
                    (banks w)) w)).
Proof.
  intros H. unfold balance_setValue.
  rewrite (bind_Ok _ _ _ _ _ (get_bank_Ok w this b H)). cbn zeta.
  rewrite (bind_Ok _ _ _ _ _ (modify_bank_Ok w this b _ H)). reflexivity.
Qed.

Lemma balance_adjust_Ok (w : World) (this : nat) (b : t) (d : number) :
  banks w !! this = Some b ->
  balance_adjust this d w =
    Ok (tt, with_notified
              (notified w ++ [(Observable.adjust d (balance b)).2])
              (with_banks
                 (<[this := with_balance (Observable.adjust d (balance b)).1 b]>
                    (banks w)) w)).
Proof.
  intros H. unfold balance_adjust.
  rewrite (bind_Ok _ _ _ _ _ (get_bank_Ok w this b H)). cbn zeta.
  rewrite (bind_Ok _ _ _ _ _ (modify_bank_Ok w this b _ H)). reflexivity.
Qed.

Lemma globalProfitMultiplier_setValue_Ok (w : World) (this : nat) (b : t) (v : number) :
  banks w !! this = Some b ->
  globalProfitMultiplier_setValue this v w =
    Ok (tt, with_notified
              (notified w ++ [(Observable.setValue v (globalProfitMultiplier b)).2])
              (with_banks
                 (<[this := with_globalProfitMultiplier
                              (Observable.setValue v (globalProfitMultiplier b)).1 b]>
                    (banks w)) w)).
Proof.
  intros H. unfold globalProfitMultiplier_setValue.
  rewrite (bind_Ok _ _ _ _ _ (get_bank_Ok w this b H)). cbn zeta.
  rewrite (bind_Ok _ _ _ _ _ (modify_bank_Ok w this b _ H)). reflexivity.
Qed.

Lemma lookup_insert_same {A} (l : list A) (i : nat) (x y : A) :
  l !! i = Some x -> <[i := y]> l !! i = Some y.
Proof. intros H. apply list_lookup_insert_eq. eapply lookup_lt_Some, H. Qed.

End MonadFacts.

Section SaveRestore.

Import VentureBank.

Variable Actor_save : nat -> World -> World.
Variable Actor_restore : nat -> World -> World.

(** What is assumed of the base class: saving leaves the observables of
    the bank alone; restoring reads the store without writing it and
    keeps the bank. *)
Hypothesis Actor_save_bank :
  ∀ this w, banks (Actor_save this w) !! this = banks w !! this.
Hypothesis Actor_restore_localStorage :
  ∀ this w, localStorage (Actor_restore this w) = localStorage w.
Hypothesis Actor_restore_bank :
  ∀ this w, is_Some (banks w !! this) -> is_Some (banks (Actor_restore this w) !! this).

Lemma save_writes (w : World) (this : nat) (bank : t) :
  banks w !! this = Some bank ->
  ∃ w1, save Actor_save this w = Ok (tt, w1)
        ∧ localStorage w1 !! "Balance" = Some (Observable.value (balance bank))
        ∧ localStorage w1 !! "GlobalProfitMultiplier"
          = Some (Observable.value (globalProfitMultiplier bank)).
Proof.
  intros H. rewrite <- (Actor_save_bank this w) in H.
  eexists. split.
  - unfold save.
    rewrite (bind_Ok _ _ _ (Actor_save this w) tt eq_refl).
    rewrite (bind_Ok _ _ _ _ tt
               (bind_Ok _ _ _ _ _ (get_bank_Ok _ this bank H))).
    cbn beta. unfold localStorage_setValue at 1, modify at 1. cbn beta.
    erewrite (bind_Ok (get_bank this)); [|apply get_bank_Ok; exact H].
    reflexivity.
  - cbn [localStorage with_localStorage]. split.
    + rewrite lookup_insert_ne by done. apply lookup_insert_eq.
    + apply lookup_insert_eq.
Qed.

Lemma localStorage_getNumber_Ok (key : string) (d : number) (w : World) :
  localStorage_getNumber key d w = Ok (default d (localStorage w !! key), w).
Proof. reflexivity. Qed.

Lemma restore_reads (w : World) (this : nat) :
  is_Some (banks w !! this) ->
  ∃ w' bank',
    restore Actor_restore this w = Ok (tt, w')
    ∧ banks w' !! this = Some bank'
    ∧ Observable.value (balance bank')
      = default 0%float (localStorage w !! "Balance")
    ∧ Observable.value (globalProfitMultiplier bank')
      = default 1%float (localStorage w !! "GlobalProfitMultiplier").
Proof.
  intros H.
  destruct (Actor_restore_bank this w H) as [b0 Hb0].
  pose proof (Actor_restore_localStorage this w) as Hs.
  set (w0 := Actor_restore this w) in *.
  set (b1 := with_balance
               (Observable.setValue (default 0%float (localStorage w0 !! "Balance"))
                  (balance b0)).1 b0).
  eexists _, (with_globalProfitMultiplier _ b1).
  split; [|split; [|split]].
  - unfold restore.
    rewrite (bind_Ok _ _ _ w0 tt eq_refl).
    erewrite (bind_Ok (_ ≫= _)); cycle 1.
    { rewrite (bind_Ok _ _ _ _ _ (localStorage_getNumber_Ok _ _ _)).
      apply (balance_setValue_Ok w0 this b0), Hb0. }
    rewrite (bind_Ok _ _ _ _ _ (localStorage_getNumber_Ok _ _ _)).
    apply globalProfitMultiplier_setValue_Ok.
    cbn [banks with_banks with_notified]. apply (lookup_insert_same _ _ b0), Hb0.
  - cbn [banks with_banks with_notified].
    apply (lookup_insert_same _ _ b1).
    apply (lookup_insert_same _ _ b0), Hb0.
  - cbn. rewrite Hs. reflexivity.
  - cbn. rewrite Hs. reflexivity.
Qed.

(** C8.  [restore] never throws, whatever the store holds: on every bank
    it completes, and leaves the balance equal to the stored "Balance",
    or to 0 when that key is absent, and the multiplier equal to the
    stored "GlobalProfitMultiplier", or to 1 when that key is absent;
    with neither key in the store the bank has balance 0 and
    multiplier 1. *)
Theorem restore_never_throws (w : World) (this : nat) :
  is_Some (banks w !! this) ->
  ∃ w' bank',
    restore Actor_restore this w = Ok (tt, w')
    ∧ banks w' !! this = Some bank'
    ∧ Observable.value (balance bank')
      = default 0%float (localStorage w !! "Balance")
    ∧ Observable.value (globalProfitMultiplier bank')
      = default 1%float (localStorage w !! "GlobalProfitMultiplier")
    ∧ (localStorage w !! "Balance" = None ->
       localStorage w !! "GlobalProfitMultiplier" = None ->
       Observable.value (balance bank') = 0%float
       ∧ Observable.value (globalProfitMultiplier bank') = 1%float).
Proof.
  intros H. destruct (restore_reads w this H) as (w' & bank' & Hr & Hb & Hv & Hm).
  exists w', bank'.
  split; [exact Hr|]. split; [exact Hb|]. split; [exact Hv|]. split; [exact Hm|].
  intros HB HM. rewrite HB in Hv. rewrite HM in Hm. split; assumption.
Qed.

(** C2.  [save] on a bank with balance b and multiplier m, followed by
    [restore] on any bank (a fresh one after a reload) of any world that
    holds the store as [save] left it, gives that bank balance b and
    multiplier m; and when neither key was ever saved, [restore] gives
    balance 0 and multiplier 1, the defaults passed to [getNumber]. *)
Theorem save_then_restore :
  (∀ (w : World) (this : nat) (bank : t),
      banks w !! this = Some bank ->
      ∃ w1,
        save Actor_save this w = Ok (tt, w1)
        ∧ ∀ (w2 : World) (fresh : nat),
            localStorage w2 = localStorage w1 ->
            is_Some (banks w2 !! fresh) ->
            ∃ w3 bank',
              restore Actor_restore fresh w2 = Ok (tt, w3)
              ∧ banks w3 !! fresh = Some bank'
              ∧ Observable.value (balance bank')
                = Observable.value (balance bank)
              ∧ Observable.value (globalProfitMultiplier bank')
                = Observable.value (globalProfitMultiplier bank))
  ∧ (∀ (w : World) (fresh : nat),
        is_Some (banks w !! fresh) ->
        localStorage w !! "Balance" = None ->
        localStorage w !! "GlobalProfitMultiplier" = None ->
        ∃ w' bank',
          restore Actor_restore fresh w = Ok (tt, w')
          ∧ banks w' !! fresh = Some bank'
          ∧ Observable.value (balance bank') = 0%float
          ∧ Observable.value (globalProfitMultiplier bank') = 1%float).
Proof.
  split.
  - intros w this bank H.
    destruct (save_writes w this bank H) as (w1 & Hsave & Hb & Hm).
    exists w1. split; [exact Hsave|].
    intros w2 fresh Hs H2.
    destruct (restore_reads w2 fresh H2) as (w3 & bank' & Hr & Hb' & Hv & Hm').
    exists w3, bank'. rewrite Hs, Hb in Hv. rewrite Hs, Hm in Hm'.
    repeat split; assumption.
  - intros w fresh H HB HM.
    destruct (restore_reads w fresh H) as (w' & bank' & Hr & Hb' & Hv & Hm').
    exists w', bank'. rewrite HB in Hv. rewrite HM in Hm'.
    repeat split; assumption.
Qed.

End SaveRestore.

(** A run of [restore] in the scenario world, whose store is empty. *)
Lemma restore_never_throws_witness :
  is_Some (VentureBank.banks Scenario.constructed !! 0)
  ∧ ∃ w' bank',
      VentureBank.restore Scenario.unchanged 0 Scenario.constructed
        = VentureBank.Ok (tt, w')
      ∧ VentureBank.banks w' !! 0 = Some bank'
      ∧ Observable.value (VentureBank.balance bank') = 0%float
      ∧ Observable.value (VentureBank.globalProfitMultiplier bank') = 1%float.
Proof.
  assert (H : is_Some (VentureBank.banks Scenario.constructed !! 0))
    by (rewrite is_Some_alt; vm_compute; exact I).
  split; [exact H|].
  destruct (restore_never_throws Scenario.unchanged
              (fun _ _ => eq_refl) (fun _ _ h => h) Scenario.constructed 0 H)
    as (w' & bank' & Hr & Hb & _ & _ & Hd).
  exists w', bank'.
  split; [exact Hr|]. split; [exact Hb|].
  apply Hd; vm_compute; reflexivity.
Defined.

(** A bank holding balance 150 and multiplier 2 is saved; after a
    reload (a newly constructed world over the saved store) the new
    bank restores 150 and 2. *)
Lemma save_then_restore_witness :
  ∃ bank w1,
    VentureBank.banks (Scenario.holding 150 2) !! 0 = Some bank
    ∧ VentureBank.save Scenario.unchanged 0 (Scenario.holding 150 2)
      = VentureBank.Ok (tt, w1)
    ∧ ∃ w3 bank',
        VentureBank.restore Scenario.unchanged 0
          (VentureBank.with_localStorage (VentureBank.localStorage w1)
             Scenario.constructed)
        = VentureBank.Ok (tt, w3)
        ∧ VentureBank.banks w3 !! 0 = Some bank'
        ∧ Observable.value (VentureBank.balance bank') = 150%float
        ∧ Observable.value (VentureBank.globalProfitMultiplier bank') = 2%float.
Proof.
  destruct (VentureBank.banks (Scenario.holding 150 2) !! 0) as [bank|] eqn:Hbank;
    [|vm_compute in Hbank; discriminate].
  destruct (proj1 (save_then_restore Scenario.unchanged Scenario.unchanged
                     (fun _ _ => eq_refl) (fun _ _ => eq_refl) (fun _ _ h => h))
              (Scenario.holding 150 2) 0 bank Hbank)
    as (w1 & Hsave & Hrestore).
  exists bank, w1. split; [reflexivity|]. split; [exact Hsave|].
  destruct (Hrestore
              (VentureBank.with_localStorage (VentureBank.localStorage w1)
                 Scenario.constructed) 0 eq_refl)
    as (w3 & bank' & Hr & Hb & Hv & Hm).
  { rewrite is_Some_alt. vm_compute. exact I. }
  exists w3, bank'.
  split; [exact Hr|]. split; [exact Hb|].
  assert (Hvalues : Observable.value (VentureBank.balance bank) = 150%float
                    ∧ Observable.value (VentureBank.globalProfitMultiplier bank) = 2%float).
  { vm_compute in Hbank. injection Hbank as <-. split; reflexivity. }
  rewrite Hv, Hm. exact Hvalues.
Defined.

Section CycleComplete.

Import VentureBank.

(** Running the handlers of the banks [l], each once: every bank of [l]
    gains the profit, every other bank keeps its balance. *)
Lemma publish_handlers (business : VentureBusiness.t) (l : list nat) :
  NoDup l ->
  ∀ w : World,
    (∀ n, n ∈ l -> n < length (banks w)) ->
    ∃ w',
      forM_ (map AdjustBalance l) (fun h => run_CycleHandler h business) w = Ok (tt, w')
      ∧ length (banks w') = length (banks w)
      ∧ ∀ n b, banks w !! n = Some b ->
          ∃ b', banks w' !! n = Some b'
                ∧ Observable.value (balance b')
                  = if decide (n ∈ l)
                    then Observable.value (balance b) +. VentureBusiness.profit business
                    else Observable.value (balance b).
Proof.
  induction 1 as [|m l Hm Hl IH]; intros w Hlt.
  - exists w. split; [reflexivity|]. split; [reflexivity|].
    intros n b Hb. exists b. split; [exact Hb|].
    rewrite decide_False by apply not_elem_of_nil. reflexivity.
  - destruct (lookup_lt_is_Some_2 (banks w) m) as [bm Hbm];
      [apply Hlt; left|].
    pose proof (balance_adjust_Ok w m bm (VentureBusiness.profit business) Hbm) as Hstep.
    set (w1 := with_notified _ _) in Hstep.
    destruct (IH w1) as (w' & Hrun & Hlen & Hbanks).
    { intros n Hn. cbn [w1 banks with_banks with_notified].
      rewrite length_insert. apply Hlt. right. exact Hn. }
    exists w'. split; [|split].
    + cbn [map forM_]. cbn [run_CycleHandler].
      rewrite (bind_Ok _ _ _ _ _ Hstep). exact Hrun.
    + rewrite Hlen. cbn [w1 banks with_banks with_notified]. apply length_insert.
    + intros n b Hb. destruct (decide (n = m)) as [->|Hne].
      * destruct (Hbanks m (with_balance
                              (Observable.adjust (VentureBusiness.profit business)
                                 (balance bm)).1 bm)) as (b' & Hb' & Hv).
        { cbn [w1 banks with_banks with_notified].
          apply (lookup_insert_same _ _ bm), Hbm. }
        exists b'. split; [exact Hb'|]. rewrite Hv.
        rewrite decide_False by exact Hm.
        rewrite decide_True by left.
        rewrite Hbm in Hb. injection Hb as <-. reflexivity.
      * destruct (Hbanks n b) as (b' & Hb' & Hv).
        { cbn [w1 banks with_banks with_notified].
          rewrite list_lookup_insert_ne by congruence. exact Hb. }
        exists b'. split; [exact Hb'|]. rewrite Hv.
        destruct (decide (n ∈ l)) as [Hin|Hin].
        -- rewrite decide_True by (right; exact Hin). reflexivity.
        -- rewrite decide_False; [reflexivity|].
           intros [->|Hin']%elem_of_cons; [congruence|exact (Hin Hin')].
Qed.

(** C3.  In a world where every bank is subscribed to the cycle event
    exactly once, publishing one ON_CYCLE_COMPLETE event for a business
    with profit p returns, runs the handler of a bank exactly once, and
    leaves a bank that had balance b with balance b + p. *)
Theorem publish_adds_profit_once
    (w : World) (this : nat) (bank : t) (business : VentureBusiness.t) :
  subscribed_once w ->
  banks w !! this = Some bank ->
  ∃ w' bank',
    ON_CYCLE_COMPLETE_publish business w = Ok (tt, w')
    ∧ banks w' !! this = Some bank'
    ∧ Observable.value (balance bank')
      = Observable.value (balance bank) +. VentureBusiness.profit business
    ∧ length (filter (fun h => h = AdjustBalance this)
                (EventSubscription.callbacks (ON_CYCLE_COMPLETE w))) = 1.
Proof.
  intros Hsub Hbank.
  assert (Hin : this ∈ seq 0 (length (banks w))).
  { apply elem_of_seq. pose proof (lookup_lt_Some _ _ _ Hbank). lia. }
  destruct (publish_handlers business (seq 0 (length (banks w))) (NoDup_seq _ _) w)
    as (w' & Hrun & _ & Hbanks).
  { intros n Hn%elem_of_seq. lia. }
  destruct (Hbanks this bank Hbank) as (bank' & Hb' & Hv).
  exists w', bank'. split; [|split; [exact Hb'|split]].
  - unfold ON_CYCLE_COMPLETE_publish.
    rewrite (bind_Ok get _ w w w eq_refl). rewrite Hsub. exact Hrun.
  - rewrite Hv. rewrite decide_True by exact Hin. reflexivity.
  - rewrite Hsub. clear -Hin.
    apply elem_of_seq in Hin. destruct Hin as [_ Hlt]. cbn in Hlt.
    generalize dependent (length (banks w)). intros k Hlt.
    replace k with (this + (1 + (k - this - 1))) by lia.
    rewrite !seq_app, !map_app, !filter_app, !length_app.
    cbn [seq map]. rewrite filter_cons_True by reflexivity. cbn [filter length].
    assert (Hnone : ∀ (l : list nat), this ∉ l ->
              length (filter (fun h => h = AdjustBalance this) (map AdjustBalance l)) = 0).
    { induction l as [|a l IH]; intros Hn; [reflexivity|].
      cbn [map]. rewrite filter_cons_False.
      - apply IH. intros Hl. apply Hn. right. exact Hl.
      - intros [= ->]. apply Hn. left. }
    rewrite !Hnone; [reflexivity| |]; intros H%elem_of_seq; lia.
Qed.

End CycleComplete.

(** The example of the specification: profit 50 on a bank with balance
    100 leaves balance 150. *)
Lemma publish_adds_profit_once_witness :
  subscribed_once (Scenario.holding 100 1)
  ∧ Scenario.balance_of (Scenario.holding 100 1) 0 = Some 100%float
  ∧ ∃ w',
      VentureBank.ON_CYCLE_COMPLETE_publish (Scenario.earning 50) (Scenario.holding 100 1)
        = VentureBank.Ok (tt, w')
      ∧ Scenario.balance_of w' 0 = Some 150%float.
Proof.
  assert (Hsub : subscribed_once (Scenario.holding 100 1))
    by (vm_compute; reflexivity).
  split; [exact Hsub|]. split; [vm_compute; reflexivity|].
  destruct (VentureBank.banks (Scenario.holding 100 1) !! 0) as [bank|] eqn:Hbank;
    [|vm_compute in Hbank; discriminate].
  destruct (publish_adds_profit_once (Scenario.holding 100 1) 0 bank
              (Scenario.earning 50) Hsub Hbank)
    as (w' & bank' & Hrun & Hb' & Hv & _).
  exists w'. split; [exact Hrun|].
  unfold Scenario.balance_of. rewrite Hb'. cbn. rewrite Hv.
  vm_compute in Hbank. injection Hbank as <-. reflexivity.
Defined.

Section Construction.

Import VentureBank.

Lemma insert_snoc {A} (l : list A) (x y : A) :
  <[length l := y]> (l ++ [x]) = l ++ [y].
Proof.
  rewrite insert_app_r_alt by lia. rewrite Nat.sub_diag. reflexivity.
Qed.

Lemma lookup_snoc {A} (l : list A) (x : A) : (l ++ [x]) !! length l = Some x.
Proof. apply list_lookup_middle. reflexivity. Qed.

Lemma modify_button_last (w : World) (l : list Button) (b : Button)
    (f : Button -> Button) :
  buttons w = l ++ [b] ->
  modify_button (length l) f w = Ok (tt, with_buttons (l ++ [f b]) w).
Proof.
  intros H.
  rewrite (modify_button_Ok w (length l) b f) by (rewrite H; apply lookup_snoc).
  rewrite H, insert_snoc. reflexivity.
Qed.

Lemma createManagerButton_Ok (this : nat) (business : VentureBusinessData.t)
    (w : World) (bank : t) :
  banks w !! this = Some bank ->
  ∃ button : Button,
    ButtonData.name (Actor._objectData button) = VentureBusinessData.name business
    ∧ createManagerButton this business w =
        Ok (tt, with_banks
                  (<[this := registered (length (buttons w))
                               (VentureBusinessData.name business) bank]> (banks w))
                  (with_buttons (buttons w ++ [button]) w)).
Proof.
  intros H. eexists. split; cycle 1.
  - unfold createManagerButton.
    rewrite (bind_Ok _ _ _ _ _ (get_bank_Ok w this bank H)). cbn zeta.
    unfold new_Button.
    rewrite (bind_Ok (get ≫= _) _ w _ (length (buttons w)) eq_refl).
    erewrite (bind_Ok (modify_button _ _));
      [|apply modify_button_last; reflexivity].
    erewrite (bind_Ok (modify_button _ _));
      [|apply modify_button_last; reflexivity].
    erewrite (bind_Ok (modify_button _ _));
      [|apply modify_button_last; reflexivity].
    erewrite (bind_Ok (modify_bank _ _)); [|apply modify_bank_Ok; exact H].
    erewrite modify_bank_Ok;
      [|cbn [banks with_banks with_buttons]; apply (lookup_insert_same _ _ bank), H].
    cbn [banks with_banks with_buttons]. rewrite list_insert_insert_eq.
    reflexivity.
  - reflexivity.
Qed.

Lemma createManagerButtons_loop (this : nat) (businesses : list VentureBusinessData.t) :
  ∀ (w : World) (bank : t),
    banks w !! this = Some bank ->
    ∃ created : list Button,
      length created = length businesses
      ∧ (∀ i business, businesses !! i = Some business ->
           ∃ button, created !! i = Some button
                     ∧ ButtonData.name (Actor._objectData button)
                       = VentureBusinessData.name business)
      ∧ forM_ businesses (createManagerButton this) w =
          Ok (tt, with_banks
                    (<[this := registered_all (length (buttons w)) businesses bank]>
                       (banks w))
                    (with_buttons (buttons w ++ created) w)).
Proof.
  induction businesses as [|business businesses IH]; intros w bank H.
  - exists []. split; [reflexivity|]. split; [intros i b Hi; discriminate|].
    cbn [forM_ registered_all]. rewrite app_nil_r.
    rewrite list_insert_id by exact H.
    destruct w; reflexivity.
  - destruct (createManagerButton_Ok this business w bank H) as (button & Hname & Hstep).
    set (w1 := with_banks _ _) in Hstep.
    destruct (IH w1 (registered (length (buttons w))
                       (VentureBusinessData.name business) bank))
      as (created & Hlen & Hnames & Hrun).
    { cbn [w1 banks with_banks with_buttons].
      apply (lookup_insert_same _ _ bank), H. }
    exists (button :: created). split; [cbn; rewrite Hlen; reflexivity|]. split.
    + intros [|i] b Hi.
      * injection Hi as <-. exists button. split; [reflexivity|exact Hname].
      * apply (Hnames i b Hi).
    + cbn [forM_]. rewrite (bind_Ok _ _ _ _ _ Hstep). rewrite Hrun.
      cbn [w1 banks buttons with_banks with_buttons registered_all].
      rewrite list_insert_insert_eq, length_app, <- app_assoc.
      cbn [length app]. replace (length (buttons w) + 1) with (S (length (buttons w))) by lia.
      reflexivity.
Qed.

Lemma registered_all_managerButtons (businesses : list VentureBusinessData.t) :
  ∀ (first : nat) (bank : t) (name : string),
    managerButtons (registered_all first businesses bank) !! name
    = match last_index name (names businesses) with
      | Some i => Some (first + i)
      | None => managerButtons bank !! name
      end.
Proof.
  induction businesses as [|business businesses IH]; intros first bank name;
    [reflexivity|].
  cbn [registered_all names map last_index]. rewrite IH. fold (names businesses).
  destruct (last_index name (names businesses)) as [i|].
  - f_equal. lia.
  - cbn [registered managerButtons with_actor with_managerButtons].
    destruct (decide (VentureBusinessData.name business = name)) as [->|Hne].
    + rewrite lookup_insert_eq. f_equal. lia.
    + rewrite lookup_insert_ne by exact Hne. reflexivity.
Qed.

Lemma registered_all_children (businesses : list VentureBusinessData.t) :
  ∀ (first : nat) (bank : t),
    Actor.children (actor (registered_all first businesses bank))
    = Actor.children (actor bank) ++ map ButtonId (seq first (length businesses)).
Proof.
  induction businesses as [|business businesses IH]; intros first bank.
  - cbn. rewrite app_nil_r. reflexivity.
  - cbn [registered_all length seq map]. rewrite IH. cbn. rewrite <- app_assoc.
    reflexivity.
Qed.

(** [createManagerButtons] leaves the observables, the configuration and
    the display components of the bank as they are. *)
Lemma registered_all_frame (businesses : list VentureBusinessData.t) :
  ∀ (first : nat) (bank : t),
    balance (registered_all first businesses bank) = balance bank
    ∧ purchaseMode (registered_all first businesses bank) = purchaseMode bank
    ∧ globalProfitMultiplier (registered_all first businesses bank)
      = globalProfitMultiplier bank
    ∧ Actor._objectData (actor (registered_all first businesses bank))
      = Actor._objectData (actor bank)
    ∧ Actor.displayComponents (actor (registered_all first businesses bank))
      = Actor.displayComponents (actor bank).
Proof.
  induction businesses as [|business businesses IH]; intros first bank.
  - repeat split.
  - cbn [registered_all].
    destruct (IH (S first) (registered first (VentureBusinessData.name business) bank))
      as (-> & -> & -> & -> & ->).
    repeat split.
Qed.

(** The world after [new VentureBank(actorData)]: one more bank, one
    more button for each business, one more subscription to the cycle
    event and one more notification. *)
Lemma constructor_Ok (actorData : VentureBankData.t) (w : World) :
  ∃ created : list Button,
    constructor actorData w =
      Ok (length (banks w),
          {| banks := banks w ++
                        [registered_all (length (buttons w))
                           (VentureBankData.businesses actorData)
                           (initial_bank (length (banks w)) actorData)];
             buttons := buttons w ++ created;
             ON_CYCLE_COMPLETE :=
               EventSubscription.subscribe (BankId (length (banks w)))
                 (AdjustBalance (length (banks w))) (ON_CYCLE_COMPLETE w);
             localStorage := localStorage w;
             innerHeight := innerHeight w;
             notified :=
               notified w ++
                 [ {| Observable.payload := 0%float;
                      Observable.observers :=
                        [ComponentId (BankId (length (banks w))) "balanceText"] |} ] |})
    ∧ length created = length (VentureBankData.businesses actorData)
    ∧ (∀ i business,
         VentureBankData.businesses actorData !! i = Some business ->
         ∃ button, created !! i = Some button
                   ∧ ButtonData.name (Actor._objectData button)
                     = VentureBusinessData.name business).
Proof.
  destruct (createManagerButtons_loop (length (banks w))
              (VentureBankData.businesses actorData)
              {| banks := banks w ++ [initial_bank (length (banks w)) actorData];
                 buttons := buttons w;
                 ON_CYCLE_COMPLETE :=
                   EventSubscription.subscribe (BankId (length (banks w)))
                     (AdjustBalance (length (banks w))) (ON_CYCLE_COMPLETE w);
                 localStorage := localStorage w;
                 innerHeight := innerHeight w;
                 notified :=
                   notified w ++
                     [ {| Observable.payload := 0%float;
                          Observable.observers :=
                            [ComponentId (BankId (length (banks w))) "balanceText"] |} ] |}
              (initial_bank (length (banks w)) actorData) (lookup_snoc _ _))
    as (created & Hlen & Hnames & Hrun).
  exists created. split; [|split; assumption].
  unfold constructor.
  rewrite (bind_Ok get _ w w w eq_refl). cbn zeta.
  rewrite (bind_Ok (modify _) _ w _ tt eq_refl).
  erewrite (bind_Ok (modify_bank _ _));
    [|apply modify_bank_Ok; cbn [banks with_banks]; apply lookup_snoc].
  cbn [banks with_banks]. rewrite insert_snoc.
  erewrite (bind_Ok (modify_bank _ _));
    [|apply modify_bank_Ok; cbn [banks with_banks]; apply lookup_snoc].
  cbn [banks with_banks]. rewrite insert_snoc.
  erewrite (bind_Ok (balance_adjust _ _));
    [|apply balance_adjust_Ok; cbn [banks with_banks]; apply lookup_snoc].
  cbn [banks with_banks with_notified]. rewrite insert_snoc.
  rewrite (bind_Ok (ON_CYCLE_COMPLETE_subscribe _ _) _ _ _ tt eq_refl).
  erewrite (bind_Ok (createManagerButtons _)); cycle 1.
  { unfold createManagerButtons.
    erewrite (bind_Ok (get_bank _));
      [|apply get_bank_Ok; cbn [banks with_banks with_notified with_ON_CYCLE_COMPLETE];
        apply lookup_snoc].
    exact Hrun. }
  cbn [banks buttons with_banks with_buttons]. rewrite insert_snoc.
  reflexivity.
Qed.

Lemma last_index_None (name : string) (l : list string) :
  name ∉ l -> last_index name l = None.
Proof.
  induction l as [|n l IH]; intros H; [reflexivity|].
  cbn [last_index]. rewrite IH by (intros Hl; apply H; right; exact Hl).
  rewrite decide_False; [reflexivity|]. intros ->. apply H. left.
Qed.

Lemma last_index_lookup (name : string) (l : list string) :
  ∀ i, l !! i = Some name -> name ∉ drop (S i) l -> last_index name l = Some i.
Proof.
  induction l as [|n l IH]; intros i Hi Hlater; [discriminate|].
  destruct i as [|i]; cbn [last_index].
  - injection Hi as ->. rewrite last_index_None by exact Hlater.
    rewrite decide_True by reflexivity. reflexivity.
  - rewrite (IH i Hi Hlater). reflexivity.
Qed.

(** C10.  [new VentureBank(actorData)] returns, and immediately after it
    the bank has balance 0, multiplier 1 and purchase mode ONE; exactly
    one button has been created for every business, in order, carrying
    the name of its business; these buttons are the children of the
    bank, in order; [managerButtons] maps a name to the button of the
    last business of that name (a later business of the same name
    overwrites the entry of an earlier one) and holds no other name; and
    the constructor has made exactly one notification of the balance,
    with the unchanged value 0, delivered to the balance text. *)
Theorem constructor_initial_state (actorData : VentureBankData.t) (w : World) :
  ∃ (w' : World) (bank : t) (created : list Button),
    constructor actorData w = Ok (length (banks w), w')
    ∧ banks w' !! length (banks w) = Some bank
    ∧ Observable.value (balance bank) = 0%float
    ∧ Observable.value (globalProfitMultiplier bank) = 1%float
    ∧ Observable.value (purchaseMode bank) = ONE
    ∧ buttons w' = buttons w ++ created
    ∧ length created = length (VentureBankData.businesses actorData)
    ∧ (∀ i business,
         VentureBankData.businesses actorData !! i = Some business ->
         ∃ button, created !! i = Some button
                   ∧ ButtonData.name (Actor._objectData button)
                     = VentureBusinessData.name business)
    ∧ Actor.children (actor bank)
      = map ButtonId (seq (length (buttons w))
                        (length (VentureBankData.businesses actorData)))
    ∧ (∀ name,
         managerButtons bank !! name
         = (fun i => length (buttons w) + i)
             <$> last_index name (names (VentureBankData.businesses actorData)))
    ∧ (∀ i business,
         VentureBankData.businesses actorData !! i = Some business ->
         VentureBusinessData.name business
           ∉ names (drop (S i) (VentureBankData.businesses actorData)) ->
         managerButtons bank !! VentureBusinessData.name business
         = Some (length (buttons w) + i))
    ∧ notified w' =
        notified w ++
          [ {| Observable.payload := 0%float;
               Observable.observers :=
                 [ComponentId (BankId (length (banks w))) "balanceText"] |} ].
Proof.
  destruct (constructor_Ok actorData w) as (created & Hrun & Hlen & Hnames).
  set (bs := VentureBankData.businesses actorData) in *.
  set (first := length (buttons w)) in *.
  set (bank0 := initial_bank (length (banks w)) actorData) in *.
  destruct (registered_all_frame bs first bank0) as (Hb & Hp & Hm & _ & _).
  assert (Hmap : ∀ name,
             managerButtons (registered_all first bs bank0) !! name
             = (fun i => first + i) <$> last_index name (names bs)).
  { intros name. rewrite registered_all_managerButtons.
    destruct (last_index name (names bs)); reflexivity. }
  eexists _, (registered_all first bs bank0), created.
  split; [exact Hrun|]. cbn [banks buttons notified].
  split; [apply lookup_snoc|].
  split; [rewrite Hb; reflexivity|].
  split; [rewrite Hm; reflexivity|].
  split; [rewrite Hp; reflexivity|].
  split; [reflexivity|].
  split; [exact Hlen|].
  split; [exact Hnames|].
  split; [rewrite registered_all_children; reflexivity|].
  split; [exact Hmap|].
  split; [|reflexivity].
  intros i business Hi Hlater. rewrite Hmap.
  rewrite (last_index_lookup _ _ i); [reflexivity| |].
  - unfold names. rewrite list_lookup_fmap, Hi. reflexivity.
  - unfold names in *. rewrite <- fmap_drop. exact Hlater.
Qed.

(** The constructor keeps every bank subscribed exactly once. *)
Lemma constructor_subscribed_once (actorData : VentureBankData.t) (w : World) :
  subscribed_once w ->
  ∃ w', constructor actorData w = Ok (length (banks w), w') ∧ subscribed_once w'.
Proof.
  intros H. destruct (constructor_Ok actorData w) as (created & Hrun & _).
  eexists. split; [exact Hrun|].
  unfold subscribed_once in *. cbn [banks ON_CYCLE_COMPLETE].
  unfold EventSubscription.subscribe, EventSubscription.callbacks in *.
  rewrite map_app, H, length_app. cbn [length map].
  rewrite seq_app, map_app. reflexivity.
Qed.

Lemma empty_World_subscribed_once (h : number) : subscribed_once (empty_World h).
Proof. reflexivity. Qed.

Lemma last_index_lt (name : string) (l : list string) :
  ∀ i, last_index name l = Some i -> i < length l.
Proof.
  induction l as [|n l IH]; intros i H; [discriminate|].
  cbn [last_index] in H. destruct (last_index name l) as [j|].
  - injection H as <-. cbn. specialize (IH j eq_refl). lia.
  - destruct (decide (n = name)); [|discriminate]. injection H as <-. cbn. lia.
Qed.

Lemma last_index_elem (name : string) (l : list string) :
  name ∈ l -> is_Some (last_index name l).
Proof.
  induction l as [|n l IH]; intros H; [apply elem_of_nil in H; destruct H|].
  cbn [last_index]. destruct (last_index name l) as [j|] eqn:Hj; [eexists; reflexivity|].
  apply elem_of_cons in H as [->|H].
  - rewrite decide_True by reflexivity. eexists; reflexivity.
  - destruct (IH H) as [j Hj']. discriminate.
Qed.

(** The constructor establishes what [load] relies on: the balance text
    is a display component of the bank and every configured business
    has a manager button entry naming a button of the world. *)
Lemma constructor_prepares_load (actorData : VentureBankData.t) (w : World) :
  ∃ (w' : World) (bank : t),
    constructor actorData w = Ok (length (banks w), w')
    ∧ banks w' !! length (banks w) = Some bank
    ∧ Actor._objectData (actor bank) = actorData
    ∧ is_Some (Actor.getDisplayComponent "balanceText" (actor bank))
    ∧ ∀ business, business ∈ VentureBankData.businesses actorData ->
        ∃ id, managerButtons bank !! VentureBusinessData.name business = Some id
              ∧ is_Some (buttons w' !! id).
Proof.
  destruct (constructor_Ok actorData w) as (created & Hrun & Hlen & _).
  set (bs := VentureBankData.businesses actorData) in *.
  set (first := length (buttons w)) in *.
  set (bank0 := initial_bank (length (banks w)) actorData) in *.
  destruct (registered_all_frame bs first bank0) as (_ & _ & _ & Hdata & Hcomponents).
  eexists _, (registered_all first bs bank0).
  split; [exact Hrun|]. cbn [banks buttons].
  split; [apply lookup_snoc|].
  split; [rewrite Hdata; reflexivity|].
  split.
  { unfold Actor.getDisplayComponent. rewrite Hcomponents.
    cbn. rewrite lookup_insert_eq. eexists; reflexivity. }
  intros business Hin.
  assert (Hname : VentureBusinessData.name business ∈ names bs)
    by (apply list_elem_of_fmap; exists business; split; [reflexivity|exact Hin]).
  destruct (last_index_elem _ _ Hname) as [i Hi].
  exists (first + i). split.
  - rewrite registered_all_managerButtons, Hi. reflexivity.
  - apply lookup_lt_is_Some. apply last_index_lt in Hi.
    unfold names in Hi. rewrite length_map in Hi.
    rewrite length_app, Hlen. fold first. lia.
Qed.

End Construction.

Section Layout.

Import VentureBank.

Lemma publish_transform (e : EventSubscription.t Renderable.Handler) :
  ∀ r, Renderable.transform (Renderable.publish e r).1 = Renderable.transform r.
Proof.
  induction e as [|s e IH]; intros r; [reflexivity|].
  cbn. rewrite IH. apply invoke_transform.
Qed.

(** Whatever is subscribed, a change stores its value in the transform. *)
Lemma change_transform (ch : Renderable.Change) (r : Renderable.t) :
  Renderable.transform (Renderable.change ch r).1
  = Renderable.write ch (Renderable.transform r).
Proof. unfold Renderable.change. rewrite publish_transform. reflexivity. Qed.

Lemma offset_shift (start slot : number) (i : nat) :
  offset (start +. slot) slot i = offset start slot (S i).
Proof.
  induction i as [|i IH]; [reflexivity|].
  cbn [offset] in *. rewrite IH. reflexivity.
Qed.

Lemma managerButton_Ok (w : World) (this : nat) (bank : t) (name : string) (id : nat) :
  banks w !! this = Some bank ->
  managerButtons bank !! name = Some id ->
  managerButton this name w = Ok (id, w).
Proof.
  intros Hb Hm. unfold managerButton.
  rewrite (bind_Ok _ _ _ _ _ (get_bank_Ok w this bank Hb)). rewrite Hm. reflexivity.
Qed.

Lemma button_change_Ok (w : World) (id : nat) (b : Button) (ch : Renderable.Change) :
  buttons w !! id = Some b ->
  button_change id ch w =
    Ok (tt, with_buttons
              (<[id := Actor.with_base (Renderable.change ch (Actor.base b)).1 b]>
                 (buttons w)) w).
Proof. intros H. unfold button_change. exact (modify_button_Ok w id b _ H). Qed.

Lemma placed_transform (scaleFactor spawnHeight : number) (b : Button) :
  Renderable.transform (Actor.base (placed scaleFactor spawnHeight b))
  = Renderable.write (Renderable.Assign Transform.Position Vector.Y spawnHeight)
      (Renderable.write (Renderable.CallSet Transform.Scale scaleFactor None)
         (Renderable.transform (Actor.base b))).
Proof.
  unfold placed. cbn [Actor.base Actor.with_base].
  rewrite !change_transform. reflexivity.
Qed.

Lemma load_loop_round (this : nat) (bank : t) (scaleFactor heightPerButton : number)
    (business : VentureBusinessData.t) (businesses : list VentureBusinessData.t)
    (w : World) (spawnHeight : number) (id : nat) (b : Button) :
  banks w !! this = Some bank ->
  managerButtons bank !! VentureBusinessData.name business = Some id ->
  buttons w !! id = Some b ->
  load_loop this scaleFactor heightPerButton (business :: businesses) spawnHeight w
  = load_loop this scaleFactor heightPerButton businesses (spawnHeight +. heightPerButton)
      (with_buttons (<[id := placed scaleFactor spawnHeight b]> (buttons w)) w).
Proof.
  intros Hbank Hid Hb. cbn [load_loop].
  erewrite (bind_Ok (_ ≫= _)); cycle 1.
  { rewrite (bind_Ok _ _ _ _ _ (managerButton_Ok w this bank _ id Hbank Hid)).
    apply (button_change_Ok w id b), Hb. }
  erewrite (bind_Ok (_ ≫= _)); cycle 1.
  { erewrite (bind_Ok (managerButton _ _));
      [|apply (managerButton_Ok _ this bank _ id); [exact Hbank|exact Hid]].
    apply button_change_Ok. cbn [buttons with_buttons].
    apply (lookup_insert_same _ _ b), Hb. }
  cbn [buttons with_buttons]. rewrite list_insert_insert_eq. reflexivity.
Qed.

Lemma load_loop_Ok (this : nat) (bank : t) (scaleFactor heightPerButton : number)
    (businesses : list VentureBusinessData.t) :
  ∀ (w : World) (spawnHeight : number),
    banks w !! this = Some bank ->
    (∀ business, business ∈ businesses ->
       ∃ id, managerButtons bank !! VentureBusinessData.name business = Some id
             ∧ is_Some (buttons w !! id)) ->
    ∃ placed_buttons : list Button,
      load_loop this scaleFactor heightPerButton businesses spawnHeight w
      = Ok (tt, with_buttons placed_buttons w)
      ∧ length placed_buttons = length (buttons w)
      ∧ (∀ id,
           (∀ business, business ∈ businesses ->
              managerButtons bank !! VentureBusinessData.name business ≠ Some id) ->
           placed_buttons !! id = buttons w !! id)
      ∧ (∀ i business id,
           businesses !! i = Some business ->
           managerButtons bank !! VentureBusinessData.name business = Some id ->
           (∀ j later, i < j -> businesses !! j = Some later ->
              managerButtons bank !! VentureBusinessData.name later ≠ Some id) ->
           ∃ b, placed_buttons !! id = Some b
                ∧ Vector.y (Transform.position (Renderable.transform (Actor.base b)))
                  = offset spawnHeight heightPerButton i
                ∧ Vector.x (Transform.scale (Renderable.transform (Actor.base b)))
                  = scaleFactor
                ∧ Vector.y (Transform.scale (Renderable.transform (Actor.base b)))
                  = scaleFactor).
Proof.
  induction businesses as [|business businesses IH]; intros w spawnHeight Hbank Hall.
  - exists (buttons w). split; [destruct w; reflexivity|].
    split; [reflexivity|]. split; [reflexivity|].
    intros i business id Hi. discriminate.
  - destruct (Hall business) as (id0 & Hid0 & [b0 Hb0]); [left|].
    rewrite (load_loop_round this bank _ _ _ _ w _ id0 b0 Hbank Hid0 Hb0).
    set (w1 := with_buttons _ w).
    destruct (IH w1 (spawnHeight +. heightPerButton)) as (bl & Hrun & Hlen & Hframe & Hplaced).
    { exact Hbank. }
    { intros later Hlater. destruct (Hall later) as (id & Hid & Hsome); [right; exact Hlater|].
      exists id. split; [exact Hid|].
      cbn [w1 buttons with_buttons].
      apply lookup_lt_is_Some. rewrite length_insert. apply lookup_lt_is_Some, Hsome. }
    exists bl. split; [exact Hrun|].
    split; [rewrite Hlen; cbn [w1 buttons with_buttons]; apply length_insert|].
    split.
    + intros id Hnone. rewrite Hframe.
      * cbn [w1 buttons with_buttons]. apply list_lookup_insert_ne.
        intros ->. apply (Hnone business); [left|exact Hid0].
      * intros later Hlater. apply Hnone. right. exact Hlater.
    + intros [|i] b id Hi Hid Hlast.
      * injection Hi as <-. rewrite Hid0 in Hid. injection Hid as <-.
        exists (placed scaleFactor spawnHeight b0). split.
        -- rewrite Hframe.
           ++ cbn [w1 buttons with_buttons]. apply (lookup_insert_same _ _ b0), Hb0.
           ++ intros later [j Hj]%list_elem_of_lookup.
              apply (Hlast (S j) later); [lia|exact Hj].
        -- rewrite placed_transform. repeat split.
      * destruct (Hplaced i b id Hi Hid) as (b' & Hb' & Hy & Hsx & Hsy).
        { intros j later Hlt Hj. apply (Hlast (S j) later); [lia|exact Hj]. }
        exists b'. split; [exact Hb'|]. rewrite <- offset_shift.
        repeat split; assumption.
Qed.

End Layout.

Section Load.

Import VentureBank.

Variable Actor_load : nat -> World -> World.

(** With its lookups resolved, [load] is its loop. *)
Lemma load_Ok (w : World) (this : nat) (bank : t) (balanceText : DisplayComponent)
    (first : VentureBusinessData.t) (firstId : nat) (firstButton : Button) :
  banks (Actor_load this w) !! this = Some bank ->
  Actor.getDisplayComponent "balanceText" (actor bank) = Some balanceText ->
  VentureBankData.businesses (Actor._objectData (actor bank)) !! 0 = Some first ->
  managerButtons bank !! VentureBusinessData.name first = Some firstId ->
  buttons (Actor_load this w) !! firstId = Some firstButton ->
  load Actor_load this w
  = load_loop this
      (scaleFactor (Actor_load this w) balanceText
         (VentureBankData.businesses (Actor._objectData (actor bank))) firstButton)
      (heightPerButton (Actor_load this w) balanceText
         (VentureBankData.businesses (Actor._objectData (actor bank))))
      (VentureBankData.businesses (Actor._objectData (actor bank)))
      (startingHeight balanceText)
      (Actor_load this w).
Proof.
  intros Hbank Htext Hfirst Hid Hbutton. unfold load.
  rewrite (bind_Ok (modify _) _ w _ tt eq_refl).
  rewrite (bind_Ok _ _ _ _ _ (get_bank_Ok _ this bank Hbank)). cbn zeta.
  rewrite Htext, Hfirst.
  rewrite (bind_Ok (mret balanceText) _ _ _ balanceText eq_refl).
  rewrite (bind_Ok get _ _ _ (Actor_load this w) eq_refl).
  rewrite (bind_Ok (mret first) _ _ _ first eq_refl).
  rewrite (bind_Ok _ _ _ _ _ (managerButton_Ok _ this bank _ firstId Hbank Hid)).
  rewrite (bind_Ok _ _ _ _ _ (get_button_Ok _ firstId firstButton Hbutton)).
  reflexivity.
Qed.

(** C9.  [load] checks nothing.  When, after the base class has loaded,
    the businesses array is not empty, every listed business has a
    manager button entry and the balance text is among the display
    components (the constructor adds it), every lookup of [load]
    succeeds and [load] returns.  When the businesses array is empty
    [load] throws: the read of [businesses[0].name] is a TypeError (the
    division by the length, a division by 0, has already produced a
    value that is never used). *)
Theorem load_lookups (w : World) (this : nat) (bank : t) :
  banks (Actor_load this w) !! this = Some bank ->
  (VentureBankData.businesses (Actor._objectData (actor bank)) ≠ [] ->
   is_Some (Actor.getDisplayComponent "balanceText" (actor bank)) ->
   (∀ business,
      business ∈ VentureBankData.businesses (Actor._objectData (actor bank)) ->
      ∃ id, managerButtons bank !! VentureBusinessData.name business = Some id
            ∧ is_Some (buttons (Actor_load this w) !! id)) ->
   ∃ w', load Actor_load this w = Ok (tt, w'))
  ∧ (VentureBankData.businesses (Actor._objectData (actor bank)) = [] ->
     (∃ reading, load Actor_load this w = Throw (TypeError reading))
     ∧ (is_Some (Actor.getDisplayComponent "balanceText" (actor bank)) ->
        load Actor_load this w = Throw (TypeError "businesses[0].name"))).
Proof.
  intros Hbank. split.
  - intros Hne [balanceText Htext] Hall.
    destruct (VentureBankData.businesses (Actor._objectData (actor bank)))
      as [|first rest] eqn:Hbs; [congruence|].
    destruct (Hall first) as (firstId & Hid & [firstButton Hbutton]); [left|].
    rewrite (load_Ok w this bank balanceText first firstId firstButton
               Hbank Htext) by (rewrite ?Hbs; done).
    rewrite Hbs.
    destruct (load_loop_Ok this bank
                (scaleFactor (Actor_load this w) balanceText (first :: rest) firstButton)
                (heightPerButton (Actor_load this w) balanceText (first :: rest))
                (first :: rest) (Actor_load this w) (startingHeight balanceText)
                Hbank Hall) as (bl & Hrun & _).
    eexists. exact Hrun.
  - intros Hbs.
    assert (Hrun : load Actor_load this w =
                   match Actor.getDisplayComponent "balanceText" (actor bank) with
                   | Some _ => Throw (TypeError "businesses[0].name")
                   | None => Throw (TypeError "balanceText.transform")
                   end).
    { unfold load.
      rewrite (bind_Ok (modify _) _ w _ tt eq_refl).
      rewrite (bind_Ok _ _ _ _ _ (get_bank_Ok _ this bank Hbank)). cbn zeta.
      rewrite Hbs.
      destruct (Actor.getDisplayComponent "balanceText" (actor bank)); reflexivity. }
    rewrite Hrun. split.
    + destruct (Actor.getDisplayComponent "balanceText" (actor bank)); eexists; reflexivity.
    + intros [c ->]. reflexivity.
Qed.

(** The position and the scale [load] gives the button of each
    business, unless a later business is given the same button. *)
Lemma load_places (w : World) (this : nat) (bank : t) (balanceText : DisplayComponent)
    (first : VentureBusinessData.t) (firstId : nat) (firstButton : Button) :
  banks (Actor_load this w) !! this = Some bank ->
  Actor.getDisplayComponent "balanceText" (actor bank) = Some balanceText ->
  VentureBankData.businesses (Actor._objectData (actor bank)) !! 0 = Some first ->
  managerButtons bank !! VentureBusinessData.name first = Some firstId ->
  buttons (Actor_load this w) !! firstId = Some firstButton ->
  (∀ business,
     business ∈ VentureBankData.businesses (Actor._objectData (actor bank)) ->
     ∃ id, managerButtons bank !! VentureBusinessData.name business = Some id
           ∧ is_Some (buttons (Actor_load this w) !! id)) ->
  ∃ w',
    load Actor_load this w = Ok (tt, w')
    ∧ banks w' = banks (Actor_load this w)
    ∧ ∀ i business id,
        VentureBankData.businesses (Actor._objectData (actor bank)) !! i = Some business ->
        managerButtons bank !! VentureBusinessData.name business = Some id ->
        (∀ j later, i < j ->
           VentureBankData.businesses (Actor._objectData (actor bank)) !! j = Some later ->
           managerButtons bank !! VentureBusinessData.name later ≠ Some id) ->
        ∃ button,
          buttons w' !! id = Some button
          ∧ Vector.y (Transform.position (Renderable.transform (Actor.base button)))
            = offset (startingHeight balanceText)
                (heightPerButton (Actor_load this w) balanceText
                   (VentureBankData.businesses (Actor._objectData (actor bank)))) i
          ∧ Vector.x (Transform.scale (Renderable.transform (Actor.base button)))
            = scaleFactor (Actor_load this w) balanceText
                (VentureBankData.businesses (Actor._objectData (actor bank))) firstButton
          ∧ Vector.y (Transform.scale (Renderable.transform (Actor.base button)))
            = scaleFactor (Actor_load this w) balanceText
                (VentureBankData.businesses (Actor._objectData (actor bank))) firstButton.
Proof.
  intros Hbank Htext Hfirst Hid Hbutton Hall.
  rewrite (load_Ok w this bank balanceText first firstId firstButton
             Hbank Htext Hfirst Hid Hbutton).
  destruct (load_loop_Ok this bank
              (scaleFactor (Actor_load this w) balanceText
                 (VentureBankData.businesses (Actor._objectData (actor bank))) firstButton)
              (heightPerButton (Actor_load this w) balanceText
                 (VentureBankData.businesses (Actor._objectData (actor bank))))
              (VentureBankData.businesses (Actor._objectData (actor bank)))
              (Actor_load this w) (startingHeight balanceText) Hbank Hall)
    as (bl & Hrun & _ & _ & Hplaced).
  eexists. split; [exact Hrun|]. split; [reflexivity|]. exact Hplaced.
Qed.

End Load.

(** C1, as amended.  [load] lays the manager buttons out by exact
    division, its offsets accumulated in binary64.  With
    the balance text at y and of measured height h, the starting height
    is y + h; the available room is the window height minus the
    starting height; each of the N businesses gets the available room
    divided by N; the scale factor is that height per button divided by
    the natural container height of the button of the first business.
    [load] returns, and the button of the business of index i has both
    scales equal to the scale factor and is placed at the starting
    height with the height per button added i times (starting height,
    starting height + slot, starting height + slot + slot, ...), unless
    a later business is given the same button.  In the scenario (text of
    height 80 at y = 0, window height 680, three businesses with
    buttons of natural height 200): starting height 80, available room
    600, height per button 200, scale factor 1, buttons at y = 80, 280
    and 480, in their transforms and in their backend containers. *)
Theorem load_lays_out_buttons :
  (∀ (Actor_load : nat -> VentureBank.World -> VentureBank.World)
     (w : VentureBank.World) (this : nat) (bank : VentureBank.t)
     (balanceText : DisplayComponent)
     (first : VentureBusinessData.t) (firstId : nat) (firstButton : Button),
      let w1 := Actor_load this w in
      let businesses := VentureBankData.businesses (Actor._objectData (VentureBank.actor bank)) in
      VentureBank.banks w1 !! this = Some bank ->
      Actor.getDisplayComponent "balanceText" (VentureBank.actor bank) = Some balanceText ->
      businesses !! 0 = Some first ->
      VentureBank.managerButtons bank !! VentureBusinessData.name first = Some firstId ->
      VentureBank.buttons w1 !! firstId = Some firstButton ->
      (∀ business, business ∈ businesses ->
         ∃ id, VentureBank.managerButtons bank !! VentureBusinessData.name business = Some id
               ∧ is_Some (VentureBank.buttons w1 !! id)) ->
      VentureBank.startingHeight balanceText
        = Vector.y (Transform.position (Renderable.transform (component_base balanceText)))
          +. PIXI.height (Renderable.container (component_base balanceText))
      ∧ VentureBank.availableRoom w1 balanceText
        = VentureBank.innerHeight w1 -. VentureBank.startingHeight balanceText
      ∧ VentureBank.heightPerButton w1 balanceText businesses
        = VentureBank.availableRoom w1 balanceText /. of_length (length businesses)
      ∧ VentureBank.scaleFactor w1 balanceText businesses firstButton
        = VentureBank.heightPerButton w1 balanceText businesses
          /. PIXI.height (Renderable.container (Actor.base firstButton))
      ∧ ∃ w',
          VentureBank.load Actor_load this w = VentureBank.Ok (tt, w')
          ∧ ∀ i business id,
              businesses !! i = Some business ->
              VentureBank.managerButtons bank !! VentureBusinessData.name business = Some id ->
              (∀ j later, i < j -> businesses !! j = Some later ->
                 VentureBank.managerButtons bank !! VentureBusinessData.name later ≠ Some id) ->
              ∃ button,
                VentureBank.buttons w' !! id = Some button
                ∧ Vector.y (Transform.position (Renderable.transform (Actor.base button)))
                  = offset (VentureBank.startingHeight balanceText)
                      (VentureBank.heightPerButton w1 balanceText businesses) i
                ∧ Vector.x (Transform.scale (Renderable.transform (Actor.base button)))
                  = VentureBank.scaleFactor w1 balanceText businesses firstButton
                ∧ Vector.y (Transform.scale (Renderable.transform (Actor.base button)))
                  = VentureBank.scaleFactor w1 balanceText businesses firstButton)
  ∧ Scenario.layout = Some (80, 600, 200, 1)%float
  ∧ ∃ w',
      Scenario.loaded = VentureBank.Ok (tt, w')
      ∧ Scenario.button_y w' "Lemonade" = Some 80%float
      ∧ Scenario.button_y w' "Newspaper" = Some 280%float
      ∧ Scenario.button_y w' "CarWash" = Some 480%float
      ∧ Scenario.button_container_y w' "Lemonade" = Some 80%float
      ∧ Scenario.button_container_y w' "Newspaper" = Some 280%float
      ∧ Scenario.button_container_y w' "CarWash" = Some 480%float
      ∧ Scenario.button_scale w' "Lemonade" = Some (1, 1)%float
      ∧ Scenario.button_scale w' "Newspaper" = Some (1, 1)%float
      ∧ Scenario.button_scale w' "CarWash" = Some (1, 1)%float.
Proof.
  split; [|split].
  - intros Actor_load w this bank balanceText first firstId firstButton w1 businesses
           Hbank Htext Hfirst Hid Hbutton Hall.
    split; [reflexivity|]. split; [reflexivity|]. split; [reflexivity|].
    split; [reflexivity|].
    destruct (load_places Actor_load w this bank balanceText first firstId firstButton
                Hbank Htext Hfirst Hid Hbutton Hall) as (w' & Hrun & _ & Hplaced).
    exists w'. split; [exact Hrun|exact Hplaced].
  - vm_compute. reflexivity.
  - destruct Scenario.loaded as [[[] w']|e] eqn:Hloaded;
      [|vm_compute in Hloaded; discriminate].
    exists w'. split; [reflexivity|].
    vm_compute in Hloaded. injection Hloaded as <-.
    repeat split; vm_compute; reflexivity.
Qed.

(** The scenario world after the base class has loaded: the businesses,
    their buttons and the locals of [load]. *)
Lemma scenario_facts (bank : VentureBank.t) :
  VentureBank.banks (Scenario.measure 80 200 0 Scenario.constructed) !! 0 = Some bank ->
  VentureBankData.businesses (Actor._objectData (VentureBank.actor bank))
    = [Scenario.business "Lemonade"; Scenario.business "Newspaper";
       Scenario.business "CarWash"]
  ∧ VentureBank.managerButtons bank !! "Lemonade" = Some 0
  ∧ VentureBank.managerButtons bank !! "Newspaper" = Some 1
  ∧ VentureBank.managerButtons bank !! "CarWash" = Some 2
  ∧ (∀ id, id < 3 ->
       is_Some (VentureBank.buttons (Scenario.measure 80 200 0 Scenario.constructed) !! id))
  ∧ ∃ balanceText firstButton,
      Actor.getDisplayComponent "balanceText" (VentureBank.actor bank) = Some balanceText
      ∧ VentureBank.buttons (Scenario.measure 80 200 0 Scenario.constructed) !! 0
        = Some firstButton
      ∧ VentureBank.startingHeight balanceText = 80%float
      ∧ VentureBank.heightPerButton (Scenario.measure 80 200 0 Scenario.constructed)
          balanceText
          [Scenario.business "Lemonade"; Scenario.business "Newspaper";
           Scenario.business "CarWash"] = 200%float
      ∧ VentureBank.scaleFactor (Scenario.measure 80 200 0 Scenario.constructed)
          balanceText
          [Scenario.business "Lemonade"; Scenario.business "Newspaper";
           Scenario.business "CarWash"] firstButton = 1%float.
Proof.
  intros Hbank. vm_compute in Hbank. injection Hbank as <-.
  split; [reflexivity|].
  split; [vm_compute; reflexivity|].
  split; [vm_compute; reflexivity|].
  split; [vm_compute; reflexivity|].
  split.
  - intros id Hid. rewrite is_Some_alt.
    destruct id as [|[|[|id]]]; [vm_compute; exact I ..|lia].
  - destruct (VentureBank.buttons (Scenario.measure 80 200 0 Scenario.constructed) !! 0)
      as [firstButton|] eqn:Hbutton; [|vm_compute in Hbutton; discriminate].
    eexists _, firstButton. split; [vm_compute; reflexivity|].
    split; [reflexivity|].
    vm_compute in Hbutton. injection Hbutton as <-.
    repeat split; vm_compute; reflexivity.
Qed.

(** In the scenario world every business has its own button. *)
Lemma scenario_buttons (bank : VentureBank.t) :
  VentureBank.banks (Scenario.measure 80 200 0 Scenario.constructed) !! 0 = Some bank ->
  ∀ business,
    business ∈ VentureBankData.businesses (Actor._objectData (VentureBank.actor bank)) ->
    ∃ id, VentureBank.managerButtons bank !! VentureBusinessData.name business = Some id
          ∧ is_Some (VentureBank.buttons (Scenario.measure 80 200 0 Scenario.constructed) !! id).
Proof.
  intros Hbank business Hin.
  destruct (scenario_facts bank Hbank) as (Hbs & H0 & H1 & H2 & Hsome & _).
  rewrite Hbs in Hin.
  apply elem_of_cons in Hin as [->|Hin]; [exists 0; split; [exact H0|apply Hsome; lia]|].
  apply elem_of_cons in Hin as [->|Hin]; [exists 1; split; [exact H1|apply Hsome; lia]|].
  apply elem_of_cons in Hin as [->|Hin]; [exists 2; split; [exact H2|apply Hsome; lia]|].
  apply elem_of_nil in Hin. destruct Hin.
Qed.

(** The scenario, through the general statement: the button of
    "Newspaper", the business of index 1, ends at y = 80 + 200. *)
Lemma load_lays_out_buttons_witness :
  ∃ w' button,
    VentureBank.load (Scenario.measure 80 200) 0 Scenario.constructed
      = VentureBank.Ok (tt, w')
    ∧ VentureBank.buttons w' !! 1 = Some button
    ∧ Vector.y (Transform.position (Renderable.transform (Actor.base button)))
      = 280%float
    ∧ Vector.x (Transform.scale (Renderable.transform (Actor.base button)))
      = 1%float.
Proof.
  destruct (VentureBank.banks (Scenario.measure 80 200 0 Scenario.constructed) !! 0)
    as [bank|] eqn:Hbank; [|vm_compute in Hbank; discriminate].
  destruct (scenario_facts bank Hbank)
    as (Hbs & H0 & H1 & H2 & _ & balanceText & firstButton & Htext & Hbutton
        & Hstart & Hslot & Hscale).
  destruct (proj1 load_lays_out_buttons (Scenario.measure 80 200) Scenario.constructed 0
              bank balanceText (Scenario.business "Lemonade") 0 firstButton
              Hbank Htext)
    as (_ & _ & _ & _ & w' & Hrun & Hplaced).
  { rewrite Hbs. reflexivity. }
  { exact H0. }
  { exact Hbutton. }
  { exact (scenario_buttons bank Hbank). }
  destruct (Hplaced 1 (Scenario.business "Newspaper") 1)
    as (button & Hb & Hy & Hsx & _).
  { rewrite Hbs. reflexivity. }
  { exact H1. }
  { intros j later Hlt Hj Hid. rewrite Hbs in Hj.
    destruct j as [|[|[|j]]]; [lia|lia| |discriminate Hj].
    injection Hj as <-. cbn in Hid. rewrite H2 in Hid. discriminate Hid. }
  exists w', button. split; [exact Hrun|]. split; [exact Hb|].
  rewrite Hy, Hsx, Hbs, Hstart, Hslot, Hscale. split; reflexivity.
Defined.

(** [load] returns in the scenario world and throws on a bank
    configured without businesses. *)
Lemma load_lookups_witness :
  (∃ w', VentureBank.load (Scenario.measure 80 200) 0 Scenario.constructed
         = VentureBank.Ok (tt, w'))
  ∧ VentureBank.load (Scenario.measure 80 200) 0 Scenario.constructed_without_businesses
    = VentureBank.Throw (VentureBank.TypeError "businesses[0].name").
Proof.
  split.
  - destruct (VentureBank.banks (Scenario.measure 80 200 0 Scenario.constructed) !! 0)
      as [bank|] eqn:Hbank; [|vm_compute in Hbank; discriminate].
    apply (proj1 (load_lookups (Scenario.measure 80 200) Scenario.constructed 0 bank Hbank)).
    + vm_compute in Hbank. injection Hbank as <-. discriminate.
    + vm_compute in Hbank. injection Hbank as <-.
      rewrite is_Some_alt. vm_compute. exact I.
    + exact (scenario_buttons bank Hbank).
  - destruct (VentureBank.banks
                (Scenario.measure 80 200 0 Scenario.constructed_without_businesses) !! 0)
      as [bank|] eqn:Hbank; [|vm_compute in Hbank; discriminate].
    apply (proj2 (load_lookups (Scenario.measure 80 200)
                    Scenario.constructed_without_businesses 0 bank Hbank)).
    + vm_compute in Hbank. injection Hbank as <-. reflexivity.
    + vm_compute in Hbank. injection Hbank as <-.
      rewrite is_Some_alt. vm_compute. exact I.
Defined.

(** The constructor on the scenario configuration: "Newspaper", the
    business of index 1, is registered under button 1. *)
Lemma constructor_initial_state_witness :
  ∃ w' bank,
    VentureBank.constructor Scenario.actorData (VentureBank.empty_World 680)
      = VentureBank.Ok (0, w')
    ∧ VentureBank.banks w' !! 0 = Some bank
    ∧ VentureBank.managerButtons bank !! "Newspaper" = Some 1
    ∧ Actor.children (VentureBank.actor bank) = [ButtonId 0; ButtonId 1; ButtonId 2].
Proof.
  destruct (constructor_initial_state Scenario.actorData (VentureBank.empty_World 680))
    as (w' & bank & created & Hrun & Hbank & _ & _ & _ & _ & _ & _ & Hchildren & _ & Hlast & _).
  exists w', bank. split; [exact Hrun|]. split; [exact Hbank|].
  split; [|exact Hchildren].
  apply (Hlast 1 (Scenario.business "Newspaper")).
  - reflexivity.
  - vm_compute. intros H. inversion H as [|? ? ? H']. inversion H'.
Defined.

(** Two businesses of one name: both buttons are created and are
    children, and the later one takes the entry of [managerButtons]. *)
Example constructor_duplicate_names :
  match VentureBank.constructor
          {| VentureBankData.name := "bank";
             VentureBankData.baseManagerButtonData :=
               {| ButtonData.name := "managerButton"; ButtonData.labels := None |};
             VentureBankData.businesses :=
               [Scenario.business "Lemonade"; Scenario.business "Newspaper";
                Scenario.business "Lemonade"] |}
          (VentureBank.empty_World 680) with
  | VentureBank.Ok (this, w) =>
      (length (VentureBank.buttons w),
       (fun bank => (Actor.children (VentureBank.actor bank),
                     VentureBank.managerButtons bank !! "Lemonade",
                     VentureBank.managerButtons bank !! "Newspaper"))
         <$> VentureBank.banks w !! this)
      = (3, Some ([ButtonId 0; ButtonId 1; ButtonId 2], Some 2, Some 1))
  | VentureBank.Throw _ => False
  end.
Proof. vm_compute. reflexivity. Qed.

(** With no business the height per button of the scenario is 600 / 0,
    which is infinite: the division does not throw. *)
Example heightPerButton_without_businesses :
  (bank ← VentureBank.banks
            (Scenario.measure 80 200 0 Scenario.constructed_without_businesses) !! 0;
   balanceText ← Actor.getDisplayComponent "balanceText" (VentureBank.actor bank);
   Some (VentureBank.heightPerButton
           (Scenario.measure 80 200 0 Scenario.constructed_without_businesses)
           balanceText []))
  = Some infinity.
Proof. vm_compute. reflexivity. Qed.

(** The running variable of the loop is accumulated, and nothing
    corrects its rounding: in a window of height 681 the third offset is
    (80 + s) + s for s = 601 / 3, which in binary64 is not 80 + 2 s. *)
Example offset_accumulates :
  offset 80 (601 /. 3) 2 = (80 +. 601 /. 3) +. 601 /. 3
  ∧ offset 80 (601 /. 3) 2 ≠ 80 +. PrimFloat.mul 2 (601 /. 3).
Proof. split; [reflexivity|]. vm_compute. discriminate. Qed.

(** * Further properties of Renderable *)

Section RenderableComposition.

Import Renderable.

Lemma change_mirrors (this : ObjId) (ch : Change) (r : t) :
  wired this r -> mirrored (changed ch) (change ch r).1.
Proof.
  intros H. rewrite (change_wired this ch r H). cbn [fst].
  destruct (changed ch); repeat split.
Qed.

Lemma change_keeps_mirrored (this : ObjId) (ch : Change) (c : Transform.Component) (r : t) :
  wired this r -> mirrored c r -> mirrored c (change ch r).1.
Proof.
  intros H Hc. destruct (decide (c = changed ch)) as [->|Hne];
    [exact (change_mirrors this ch r H)|].
  rewrite (change_wired this ch r H). cbn [fst].
  destruct ch as [c' ax a|c' a b]; cbn [changed] in *;
    destruct c, c'; try congruence; exact Hc.
Qed.

Lemma changes_keep_mirrored (this : ObjId) (chs : list Change) (c : Transform.Component) :
  ∀ r, wired this r -> mirrored c r -> mirrored c (changes chs r).1.
Proof.
  induction chs as [|ch chs IH]; intros r H Hc; [exact Hc|].
  cbn. apply IH.
  - apply change_preserves_wired, H.
  - apply (change_keeps_mirrored this), Hc. exact H.
Qed.

(** X1.  On a renderable built by the constructor, after any list of
    changes of the transform, every component that was changed at least
    once is mirrored by the container: the container fields of that
    component hold the values the transform has at the end, whatever
    was changed in between. *)
Theorem changed_components_stay_mirrored
    (this : ObjId) (chs : list Change) (c : Transform.Component) :
  c ∈ map changed chs ->
  mirrored c (changes chs (constructor this).1).1.
Proof.
  assert (Hgen : ∀ r, wired this r -> c ∈ map changed chs ->
                      mirrored c (changes chs r).1).
  { induction chs as [|ch chs IH]; intros r H Hin;
      [apply elem_of_nil in Hin; destruct Hin|].
    cbn [map] in Hin. cbn.
    destruct (decide (c ∈ map changed chs)) as [Hlater|Hlater].
    - apply IH; [apply change_preserves_wired, H|exact Hlater].
    - apply elem_of_cons in Hin as [->|Hin]; [|contradiction].
      apply (changes_keep_mirrored this).
      + apply change_preserves_wired, H.
      + apply (change_mirrors this), H. }
  intros Hin. apply Hgen; [apply constructor_wired|exact Hin].
Qed.

Lemma changes_without_subscribers (chs : list Change) :
  ∀ r,
    (∀ c, Vector.onComponentChanged (Transform.get c (transform r)) = []) ->
    (changes chs r).2 = []
    ∧ container (changes chs r).1 = container r
    ∧ transform (changes chs r).1 = written chs (transform r).
Proof.
  induction chs as [|ch chs IH]; intros r Hsilent; [repeat split|].
  assert (Hstep : change ch r = (with_transform (write ch (transform r)) r, [])).
  { unfold change. cbn [transform with_transform].
    replace (Vector.onComponentChanged
               (Transform.get (changed ch) (write ch (transform r)))) with
      (@nil (EventSubscription.Subscriber Handler)); [reflexivity|].
    symmetry. pose proof (Hsilent (changed ch)) as Hc.
    destruct ch as [[] [] a|[] a b]; exact Hc. }
  cbn [changes]. unfold mbind, Eff_bind. rewrite Hstep. cbn [fst snd app].
  destruct (IH (with_transform (write ch (transform r)) r)) as (Hlog & Hcontainer & Htransform).
  { intros c. cbn [transform with_transform].
    pose proof (Hsilent c) as Hc.
    destruct ch as [[] [] a|[] a b], c; exact Hc. }
  split; [exact Hlog|]. split; [exact Hcontainer|exact Htransform].
Qed.

(** X2.  After [destroy], a change of the transform no longer reaches
    the container: whatever list of changes follows, no callback runs
    and the container stays exactly as [destroy] left it, destroyed,
    while the transform still stores every value written. *)
Theorem destroy_silences_changes (r : t) (chs : list Change) :
  (changes chs (destroy r).1).2 = []
  ∧ container (changes chs (destroy r).1).1 = PIXI.destroy (container r)
  ∧ PIXI.destroyed (container (changes chs (destroy r).1).1) = true
  ∧ transform (changes chs (destroy r).1).1
    = written chs (Transform.destroy (transform r)).
Proof.
  destruct (changes_without_subscribers chs (destroy r).1) as (Hlog & Hcontainer & Htransform).
  { intros []; reflexivity. }
  split; [exact Hlog|]. split; [exact Hcontainer|].
  split; [rewrite Hcontainer; reflexivity|exact Htransform].
Qed.

(** X3.  The three synchronization callbacks are idempotent and commute
    with one another: running one twice is running it once, and the
    order in which two of them run does not matter. *)
Theorem synchronizations_idempotent_and_commute (r : t) :
  onPositionChanged (onPositionChanged r) = onPositionChanged r
  ∧ onScaleChanged (onScaleChanged r) = onScaleChanged r
  ∧ onRotationChanged (onRotationChanged r) = onRotationChanged r
  ∧ onPositionChanged (onScaleChanged r) = onScaleChanged (onPositionChanged r)
  ∧ onPositionChanged (onRotationChanged r) = onRotationChanged (onPositionChanged r)
  ∧ onScaleChanged (onRotationChanged r) = onRotationChanged (onScaleChanged r).
Proof.
  destruct r as [asset [[[px py] [sx sy] rot] h ch d] tr]. repeat split.
Qed.

End RenderableComposition.

(** Position x is assigned, then the scale is set twice: the position
    is still mirrored at the end. *)
Lemma changed_components_stay_mirrored_witness :
  mirrored Transform.Position
    (Renderable.changes
       [Renderable.Assign Transform.Position Vector.X 5;
        Renderable.CallSet Transform.Scale 2 None;
        Renderable.CallSet Transform.Scale 3 (Some 4%float)]
       (Renderable.constructor (ButtonId 0)).1).1.
Proof.
  apply (changed_components_stay_mirrored (ButtonId 0)).
  cbn. left.
Defined.

(** * Further properties of VentureBank.load *)

Section LoadComposition.

Import VentureBank.

Lemma insert_alter_same {A} (f : A -> A) (l : list A) (i : nat) (x : A) :
  l !! i = Some x -> <[i := f x]> l = alter f i l.
Proof.
  intros H. apply list_eq. intros j. destruct (decide (i = j)) as [<-|Hne].
  - rewrite list_lookup_alter_eq, H. apply (lookup_insert_same _ _ x), H.
  - rewrite list_lookup_insert_ne, list_lookup_alter_ne by exact Hne. reflexivity.
Qed.

(** The loop of [load] is [placements]. *)
Lemma load_loop_placements (this : nat) (bank : t) (scaleFactor heightPerButton : number)
    (businesses : list VentureBusinessData.t) :
  ∀ (w : World) (spawnHeight : number),
    banks w !! this = Some bank ->
    (∀ business, business ∈ businesses ->
       ∃ id, managerButtons bank !! VentureBusinessData.name business = Some id
             ∧ is_Some (buttons w !! id)) ->
    load_loop this scaleFactor heightPerButton businesses spawnHeight w
    = Ok (tt, with_buttons
                (placements (managerButtons bank) scaleFactor heightPerButton
                   businesses spawnHeight (buttons w)) w).
Proof.
  induction businesses as [|business businesses IH]; intros w spawnHeight Hbank Hall.
  - destruct w; reflexivity.
  - destruct (Hall business) as (id0 & Hid0 & [b0 Hb0]); [left|].
    rewrite (load_loop_round this bank _ _ _ _ w _ id0 b0 Hbank Hid0 Hb0).
    rewrite IH.
    + cbn [placements buttons with_buttons]. rewrite Hid0.
      rewrite (insert_alter_same _ _ _ b0 Hb0). reflexivity.
    + exact Hbank.
    + intros later Hlater.
      destruct (Hall later) as (id & Hid & Hsome); [right; exact Hlater|].
      exists id. split; [exact Hid|]. cbn [buttons with_buttons].
      apply lookup_lt_is_Some. rewrite length_insert. apply lookup_lt_is_Some, Hsome.
Qed.

Lemma placements_length (mb : gmap string nat) (sf slot : number)
    (businesses : list VentureBusinessData.t) :
  ∀ h l, length (placements mb sf slot businesses h l) = length l.
Proof.
  induction businesses as [|business businesses IH]; intros h l; [reflexivity|].
  cbn [placements]. destruct (mb !! _); [|reflexivity].
  rewrite IH. apply length_alter.
Qed.

Lemma placements_other (mb : gmap string nat) (sf slot : number)
    (businesses : list VentureBusinessData.t) (id : nat) :
  (∀ business, business ∈ businesses ->
     mb !! VentureBusinessData.name business ≠ Some id) ->
  ∀ h l, placements mb sf slot businesses h l !! id = l !! id.
Proof.
  induction businesses as [|business businesses IH]; intros Hnone h l; [reflexivity|].
  cbn [placements]. destruct (mb !! _) as [id0|] eqn:Hid0; [|reflexivity].
  rewrite IH by (intros later Hlater; apply Hnone; right; exact Hlater).
  apply list_lookup_alter_ne. intros ->. apply (Hnone business); [left|exact Hid0].
Qed.

(** The button a business is given last has been placed for that
    business; any property the placing keeps, it still has. *)
Lemma placements_last (mb : gmap string nat) (sf slot : number) (Q : Button -> Prop) :
  (∀ s h b, Q b -> Q (placed s h b)) ->
  ∀ (businesses : list VentureBusinessData.t) (h : number) (l : list Button)
    (i : nat) (business : VentureBusinessData.t) (id : nat) (b0 : Button),
    businesses !! i = Some business ->
    mb !! VentureBusinessData.name business = Some id ->
    (∀ j earlier, j < i -> businesses !! j = Some earlier ->
       is_Some (mb !! VentureBusinessData.name earlier)) ->
    (∀ j later, i < j -> businesses !! j = Some later ->
       mb !! VentureBusinessData.name later ≠ Some id) ->
    l !! id = Some b0 -> Q b0 ->
    ∃ b', Q b'
          ∧ placements mb sf slot businesses h l !! id
            = Some (placed sf (offset h slot i) b').
Proof.
  intros HQ. induction businesses as [|first businesses IH];
    intros h l i business id b0 Hi Hid Hearlier Hlater Hb0 Hq; [discriminate|].
  destruct i as [|i].
  - injection Hi as ->. cbn [placements]. rewrite Hid.
    exists b0. split; [exact Hq|].
    rewrite placements_other.
    + rewrite list_lookup_alter_eq, Hb0. reflexivity.
    + intros later [j Hj]%list_elem_of_lookup.
      apply (Hlater (S j) later); [lia|exact Hj].
  - destruct (Hearlier 0 first) as [id0 Hid0]; [lia|reflexivity|].
    cbn [placements]. rewrite Hid0.
    destruct (decide (id0 = id)) as [->|Hne].
    + destruct (IH (h +. slot) (alter (placed sf h) id l) i business id (placed sf h b0))
        as (b' & Hq' & Hb'); try assumption.
      * intros j earlier Hj. apply (Hearlier (S j)). lia.
      * intros j later Hj. apply (Hlater (S j)). lia.
      * rewrite list_lookup_alter_eq, Hb0. reflexivity.
      * apply HQ, Hq.
      * exists b'. split; [exact Hq'|]. rewrite Hb', offset_shift. reflexivity.
    + destruct (IH (h +. slot) (alter (placed sf h) id0 l) i business id b0)
        as (b' & Hq' & Hb'); try assumption.
      * intros j earlier Hj. apply (Hearlier (S j)). lia.
      * intros j later Hj. apply (Hlater (S j)). lia.
      * rewrite list_lookup_alter_ne by exact Hne. exact Hb0.
      * exists b'. split; [exact Hq'|]. rewrite Hb', offset_shift. reflexivity.
Qed.

Lemma placed_wired (ctx : ObjId) (s h : number) (b : Button) :
  wired ctx (Actor.base b) -> wired ctx (Actor.base (placed s h b)).
Proof.
  intros H. unfold placed. cbn [Actor.base Actor.with_base].
  apply change_preserves_wired, change_preserves_wired, H.
Qed.

(** Placing a button whose renderable has the constructor's
    subscriptions reaches its backend container. *)
Lemma placed_container (ctx : ObjId) (s h : number) (b : Button) :
  wired ctx (Actor.base b) ->
  PIXI.y (PIXI.position (PIXI.transform (Renderable.container (Actor.base (placed s h b))))) = h
  ∧ PIXI.x (PIXI.scale (PIXI.transform (Renderable.container (Actor.base (placed s h b))))) = s
  ∧ PIXI.y (PIXI.scale (PIXI.transform (Renderable.container (Actor.base (placed s h b))))) = s.
Proof.
  intros H.
  pose proof (placed_transform s h b) as Htr.
  assert (Hpos : mirrored Transform.Position (Actor.base (placed s h b))).
  { unfold placed. cbn [Actor.base Actor.with_base].
    apply (change_mirrors ctx (Renderable.Assign Transform.Position Vector.Y h)).
    apply change_preserves_wired, H. }
  assert (Hscale : mirrored Transform.Scale (Actor.base (placed s h b))).
  { unfold placed. cbn [Actor.base Actor.with_base].
    apply (change_keeps_mirrored ctx).
    - apply change_preserves_wired, H.
    - apply (change_mirrors ctx (Renderable.CallSet Transform.Scale s None)), H. }
  destruct Hpos as [_ Hy]. destruct Hscale as [Hsx Hsy].
  rewrite Hy, Hsx, Hsy, Htr. repeat split.
Qed.

End LoadComposition.

Section LoadFurther.

Import VentureBank.

Variable Actor_load : nat -> World -> World.

(** X4.  [load] changes nothing but the buttons the businesses are
    registered under.  When it returns, the banks, the store, the
    subscriptions of the cycle event, the window height and the
    notifications are as the base class's [load] left them (so [load]
    itself notifies nobody and leaves the balance alone), the world
    has as many buttons as before, and a button that no business is
    registered under is untouched. *)
Theorem load_changes_only_registered_buttons (w : World) (this : nat) (bank : t) :
  banks (Actor_load this w) !! this = Some bank ->
  VentureBankData.businesses (Actor._objectData (actor bank)) ≠ [] ->
  is_Some (Actor.getDisplayComponent "balanceText" (actor bank)) ->
  (∀ business,
     business ∈ VentureBankData.businesses (Actor._objectData (actor bank)) ->
     ∃ id, managerButtons bank !! VentureBusinessData.name business = Some id
           ∧ is_Some (buttons (Actor_load this w) !! id)) ->
  ∃ w',
    load Actor_load this w = Ok (tt, w')
    ∧ banks w' = banks (Actor_load this w)
    ∧ localStorage w' = localStorage (Actor_load this w)
    ∧ ON_CYCLE_COMPLETE w' = ON_CYCLE_COMPLETE (Actor_load this w)
    ∧ innerHeight w' = innerHeight (Actor_load this w)
    ∧ notified w' = notified (Actor_load this w)
    ∧ length (buttons w') = length (buttons (Actor_load this w))
    ∧ ∀ id,
        (∀ business,
           business ∈ VentureBankData.businesses (Actor._objectData (actor bank)) ->
           managerButtons bank !! VentureBusinessData.name business ≠ Some id) ->
        buttons w' !! id = buttons (Actor_load this w) !! id.
Proof.
  intros Hbank Hne [balanceText Htext] Hall.
  destruct (VentureBankData.businesses (Actor._objectData (actor bank)))
    as [|first rest] eqn:Hbs; [congruence|].
  destruct (Hall first) as (firstId & Hid & [firstButton Hbutton]); [left|].
  rewrite (load_Ok Actor_load w this bank balanceText first firstId firstButton
             Hbank Htext) by (rewrite ?Hbs; done).
  rewrite Hbs.
  rewrite (load_loop_placements this bank _ _ (first :: rest) _ _ Hbank Hall).
  eexists. split; [reflexivity|].
  cbn [banks buttons localStorage ON_CYCLE_COMPLETE innerHeight notified with_buttons].
  repeat (split; [reflexivity|]).
  split; [apply placements_length|].
  intros id Hnone. apply placements_other, Hnone.
Qed.

(** X5.  [load] reaches the backend.  For a button whose renderable has
    the subscriptions its constructor made, the y and the scale that
    [load] gives the transform are also those of the backend container
    when [load] returns: container y is the starting height with the
    height per button added i times, container scale x and y are the
    scale factor; and the button keeps its subscriptions. *)
Theorem load_reaches_containers
    (w : World) (this : nat) (bank : t) (balanceText : DisplayComponent)
    (first : VentureBusinessData.t) (firstId : nat) (firstButton : Button) :
  banks (Actor_load this w) !! this = Some bank ->
  Actor.getDisplayComponent "balanceText" (actor bank) = Some balanceText ->
  VentureBankData.businesses (Actor._objectData (actor bank)) !! 0 = Some first ->
  managerButtons bank !! VentureBusinessData.name first = Some firstId ->
  buttons (Actor_load this w) !! firstId = Some firstButton ->
  (∀ business,
     business ∈ VentureBankData.businesses (Actor._objectData (actor bank)) ->
     ∃ id, managerButtons bank !! VentureBusinessData.name business = Some id
           ∧ is_Some (buttons (Actor_load this w) !! id)) ->
  ∃ w',
    load Actor_load this w = Ok (tt, w')
    ∧ ∀ i business id before ctx,
        VentureBankData.businesses (Actor._objectData (actor bank)) !! i = Some business ->
        managerButtons bank !! VentureBusinessData.name business = Some id ->
        (∀ j later, i < j ->
           VentureBankData.businesses (Actor._objectData (actor bank)) !! j = Some later ->
           managerButtons bank !! VentureBusinessData.name later ≠ Some id) ->
        buttons (Actor_load this w) !! id = Some before ->
        wired ctx (Actor.base before) ->
        ∃ button,
          buttons w' !! id = Some button
          ∧ wired ctx (Actor.base button)
          ∧ PIXI.y (PIXI.position (PIXI.transform
                      (Renderable.container (Actor.base button))))
            = offset (startingHeight balanceText)
                (heightPerButton (Actor_load this w) balanceText
                   (VentureBankData.businesses (Actor._objectData (actor bank)))) i
          ∧ PIXI.x (PIXI.scale (PIXI.transform
                      (Renderable.container (Actor.base button))))
            = scaleFactor (Actor_load this w) balanceText
                (VentureBankData.businesses (Actor._objectData (actor bank))) firstButton
          ∧ PIXI.y (PIXI.scale (PIXI.transform
                      (Renderable.container (Actor.base button))))
            = scaleFactor (Actor_load this w) balanceText
                (VentureBankData.businesses (Actor._objectData (actor bank))) firstButton.
Proof.
  intros Hbank Htext Hfirst Hid Hbutton Hall.
  rewrite (load_Ok Actor_load w this bank balanceText first firstId firstButton
             Hbank Htext Hfirst Hid Hbutton).
  rewrite (load_loop_placements this bank _ _ _ _ _ Hbank Hall).
  eexists. split; [reflexivity|].
  intros i business id before ctx Hi Hentry Hlater Hbefore Hwired.
  cbn [buttons with_buttons].
  destruct (placements_last (managerButtons bank)
              (scaleFactor (Actor_load this w) balanceText
                 (VentureBankData.businesses (Actor._objectData (actor bank))) firstButton)
              (heightPerButton (Actor_load this w) balanceText
                 (VentureBankData.businesses (Actor._objectData (actor bank))))
              (fun b => wired ctx (Actor.base b))
              (placed_wired ctx)
              (VentureBankData.businesses (Actor._objectData (actor bank)))
              (startingHeight balanceText) (buttons (Actor_load this w))
              i business id before Hi Hentry)
    as (b' & Hw' & Hb'); try assumption.
  { intros j earlier _ Hj.
    destruct (Hall earlier) as (id' & Hid' & _);
      [apply list_elem_of_lookup; exists j; exact Hj|].
    exists id'. exact Hid'. }
  eexists. split; [exact Hb'|].
  split; [apply placed_wired, Hw'|].
  apply (placed_container ctx), Hw'.
Qed.

Lemma load_loop_Throw (this : nat) (bank : t) (scaleFactor heightPerButton : number)
    (businesses : list VentureBusinessData.t) :
  ∀ (w : World) (spawnHeight : number),
    banks w !! this = Some bank ->
    (∀ business id,
       business ∈ businesses ->
       managerButtons bank !! VentureBusinessData.name business = Some id ->
       is_Some (buttons w !! id)) ->
    (∃ business,
       business ∈ businesses
       ∧ managerButtons bank !! VentureBusinessData.name business = None) ->
    load_loop this scaleFactor heightPerButton businesses spawnHeight w
    = Throw (TypeError "managerButtons[name]").
Proof.
  induction businesses as [|business businesses IH];
    intros w spawnHeight Hbank Hlive (missing & Hin & Hmissing);
    [apply elem_of_nil in Hin; destruct Hin|].
  destruct (managerButtons bank !! VentureBusinessData.name business) as [id0|] eqn:Hid0.
  - destruct (Hlive business id0) as [b0 Hb0]; [left|exact Hid0|].
    rewrite (load_loop_round this bank _ _ _ _ w _ id0 b0 Hbank Hid0 Hb0).
    apply IH.
    + exact Hbank.
    + intros later id Hlater Hid. cbn [buttons with_buttons].
      apply lookup_lt_is_Some. rewrite length_insert.
      apply lookup_lt_is_Some, (Hlive later id); [right; exact Hlater|exact Hid].
    + apply elem_of_cons in Hin as [->|Hin]; [congruence|].
      exists missing. split; assumption.
  - cbn [load_loop].
    apply bind_Throw, bind_Throw. unfold managerButton.
    rewrite (bind_Ok _ _ _ _ _ (get_bank_Ok w this bank Hbank)). rewrite Hid0.
    reflexivity.
Qed.

(** X6.  [load] throws a TypeError on a missing object.  Without the
    balance text among the display components it throws at the first
    read of the text, whatever the businesses are.  With the text, a
    non-empty businesses array and every existing entry naming a button
    of the world, one business without a manager button entry is
    enough: [load] throws when it dereferences that entry. *)
Theorem load_throws_on_missing (w : World) (this : nat) (bank : t) :
  banks (Actor_load this w) !! this = Some bank ->
  (Actor.getDisplayComponent "balanceText" (actor bank) = None ->
   load Actor_load this w = Throw (TypeError "balanceText.transform"))
  ∧ (is_Some (Actor.getDisplayComponent "balanceText" (actor bank)) ->
     (∀ business id,
        business ∈ VentureBankData.businesses (Actor._objectData (actor bank)) ->
        managerButtons bank !! VentureBusinessData.name business = Some id ->
        is_Some (buttons (Actor_load this w) !! id)) ->
     (∃ business,
        business ∈ VentureBankData.businesses (Actor._objectData (actor bank))
        ∧ managerButtons bank !! VentureBusinessData.name business = None) ->
     load Actor_load this w = Throw (TypeError "managerButtons[name]")).
Proof.
  intros Hbank. split.
  - intros Htext. unfold load.
    rewrite (bind_Ok (modify _) _ w _ tt eq_refl).
    rewrite (bind_Ok _ _ _ _ _ (get_bank_Ok _ this bank Hbank)). cbn zeta.
    rewrite Htext. reflexivity.
  - intros [balanceText Htext] Hlive Hmissing.
    destruct (VentureBankData.businesses (Actor._objectData (actor bank)))
      as [|first rest] eqn:Hbs.
    { destruct Hmissing as (missing & Hin & _). apply elem_of_nil in Hin. destruct Hin. }
    destruct (managerButtons bank !! VentureBusinessData.name first) as [firstId|] eqn:Hid.
    + destruct (Hlive first firstId) as [firstButton Hbutton]; [left|exact Hid|].
      rewrite (load_Ok Actor_load w this bank balanceText first firstId firstButton
                 Hbank Htext) by (rewrite ?Hbs; done).
      rewrite Hbs. apply (load_loop_Throw this bank); assumption.
    + unfold load.
      rewrite (bind_Ok (modify _) _ w _ tt eq_refl).
      rewrite (bind_Ok _ _ _ _ _ (get_bank_Ok _ this bank Hbank)). cbn zeta.
      rewrite Htext, Hbs. change ((first :: rest) !! 0) with (Some first).
      rewrite (bind_Ok (mret balanceText) _ _ _ balanceText eq_refl).
      rewrite (bind_Ok get _ _ _ (Actor_load this w) eq_refl).
      rewrite (bind_Ok (mret first) _ _ _ first eq_refl).
      apply bind_Throw. unfold managerButton.
      rewrite (bind_Ok _ _ _ _ _ (get_bank_Ok _ this bank Hbank)). rewrite Hid.
      reflexivity.
Qed.

End LoadFurther.

(** In the scenario world every button has the subscriptions of its
    constructor. *)
Lemma scenario_buttons_wired (id : nat) (b : Button) :
  VentureBank.buttons (Scenario.measure 80 200 0 Scenario.constructed) !! id = Some b ->
  wired (ButtonId id) (Actor.base b).
Proof.
  intros Hb. destruct id as [|[|[|id]]];
    vm_compute in Hb; [injection Hb as <-; repeat split ..|discriminate].
Qed.

(** [load] in the scenario world: the bank and the number of buttons
    are as before. *)
Lemma load_changes_only_registered_buttons_witness :
  ∃ w',
    VentureBank.load (Scenario.measure 80 200) 0 Scenario.constructed
      = VentureBank.Ok (tt, w')
    ∧ VentureBank.banks w'
      = VentureBank.banks (Scenario.measure 80 200 0 Scenario.constructed)
    ∧ VentureBank.notified w'
      = VentureBank.notified (Scenario.measure 80 200 0 Scenario.constructed)
    ∧ length (VentureBank.buttons w')
      = length (VentureBank.buttons (Scenario.measure 80 200 0 Scenario.constructed)).
Proof.
  destruct (VentureBank.banks (Scenario.measure 80 200 0 Scenario.constructed) !! 0)
    as [bank|] eqn:Hbank; [|vm_compute in Hbank; discriminate].
  destruct (scenario_facts bank Hbank)
    as (Hbs & _ & _ & _ & _ & balanceText & _ & Htext & _).
  destruct (load_changes_only_registered_buttons (Scenario.measure 80 200)
              Scenario.constructed 0 bank Hbank)
    as (w' & Hrun & Hbanks & _ & _ & _ & Hnotified & Hlen & _).
  { rewrite Hbs. discriminate. }
  { rewrite Htext. eexists; reflexivity. }
  { exact (scenario_buttons bank Hbank). }
  exists w'. split; [exact Hrun|]. split; [exact Hbanks|].
  split; [exact Hnotified|exact Hlen].
Defined.

(** [load] in the scenario world: the backend container of the button
    of "Newspaper" ends at y = 280 with scale 1. *)
Lemma load_reaches_containers_witness :
  ∃ w' button,
    VentureBank.load (Scenario.measure 80 200) 0 Scenario.constructed
      = VentureBank.Ok (tt, w')
    ∧ VentureBank.buttons w' !! 1 = Some button
    ∧ PIXI.y (PIXI.position (PIXI.transform (Renderable.container (Actor.base button))))
      = 280%float
    ∧ PIXI.x (PIXI.scale (PIXI.transform (Renderable.container (Actor.base button))))
      = 1%float.
Proof.
  destruct (VentureBank.banks (Scenario.measure 80 200 0 Scenario.constructed) !! 0)
    as [bank|] eqn:Hbank; [|vm_compute in Hbank; discriminate].
  destruct (scenario_facts bank Hbank)
    as (Hbs & H0 & H1 & H2 & Hsome & balanceText & firstButton & Htext & Hbutton
        & Hstart & Hslot & Hscale).
  destruct (Hsome 1) as [before Hbefore]; [lia|].
  destruct (load_reaches_containers (Scenario.measure 80 200) Scenario.constructed 0
              bank balanceText (Scenario.business "Lemonade") 0 firstButton
              Hbank Htext)
    as (w' & Hrun & Hplaced).
  { rewrite Hbs. reflexivity. }
  { exact H0. }
  { exact Hbutton. }
  { exact (scenario_buttons bank Hbank). }
  destruct (Hplaced 1 (Scenario.business "Newspaper") 1 before (ButtonId 1))
    as (button & Hb & _ & Hy & Hsx & _).
  { rewrite Hbs. reflexivity. }
  { exact H1. }
  { intros j later Hlt Hj Hid. rewrite Hbs in Hj.
    destruct j as [|[|[|j]]]; [lia|lia| |discriminate Hj].
    injection Hj as <-. cbn in Hid. rewrite H2 in Hid. discriminate Hid. }
  { exact Hbefore. }
  { exact (scenario_buttons_wired 1 before Hbefore). }
  exists w', button. split; [exact Hrun|]. split; [exact Hb|].
  rewrite Hy, Hsx, Hbs, Hstart, Hslot, Hscale. split; reflexivity.
Defined.

Lemma faults_forgetting_facts (bank : VentureBank.t) :
  VentureBank.banks (Faults.forgetting "Newspaper" 0 Scenario.constructed) !! 0 = Some bank ->
  VentureBankData.businesses (Actor._objectData (VentureBank.actor bank))
    = [Scenario.business "Lemonade"; Scenario.business "Newspaper";
       Scenario.business "CarWash"]
  ∧ VentureBank.managerButtons bank !! "Lemonade" = Some 0
  ∧ VentureBank.managerButtons bank !! "Newspaper" = None
  ∧ VentureBank.managerButtons bank !! "CarWash" = Some 2
  ∧ is_Some (Actor.getDisplayComponent "balanceText" (VentureBank.actor bank))
  ∧ (∀ id, id < 3 ->
       is_Some (VentureBank.buttons
                  (Faults.forgetting "Newspaper" 0 Scenario.constructed) !! id)).
Proof.
  intros Hbank. vm_compute in Hbank. injection Hbank as <-.
  split; [reflexivity|].
  split; [vm_compute; reflexivity|].
  split; [vm_compute; reflexivity|].
  split; [vm_compute; reflexivity|].
  split; [rewrite is_Some_alt; vm_compute; exact I|].
  intros id Hid. rewrite is_Some_alt.
  destruct id as [|[|[|id]]]; [vm_compute; exact I ..|lia].
Qed.

(** [load] throws when the base class has dropped the balance text,
    and when it has dropped the entry of "Newspaper". *)
Lemma load_throws_on_missing_witness :
  VentureBank.load Faults.without_balanceText 0 Scenario.constructed
    = VentureBank.Throw (VentureBank.TypeError "balanceText.transform")
  ∧ VentureBank.load (Faults.forgetting "Newspaper") 0 Scenario.constructed
    = VentureBank.Throw (VentureBank.TypeError "managerButtons[name]").
Proof.
  split.
  - destruct (VentureBank.banks (Faults.without_balanceText 0 Scenario.constructed) !! 0)
      as [bank|] eqn:Hbank; [|vm_compute in Hbank; discriminate].
    apply (proj1 (load_throws_on_missing Faults.without_balanceText
                    Scenario.constructed 0 bank Hbank)).
    vm_compute in Hbank. injection Hbank as <-. vm_compute. reflexivity.
  - destruct (VentureBank.banks (Faults.forgetting "Newspaper" 0 Scenario.constructed) !! 0)
      as [bank|] eqn:Hbank; [|vm_compute in Hbank; discriminate].
    destruct (faults_forgetting_facts bank Hbank) as (Hbs & H0 & H1 & H2 & Htext & Hsome).
    apply (proj2 (load_throws_on_missing (Faults.forgetting "Newspaper")
                    Scenario.constructed 0 bank Hbank)).
    + exact Htext.
    + intros business id Hin Hid. rewrite Hbs in Hin. apply Hsome.
      apply elem_of_cons in Hin as [->|Hin]; [cbn in Hid; rewrite H0 in Hid; injection Hid as <-; lia|].
      apply elem_of_cons in Hin as [->|Hin]; [cbn in Hid; rewrite H1 in Hid; discriminate|].
      apply elem_of_cons in Hin as [->|Hin]; [cbn in Hid; rewrite H2 in Hid; injection Hid as <-; lia|].
      apply elem_of_nil in Hin. destruct Hin.
    + exists (Scenario.business "Newspaper"). split; [|exact H1].
      rewrite Hbs. right. left.
Defined.

(** * Further properties of save and restore *)

Section SaveRestoreFurther.

Import VentureBank.

Variable Actor_save : nat -> World -> World.
Variable Actor_restore : nat -> World -> World.

(** X7.  [save] writes its two keys and nothing else.  After the base
    class has saved, [save] stores the balance under "Balance" and the
    multiplier under "GlobalProfitMultiplier", leaves every other key
    of the store as it was, notifies nobody, and leaves the banks, the
    buttons and the subscriptions of the cycle event untouched. *)
Theorem save_writes_only_its_keys (w : World) (this : nat) (bank : t) :
  banks (Actor_save this w) !! this = Some bank ->
  ∃ w',
    save Actor_save this w = Ok (tt, w')
    ∧ localStorage w' !! "Balance" = Some (Observable.value (balance bank))
    ∧ localStorage w' !! "GlobalProfitMultiplier"
      = Some (Observable.value (globalProfitMultiplier bank))
    ∧ (∀ key, key ≠ "Balance" -> key ≠ "GlobalProfitMultiplier" ->
         localStorage w' !! key = localStorage (Actor_save this w) !! key)
    ∧ banks w' = banks (Actor_save this w)
    ∧ buttons w' = buttons (Actor_save this w)
    ∧ ON_CYCLE_COMPLETE w' = ON_CYCLE_COMPLETE (Actor_save this w)
    ∧ innerHeight w' = innerHeight (Actor_save this w)
    ∧ notified w' = notified (Actor_save this w).
Proof.
  intros H. eexists. split.
  - unfold save.
    rewrite (bind_Ok _ _ _ (Actor_save this w) tt eq_refl).
    rewrite (bind_Ok _ _ _ _ tt
               (bind_Ok _ _ _ _ _ (get_bank_Ok _ this bank H))).
    cbn beta. unfold localStorage_setValue at 1, modify at 1. cbn beta.
    erewrite (bind_Ok (get_bank this)); [|apply get_bank_Ok; exact H].
    reflexivity.
  - cbn [localStorage banks buttons ON_CYCLE_COMPLETE innerHeight notified
         with_localStorage].
    split; [rewrite lookup_insert_ne by done; apply lookup_insert_eq|].
    split; [apply lookup_insert_eq|].
    split; [|repeat split].
    intros key HB HM. rewrite !lookup_insert_ne by congruence. reflexivity.
Qed.

(** X8.  [restore] sets the two observables and nothing else, and
    notifies in a fixed order.  After the base class has restored,
    [restore] makes exactly two notifications, first of the balance and
    then of the multiplier, each to the subscribers of its observable
    and each carrying the value read from the store (or the default),
    also when that value is the one the observable already had.  The
    subscribers, the purchase mode, the manager buttons and the actor
    part of the bank, every other bank, the buttons, the store and the
    subscriptions of the cycle event are left untouched. *)
Theorem restore_sets_and_notifies (w : World) (this : nat) (bank : t) :
  banks (Actor_restore this w) !! this = Some bank ->
  ∃ w' bank',
    restore Actor_restore this w = Ok (tt, w')
    ∧ banks w' !! this = Some bank'
    ∧ notified w' =
        notified (Actor_restore this w) ++
          [ {| Observable.payload :=
                 default 0%float (localStorage (Actor_restore this w) !! "Balance");
               Observable.observers := Observable.subscribers (balance bank) |};
            {| Observable.payload :=
                 default 1%float
                   (localStorage (Actor_restore this w) !! "GlobalProfitMultiplier");
               Observable.observers :=
                 Observable.subscribers (globalProfitMultiplier bank) |} ]
    ∧ Observable.subscribers (balance bank') = Observable.subscribers (balance bank)
    ∧ Observable.subscribers (globalProfitMultiplier bank')
      = Observable.subscribers (globalProfitMultiplier bank)
    ∧ purchaseMode bank' = purchaseMode bank
    ∧ managerButtons bank' = managerButtons bank
    ∧ actor bank' = actor bank
    ∧ (∀ other, other ≠ this ->
         banks w' !! other = banks (Actor_restore this w) !! other)
    ∧ buttons w' = buttons (Actor_restore this w)
    ∧ localStorage w' = localStorage (Actor_restore this w)
    ∧ ON_CYCLE_COMPLETE w' = ON_CYCLE_COMPLETE (Actor_restore this w).
Proof.
  intros Hbank.
  set (w0 := Actor_restore this w) in *.
  set (b1 := with_balance
               (Observable.setValue (default 0%float (localStorage w0 !! "Balance"))
                  (balance bank)).1 bank).
  eexists _, (with_globalProfitMultiplier _ b1).
  split; [|split].
  - unfold restore.
    rewrite (bind_Ok _ _ _ w0 tt eq_refl).
    erewrite (bind_Ok (_ ≫= _)); cycle 1.
    { rewrite (bind_Ok _ _ _ _ _ (localStorage_getNumber_Ok _ _ _)).
      apply (balance_setValue_Ok w0 this bank), Hbank. }
    rewrite (bind_Ok _ _ _ _ _ (localStorage_getNumber_Ok _ _ _)).
    apply globalProfitMultiplier_setValue_Ok.
    cbn [banks with_banks with_notified]. apply (lookup_insert_same _ _ bank), Hbank.
  - cbn [banks with_banks with_notified].
    apply (lookup_insert_same _ _ b1).
    apply (lookup_insert_same _ _ bank), Hbank.
  - cbn [banks buttons localStorage ON_CYCLE_COMPLETE notified
         with_banks with_notified].
    split; [rewrite <- app_assoc; reflexivity|].
    repeat (split; [reflexivity|]).
    split; [|repeat split].
    intros other Hne. rewrite !list_lookup_insert_ne by congruence. reflexivity.
Qed.

End SaveRestoreFurther.

(** The bank holding 150 and 2 is saved: the store holds 150 and 2
    under the two keys and no notification has been added. *)
Lemma save_writes_only_its_keys_witness :
  ∃ w',
    VentureBank.save Scenario.unchanged 0 (Scenario.holding 150 2) = VentureBank.Ok (tt, w')
    ∧ VentureBank.localStorage w' !! "Balance" = Some 150%float
    ∧ VentureBank.localStorage w' !! "GlobalProfitMultiplier" = Some 2%float
    ∧ VentureBank.localStorage w' !! "PurchaseMode" = None
    ∧ VentureBank.notified w' = VentureBank.notified (Scenario.holding 150 2).
Proof.
  destruct (VentureBank.banks (Scenario.holding 150 2) !! 0) as [bank|] eqn:Hbank;
    [|vm_compute in Hbank; discriminate].
  destruct (save_writes_only_its_keys Scenario.unchanged (Scenario.holding 150 2) 0 bank Hbank)
    as (w' & Hrun & HB & HM & Hother & _ & _ & _ & _ & Hnotified).
  exists w'. split; [exact Hrun|].
  assert (Hvalues : Observable.value (VentureBank.balance bank) = 150%float
                    ∧ Observable.value (VentureBank.globalProfitMultiplier bank) = 2%float).
  { vm_compute in Hbank. injection Hbank as <-. split; reflexivity. }
  destruct Hvalues as [Hb Hm]. rewrite Hb in HB. rewrite Hm in HM.
  split; [exact HB|]. split; [exact HM|].
  split; [|exact Hnotified].
  rewrite (Hother "PurchaseMode") by discriminate. vm_compute. reflexivity.
Defined.

(** [restore] in the scenario world, whose store is empty: after the
    notification of the constructor come the two of [restore], 0 to the
    balance text and 1 to nobody. *)
Lemma restore_sets_and_notifies_witness :
  ∃ w',
    VentureBank.restore Scenario.unchanged 0 Scenario.constructed = VentureBank.Ok (tt, w')
    ∧ VentureBank.notified w' =
        [ {| Observable.payload := 0%float;
             Observable.observers := [ComponentId (BankId 0) "balanceText"] |};
          {| Observable.payload := 0%float;
             Observable.observers := [ComponentId (BankId 0) "balanceText"] |};
          {| Observable.payload := 1%float; Observable.observers := [] |} ].
Proof.
  destruct (VentureBank.banks Scenario.constructed !! 0) as [bank|] eqn:Hbank;
    [|vm_compute in Hbank; discriminate].
  destruct (restore_sets_and_notifies Scenario.unchanged Scenario.constructed 0 bank Hbank)
    as (w' & bank' & Hrun & _ & Hnotified & _).
  exists w'. split; [exact Hrun|]. rewrite Hnotified.
  vm_compute in Hbank. injection Hbank as <-. vm_compute. reflexivity.
Defined.

(** * Further properties of the constructor *)

Section ConstructionFurther.

Import VentureBank.

Lemma suffix_ne (name s1 s2 : string) : s1 ≠ s2 -> name +:+ s1 ≠ name +:+ s2.
Proof. intros Hne H. apply Hne. exact (String.app_inj name _ _ H). Qed.

Lemma createManagerButton_makes (this : nat) (business : VentureBusinessData.t)
    (w : World) (bank : t) :
  banks w !! this = Some bank ->
  ∃ button : Button,
    manager_button (VentureBankData.baseManagerButtonData (Actor._objectData (actor bank)))
      (length (buttons w)) business button
    ∧ createManagerButton this business w =
        Ok (tt, with_banks
                  (<[this := registered (length (buttons w))
                               (VentureBusinessData.name business) bank]> (banks w))
                  (with_buttons (buttons w ++ [button]) w)).
Proof.
  intros H. eexists. split; cycle 1.
  - unfold createManagerButton.
    rewrite (bind_Ok _ _ _ _ _ (get_bank_Ok w this bank H)). cbn zeta.
    unfold new_Button.
    rewrite (bind_Ok (get ≫= _) _ w _ (length (buttons w)) eq_refl).
    erewrite (bind_Ok (modify_button _ _));
      [|apply modify_button_last; reflexivity].
    erewrite (bind_Ok (modify_button _ _));
      [|apply modify_button_last; reflexivity].
    erewrite (bind_Ok (modify_button _ _));
      [|apply modify_button_last; reflexivity].
    erewrite (bind_Ok (modify_bank _ _)); [|apply modify_bank_Ok; exact H].
    erewrite modify_bank_Ok;
      [|cbn [banks with_banks with_buttons]; apply (lookup_insert_same _ _ bank), H].
    cbn [banks with_banks with_buttons]. rewrite list_insert_insert_eq.
    reflexivity.
  - unfold manager_button. cbn zeta.
    split; [reflexivity|]. split; [reflexivity|]. split; [repeat split|].
    split; [reflexivity|].
    unfold Actor.getDisplayComponent.
    cbn [Actor.displayComponents Actor.addDisplayComponent Actor.constructor
         component_name TextComponent.name TextComponent.data TextComponent.constructor
         SpriteComponent.name SpriteComponent.data SpriteComponent.constructor].
    split; [|split; [|split]].
    + rewrite !dom_insert_L, dom_empty_L. apply set_eq. intros x.
      rewrite !elem_of_union, elem_of_empty. tauto.
    + eexists. split;
        [rewrite !lookup_insert_ne by (apply suffix_ne; discriminate);
         apply lookup_insert_eq|reflexivity].
    + eexists. split;
        [rewrite lookup_insert_ne by (apply suffix_ne; discriminate);
         apply lookup_insert_eq|repeat split].
    + eexists. split; [apply lookup_insert_eq|repeat split].
Qed.

Lemma createManagerButtons_loop_makes (this : nat) (base : ButtonData.t)
    (businesses : list VentureBusinessData.t) :
  ∀ (w : World) (bank : t),
    banks w !! this = Some bank ->
    VentureBankData.baseManagerButtonData (Actor._objectData (actor bank)) = base ->
    ∃ created : list Button,
      (∀ i business, businesses !! i = Some business ->
         ∃ button, created !! i = Some button
                   ∧ manager_button base (length (buttons w) + i) business button)
      ∧ forM_ businesses (createManagerButton this) w =
          Ok (tt, with_banks
                    (<[this := registered_all (length (buttons w)) businesses bank]>
                       (banks w))
                    (with_buttons (buttons w ++ created) w)).
Proof.
  induction businesses as [|business businesses IH]; intros w bank H Hbase.
  - exists []. split; [intros i b Hi; discriminate|].
    cbn [forM_ registered_all]. rewrite app_nil_r.
    rewrite list_insert_id by exact H.
    destruct w; reflexivity.
  - destruct (createManagerButton_makes this business w bank H) as (button & Hmade & Hstep).
    rewrite Hbase in Hmade.
    set (w1 := with_banks _ _) in Hstep.
    destruct (IH w1 (registered (length (buttons w))
                       (VentureBusinessData.name business) bank))
      as (created & Hmakes & Hrun).
    { cbn [w1 banks with_banks with_buttons].
      apply (lookup_insert_same _ _ bank), H. }
    { exact Hbase. }
    exists (button :: created). split.
    + intros [|i] b Hi.
      * injection Hi as <-. exists button. split; [reflexivity|].
        rewrite Nat.add_0_r. exact Hmade.
      * destruct (Hmakes i b Hi) as (button' & Hb' & Hmade').
        exists button'. split; [exact Hb'|].
        cbn [w1 buttons with_banks with_buttons] in Hmade'.
        rewrite length_app in Hmade'. cbn [length] in Hmade'.
        replace (length (buttons w) + S i) with (length (buttons w) + 1 + i) by lia.
        exact Hmade'.
    + cbn [forM_]. rewrite (bind_Ok _ _ _ _ _ Hstep). rewrite Hrun.
      cbn [w1 banks buttons with_banks with_buttons registered_all].
      rewrite list_insert_insert_eq, length_app, <- app_assoc.
      cbn [length app]. replace (length (buttons w) + 1) with (S (length (buttons w))) by lia.
      reflexivity.
Qed.

(** The constructor up to [createManagerButtons]: the new bank is
    [initial_bank], subscribed to the cycle event, and the balance has
    notified once. *)
Lemma constructor_as_loop (actorData : VentureBankData.t) (w : World) :
  constructor actorData w =
    match forM_ (VentureBankData.businesses actorData)
            (createManagerButton (length (banks w)))
            {| banks := banks w ++ [initial_bank (length (banks w)) actorData];
               buttons := buttons w;
               ON_CYCLE_COMPLETE :=
                 EventSubscription.subscribe (BankId (length (banks w)))
                   (AdjustBalance (length (banks w))) (ON_CYCLE_COMPLETE w);
               localStorage := localStorage w;
               innerHeight := innerHeight w;
               notified :=
                 notified w ++
                   [ {| Observable.payload := 0%float;
                        Observable.observers :=
                          [ComponentId (BankId (length (banks w))) "balanceText"] |} ] |}
    with
    | Ok (_, w') => Ok (length (banks w), w')
    | Throw e => Throw e
    end.
Proof.
  unfold constructor.
  rewrite (bind_Ok get _ w w w eq_refl). cbn zeta.
  rewrite (bind_Ok (modify _) _ w _ tt eq_refl).
  erewrite (bind_Ok (modify_bank _ _));
    [|apply modify_bank_Ok; cbn [banks with_banks]; apply lookup_snoc].
  cbn [banks with_banks]. rewrite insert_snoc.
  erewrite (bind_Ok (modify_bank _ _));
    [|apply modify_bank_Ok; cbn [banks with_banks]; apply lookup_snoc].
  cbn [banks with_banks]. rewrite insert_snoc.
  erewrite (bind_Ok (balance_adjust _ _));
    [|apply balance_adjust_Ok; cbn [banks with_banks]; apply lookup_snoc].
  cbn [banks with_banks with_notified]. rewrite insert_snoc.
  rewrite (bind_Ok (ON_CYCLE_COMPLETE_subscribe _ _) _ _ _ tt eq_refl).
  unfold createManagerButtons.
  unfold mbind at 1, M_bind at 1.
  erewrite (bind_Ok (get_bank _));
    [|apply get_bank_Ok; cbn [banks with_banks with_notified with_ON_CYCLE_COMPLETE];
      apply lookup_snoc].
  reflexivity.
Qed.

(** X9.  Constructing a bank disturbs nothing that exists.  The banks
    of the world are kept, in place, and the new bank comes after them;
    the buttons of the world are kept, in place, and the new buttons
    come after them; the store and the window height are untouched; the
    cycle event keeps its subscriptions, in order, followed by exactly
    one new subscription, that of the new bank with the bank as its
    context; and if every bank was subscribed exactly once, every bank
    still is. *)
Theorem constructor_keeps_the_world (actorData : VentureBankData.t) (w : World) :
  ∃ (w' : World) (bank : t) (created : list Button),
    constructor actorData w = Ok (length (banks w), w')
    ∧ banks w' = banks w ++ [bank]
    ∧ buttons w' = buttons w ++ created
    ∧ localStorage w' = localStorage w
    ∧ innerHeight w' = innerHeight w
    ∧ ON_CYCLE_COMPLETE w' =
        ON_CYCLE_COMPLETE w ++
          [ {| EventSubscription.context := BankId (length (banks w));
               EventSubscription.callback := AdjustBalance (length (banks w)) |} ]
    ∧ (subscribed_once w -> subscribed_once w').
Proof.
  destruct (constructor_Ok actorData w) as (created & Hrun & _).
  eexists _, _, created. split; [exact Hrun|].
  cbn [banks buttons localStorage innerHeight ON_CYCLE_COMPLETE].
  repeat (split; [reflexivity|]).
  intros H. unfold subscribed_once in *. cbn [banks ON_CYCLE_COMPLETE].
  unfold EventSubscription.subscribe, EventSubscription.callbacks in *.
  rewrite map_app, H, length_app. cbn [length map].
  rewrite seq_app, map_app. reflexivity.
Qed.

(** X10.  Every manager button the constructor creates is complete.
    The button of the business of index i carries the name of the
    business and the labels of the template (an empty list when the
    template has none), has no child actor, has the subscriptions of a
    renderable, and holds exactly three display components, attached in
    this order: the icon sprite "<name>ManagerIcon" with the icon of
    the business as its asset, the title "<name>ManagerButton" reading
    "Buy <name> Manager" at (200, 10), and the price
    "<name>ManagerPrice" showing the manager cost as currency at
    (200, 70). *)
Theorem constructor_makes_manager_buttons (actorData : VentureBankData.t) (w : World) :
  ∃ w' : World,
    constructor actorData w = Ok (length (banks w), w')
    ∧ ∀ i business,
        VentureBankData.businesses actorData !! i = Some business ->
        ∃ button,
          buttons w' !! (length (buttons w) + i) = Some button
          ∧ manager_button (VentureBankData.baseManagerButtonData actorData)
              (length (buttons w) + i) business button.
Proof.
  rewrite constructor_as_loop.
  match goal with
  | |- context [forM_ _ _ ?w1] =>
      destruct (createManagerButtons_loop_makes (length (banks w))
                  (VentureBankData.baseManagerButtonData actorData)
                  (VentureBankData.businesses actorData) w1
                  (initial_bank (length (banks w)) actorData)
                  (lookup_snoc _ _) eq_refl)
        as (created & Hmakes & Hrun)
  end.
  rewrite Hrun. eexists. split; [reflexivity|].
  intros i business Hi. destruct (Hmakes i business Hi) as (button & Hb & Hmade).
  exists button. split; [|exact Hmade].
  cbn [buttons with_banks with_buttons].
  rewrite lookup_app_r by lia.
  replace (length (buttons w) + i - length (buttons w)) with i by lia. exact Hb.
Qed.

Lemma registered_all_base (businesses : list VentureBusinessData.t) :
  ∀ (first : nat) (bank : t),
    Renderable.transform (Actor.base (actor (registered_all first businesses bank)))
    = Renderable.transform (Actor.base (actor bank))
    ∧ PIXI.children (Renderable.container
                       (Actor.base (actor (registered_all first businesses bank))))
      = PIXI.children (Renderable.container (Actor.base (actor bank)))
        ++ map ButtonId (seq first (length businesses)).
Proof.
  induction businesses as [|business businesses IH]; intros first bank.
  - cbn. rewrite app_nil_r. split; reflexivity.
  - cbn [registered_all length seq map].
    destruct (IH (S first) (registered first (VentureBusinessData.name business) bank))
      as [-> ->].
    cbn. rewrite <- app_assoc. split; reflexivity.
Qed.

(** X11.  The constructor places the balance text.  The new bank has
    exactly one display component, "balanceText": a text bound to the
    balance of the bank, formatted as currency, at most 415 wide, white
    at 64px with a grey stroke of 7.  It stands at (10, 0), in its
    transform and in its backend container, so the starting height of
    [load] is 0 plus its measured height.  It is the only subscriber of
    the balance.  The container of the bank has the text as its first
    child and then the manager buttons, in order, and the bank has the
    subscriptions of a renderable. *)
Theorem constructor_places_balance_text (actorData : VentureBankData.t) (w : World) :
  ∃ (w' : World) (bank : t) (text : TextComponent.t),
    constructor actorData w = Ok (length (banks w), w')
    ∧ banks w' !! length (banks w) = Some bank
    ∧ Actor.getDisplayComponent "balanceText" (actor bank) = Some (Text text)
    ∧ dom (Actor.displayComponents (actor bank)) = {[ "balanceText" ]}
    ∧ TextComponent.text (TextComponent.data text) = Bound (BankId (length (banks w)))
    ∧ TextComponent.format (TextComponent.data text) = Some CURRENCY
    ∧ TextComponent.maxSize_x (TextComponent.data text) = Some 415%float
    ∧ TextComponent.textStyle text
      = Some {| fill := 16777215%float; fontSize := Some "64px";
                stroke := Some 8947848%float; strokeThickness := Some 7%float |}
    ∧ Vector.x (Transform.position (Renderable.transform (TextComponent.base text)))
      = 10%float
    ∧ Vector.y (Transform.position (Renderable.transform (TextComponent.base text)))
      = 0%float
    ∧ PIXI.position (PIXI.transform (Renderable.container (TextComponent.base text)))
      = {| PIXI.x := 10; PIXI.y := 0 |}
    ∧ startingHeight (Text text)
      = 0 +. PIXI.height (Renderable.container (TextComponent.base text))
    ∧ Observable.subscribers (balance bank)
      = [ComponentId (BankId (length (banks w))) "balanceText"]
    ∧ PIXI.children (Renderable.container (Actor.base (actor bank)))
      = ComponentId (BankId (length (banks w))) "balanceText"
        :: map ButtonId (seq (length (buttons w))
                           (length (VentureBankData.businesses actorData)))
    ∧ wired (BankId (length (banks w))) (Actor.base (actor bank)).
Proof.
  destruct (constructor_Ok actorData w) as (created & Hrun & _).
  set (bs := VentureBankData.businesses actorData) in *.
  set (first := length (buttons w)) in *.
  set (bank0 := initial_bank (length (banks w)) actorData) in *.
  destruct (registered_all_frame bs first bank0) as (Hb & _ & _ & _ & Hcomponents).
  destruct (registered_all_base bs first bank0) as (Htransform & Hchildren).
  eexists _, (registered_all first bs bank0), _.
  split; [exact Hrun|]. cbn [banks].
  split; [apply lookup_snoc|].
  unfold Actor.getDisplayComponent. rewrite Hcomponents, Hb, Hchildren.
  split; [apply lookup_insert_eq|].
  split; [cbn; rewrite dom_insert_L, dom_empty_L; apply (right_id_L ∅ (∪))|].
  repeat (split; [reflexivity|]).
  unfold wired. rewrite Htransform. repeat split.
Qed.

End ConstructionFurther.

(** The constructor in the empty world. *)
Lemma constructor_keeps_the_world_witness :
  ∃ w',
    VentureBank.constructor Scenario.actorData (VentureBank.empty_World 680)
      = VentureBank.Ok (0, w')
    ∧ subscribed_once w'.
Proof.
  destruct (constructor_keeps_the_world Scenario.actorData (VentureBank.empty_World 680))
    as (w' & bank & created & Hrun & _ & _ & _ & _ & _ & Hsub).
  exists w'. split; [exact Hrun|]. apply Hsub. reflexivity.
Defined.

(** The button of "Newspaper" in the scenario. *)
Lemma constructor_makes_manager_buttons_witness :
  ∃ w' button,
    VentureBank.constructor Scenario.actorData (VentureBank.empty_World 680)
      = VentureBank.Ok (0, w')
    ∧ VentureBank.buttons w' !! 1 = Some button
    ∧ manager_button (VentureBankData.baseManagerButtonData Scenario.actorData) 1
        (Scenario.business "Newspaper") button.
Proof.
  destruct (constructor_makes_manager_buttons Scenario.actorData (VentureBank.empty_World 680))
    as (w' & Hrun & Hmakes).
  destruct (Hmakes 1 (Scenario.business "Newspaper") eq_refl) as (button & Hb & Hmade).
  exists w', button. split; [exact Hrun|]. split; [exact Hb|exact Hmade].
Defined.

(** * Further properties of the cycle handler *)

Section CycleFurther.

Import VentureBank.

Lemma publish_handlers_frame (business : VentureBusiness.t) (l : list nat) :
  NoDup l ->
  ∀ w : World,
    (∀ n, n ∈ l -> n < length (banks w)) ->
    ∃ (bl : list t) (ns : list (Observable.Notification number)),
      forM_ (map AdjustBalance l) (fun h => run_CycleHandler h business) w
      = Ok (tt, with_notified (notified w ++ ns) (with_banks bl w))
      ∧ length bl = length (banks w)
      ∧ length ns = length l
      ∧ ∀ n b, banks w !! n = Some b ->
          ∃ b', bl !! n = Some b'
                ∧ actor b' = actor b
                ∧ purchaseMode b' = purchaseMode b
                ∧ globalProfitMultiplier b' = globalProfitMultiplier b
                ∧ managerButtons b' = managerButtons b
                ∧ Observable.subscribers (balance b') = Observable.subscribers (balance b)
                ∧ Observable.value (balance b')
                  = if decide (n ∈ l)
                    then Observable.value (balance b) +. VentureBusiness.profit business
                    else Observable.value (balance b).
Proof.
  induction 1 as [|m l Hm Hl IH]; intros w Hlt.
  - exists (banks w), []. split; [rewrite app_nil_r; destruct w; reflexivity|].
    split; [reflexivity|]. split; [reflexivity|].
    intros n b Hb. exists b. split; [exact Hb|].
    rewrite decide_False by apply not_elem_of_nil. repeat split.
  - destruct (lookup_lt_is_Some_2 (banks w) m) as [bm Hbm];
      [apply Hlt; left|].
    pose proof (balance_adjust_Ok w m bm (VentureBusiness.profit business) Hbm) as Hstep.
    set (w1 := with_notified _ _) in Hstep.
    destruct (IH w1) as (bl & ns & Hrun & Hlen & Hns & Hbanks).
    { intros n Hn. cbn [w1 banks with_banks with_notified].
      rewrite length_insert. apply Hlt. right. exact Hn. }
    eexists bl, (_ :: ns). split; [|split; [|split]].
    + cbn [map forM_]. cbn [run_CycleHandler].
      rewrite (bind_Ok _ _ _ _ _ Hstep). rewrite Hrun.
      cbn [w1 notified with_notified with_banks]. rewrite <- app_assoc. reflexivity.
    + rewrite Hlen. cbn [w1 banks with_banks with_notified]. apply length_insert.
    + cbn [length]. rewrite Hns. reflexivity.
    + intros n b Hb. destruct (decide (n = m)) as [->|Hne].
      * destruct (Hbanks m (with_balance
                              (Observable.adjust (VentureBusiness.profit business)
                                 (balance bm)).1 bm))
          as (b' & Hb' & Ha & Hp & Hg & Hmb & Hs & Hv).
        { cbn [w1 banks with_banks with_notified].
          apply (lookup_insert_same _ _ bm), Hbm. }
        rewrite Hbm in Hb. injection Hb as <-.
        exists b'. split; [exact Hb'|].
        rewrite Ha, Hp, Hg, Hmb, Hs, Hv.
        rewrite decide_False by exact Hm.
        rewrite decide_True by left. repeat split.
      * destruct (Hbanks n b) as (b' & Hb' & Ha & Hp & Hg & Hmb & Hs & Hv).
        { cbn [w1 banks with_banks with_notified].
          rewrite list_lookup_insert_ne by congruence. exact Hb. }
        exists b'. split; [exact Hb'|].
        rewrite Ha, Hp, Hg, Hmb, Hs, Hv.
        repeat (split; [reflexivity|]).
        destruct (decide (n ∈ l)) as [Hin|Hin].
        -- rewrite decide_True by (right; exact Hin). reflexivity.
        -- rewrite decide_False; [reflexivity|].
           intros [->|Hin']%elem_of_cons; [congruence|exact (Hin Hin')].
Qed.

(** One publication, in a world where every bank is subscribed once. *)
Lemma publish_once (business : VentureBusiness.t) (w : World) :
  subscribed_once w ->
  ∃ w',
    ON_CYCLE_COMPLETE_publish business w = Ok (tt, w')
    ∧ subscribed_once w'
    ∧ length (banks w') = length (banks w)
    ∧ buttons w' = buttons w
    ∧ localStorage w' = localStorage w
    ∧ ON_CYCLE_COMPLETE w' = ON_CYCLE_COMPLETE w
    ∧ length (notified w') = length (notified w) + length (banks w)
    ∧ ∀ n b, banks w !! n = Some b ->
        ∃ b', banks w' !! n = Some b'
              ∧ actor b' = actor b
              ∧ purchaseMode b' = purchaseMode b
              ∧ globalProfitMultiplier b' = globalProfitMultiplier b
              ∧ managerButtons b' = managerButtons b
              ∧ Observable.subscribers (balance b') = Observable.subscribers (balance b)
              ∧ Observable.value (balance b')
                = Observable.value (balance b) +. VentureBusiness.profit business.
Proof.
  intros Hsub.
  destruct (publish_handlers_frame business (seq 0 (length (banks w))) (NoDup_seq _ _) w)
    as (bl & ns & Hrun & Hlen & Hns & Hbanks).
  { intros n Hn%elem_of_seq. lia. }
  eexists. split.
  { unfold ON_CYCLE_COMPLETE_publish.
    rewrite (bind_Ok get _ w w w eq_refl). rewrite Hsub. exact Hrun. }
  cbn [banks buttons localStorage ON_CYCLE_COMPLETE notified with_notified with_banks].
  split; [unfold subscribed_once in *; cbn [banks ON_CYCLE_COMPLETE with_notified with_banks];
          rewrite Hlen; exact Hsub|].
  split; [exact Hlen|].
  repeat (split; [reflexivity|]).
  split; [rewrite length_app, Hns, length_seq; reflexivity|].
  intros n b Hb. destruct (Hbanks n b Hb) as (b' & Hb' & Ha & Hp & Hg & Hmb & Hs & Hv).
  exists b'. split; [exact Hb'|].
  rewrite decide_True in Hv
    by (apply elem_of_seq; pose proof (lookup_lt_Some _ _ _ Hb); lia).
  repeat split; assumption.
Qed.

(** X12.  Cycle completions accumulate and touch nothing else.  In a
    world where every bank is subscribed once, publishing the cycle
    event for a list of businesses, one after the other, returns and
    leaves each bank with its balance plus the profits, added in the
    order of the publications.  The multiplier, the purchase mode, the
    manager buttons, the actor part and the subscribers of the balance
    of each bank, the buttons, the store and the subscriptions of the
    event are as before; every bank is still subscribed once; and each
    publication has made one notification per bank. *)
Theorem publications_accumulate (businesses : list VentureBusiness.t) :
  ∀ (w : World),
    subscribed_once w ->
    ∃ w',
      forM_ businesses ON_CYCLE_COMPLETE_publish w = Ok (tt, w')
      ∧ subscribed_once w'
      ∧ buttons w' = buttons w
      ∧ localStorage w' = localStorage w
      ∧ ON_CYCLE_COMPLETE w' = ON_CYCLE_COMPLETE w
      ∧ length (notified w')
        = length (notified w) + length businesses * length (banks w)
      ∧ ∀ this bank, banks w !! this = Some bank ->
          ∃ bank', banks w' !! this = Some bank'
                   ∧ Observable.value (balance bank')
                     = earned (Observable.value (balance bank)) businesses
                   ∧ actor bank' = actor bank
                   ∧ purchaseMode bank' = purchaseMode bank
                   ∧ globalProfitMultiplier bank' = globalProfitMultiplier bank
                   ∧ managerButtons bank' = managerButtons bank
                   ∧ Observable.subscribers (balance bank')
                     = Observable.subscribers (balance bank).
Proof.
  induction businesses as [|business businesses IH]; intros w Hsub.
  - exists w. split; [reflexivity|]. split; [exact Hsub|].
    repeat (split; [reflexivity|]). split; [cbn; lia|].
    intros this bank Hbank. exists bank. split; [exact Hbank|]. repeat split.
  - destruct (publish_once business w Hsub)
      as (w1 & Hrun1 & Hsub1 & Hlen1 & Hbuttons1 & Hstore1 & Hbus1 & Hnotified1 & Hbanks1).
    destruct (IH w1 Hsub1)
      as (w' & Hrun & Hsub' & Hbuttons & Hstore & Hbus & Hnotified & Hbanks).
    exists w'. split; [cbn [forM_]; rewrite (bind_Ok _ _ _ _ _ Hrun1); exact Hrun|].
    split; [exact Hsub'|].
    split; [congruence|]. split; [congruence|]. split; [congruence|].
    split; [rewrite Hnotified, Hnotified1, Hlen1; cbn [length]; lia|].
    intros this bank Hbank.
    destruct (Hbanks1 this bank Hbank) as (b1 & Hb1 & Ha1 & Hp1 & Hg1 & Hm1 & Hs1 & Hv1).
    destruct (Hbanks this b1 Hb1) as (bank' & Hb' & Hv & Ha & Hp & Hg & Hm & Hs).
    exists bank'. split; [exact Hb'|].
    split; [rewrite Hv, Hv1; reflexivity|].
    repeat split; congruence.
Qed.

End CycleFurther.

(** Profits 50 and 25 on a bank with balance 100 leave 175, and two
    more notifications. *)
Lemma publications_accumulate_witness :
  ∃ w',
    VentureBank.forM_ [Scenario.earning 50; Scenario.earning 25]
      VentureBank.ON_CYCLE_COMPLETE_publish (Scenario.holding 100 1)
    = VentureBank.Ok (tt, w')
    ∧ Scenario.balance_of w' 0 = Some 175%float
    ∧ length (VentureBank.notified w')
      = length (VentureBank.notified (Scenario.holding 100 1)) + 2.
Proof.
  destruct (VentureBank.banks (Scenario.holding 100 1) !! 0) as [bank|] eqn:Hbank;
    [|vm_compute in Hbank; discriminate].
  destruct (publications_accumulate [Scenario.earning 50; Scenario.earning 25]
              (Scenario.holding 100 1))
    as (w' & Hrun & _ & _ & _ & _ & Hnotified & Hbanks).
  { vm_compute. reflexivity. }
  destruct (Hbanks 0 bank Hbank) as (bank' & Hb' & Hv & _).
  exists w'. split; [exact Hrun|]. split.
  - unfold Scenario.balance_of. rewrite Hb'. cbn. rewrite Hv.
    vm_compute in Hbank. injection Hbank as <-. reflexivity.
  - rewrite Hnotified. vm_compute. reflexivity.
Defined.

(** * PurchaseMode and Game *)

(** X13.  The number of a purchase mode is the number of units it
    buys: ONE is 1, TEN is 10, HUNDRED is 100; MAX is -1, the only
    number that is not positive.  The numbers tell the modes apart: two
    modes of the same number are the same mode. *)
Theorem PurchaseMode_value_distinguishes :
  (PurchaseMode_value ONE = 1
   ∧ PurchaseMode_value TEN = 10
   ∧ PurchaseMode_value HUNDRED = 100
   ∧ PurchaseMode_value MAX = -1)%Z
  ∧ (∀ m m', PurchaseMode_value m = PurchaseMode_value m' -> m = m')
  ∧ (∀ m, (PurchaseMode_value m ≤ 0)%Z ↔ m = MAX)
  ∧ (∀ m, m ≠ MAX -> PurchaseMode_value m ∈ [1; 10; 100]%Z).
Proof.
  split; [repeat split|].
  split; [intros [] []; cbn; congruence|].
  split.
  - intros []; cbn; split; intros H; try lia; try discriminate; reflexivity.
  - intros [] H; cbn; [left|right; left|right; right; left|congruence].
Qed.

(** ONE and HUNDRED have different numbers, the number of TEN is
    positive, and the number of HUNDRED is one of the unit counts. *)
Lemma PurchaseMode_value_distinguishes_witness :
  PurchaseMode_value ONE ≠ PurchaseMode_value HUNDRED
  ∧ ¬ (PurchaseMode_value TEN ≤ 0)%Z
  ∧ PurchaseMode_value HUNDRED ∈ [1; 10; 100]%Z.
Proof.
  split; [|split].
  - intros H.
    apply (proj1 (proj2 PurchaseMode_value_distinguishes) ONE HUNDRED) in H.
    discriminate H.
  - intros H.
    apply (proj1 (proj2 (proj2 PurchaseMode_value_distinguishes)) TEN) in H.
    discriminate H.
  - apply (proj2 (proj2 (proj2 PurchaseMode_value_distinguishes))). discriminate.
Defined.

(** X14.  A game is constructed active and holding the game data it
    was given; ticking it changes nothing.  After any list of ticks and
    assignments of the public flag, the game still holds the game data
    of its construction, and it is active exactly when the last
    assignment of the flag, if there was one, set it. *)
Theorem game_keeps_data_and_flag {D : Type} (gameData : D) (steps : list Game.Step) :
  Game._gameData (Game.run steps (Game.constructor gameData)) = gameData
  ∧ Game.isActive (Game.run steps (Game.constructor gameData))
    = Game.last_flag steps true
  ∧ ((∀ s, s ∈ steps -> ∃ deltaTime, s = Game.Tick deltaTime) ->
     Game.run steps (Game.constructor gameData) = Game.constructor gameData).
Proof.
  assert (Hgen : ∀ g : Game.t D,
            Game._gameData (Game.run steps g) = Game._gameData g
            ∧ Game.isActive (Game.run steps g) = Game.last_flag steps (Game.isActive g)
            ∧ ((∀ s, s ∈ steps -> ∃ deltaTime, s = Game.Tick deltaTime) ->
               Game.run steps g = g)).
  { induction steps as [|s steps IH]; intros g; [repeat split|].
    destruct (IH (Game.step s g)) as (Hd & Hf & Ht).
    change (Game.run (s :: steps) g) with (Game.run steps (Game.step s g)).
    split; [rewrite Hd; destruct s; reflexivity|].
    split; [rewrite Hf; destruct s; reflexivity|].
    intros Hticks. rewrite Ht.
    - destruct (Hticks s) as [deltaTime ->]; [left|]. reflexivity.
    - intros s' Hs'. apply Hticks. right. exact Hs'. }
  apply Hgen.
Qed.

Lemma game_keeps_data_and_flag_witness :
  Game.run [Game.Tick 16; Game.Tick 17] (Game.constructor "data")
  = Game.constructor "data".
Proof.
  apply (proj2 (proj2 (game_keeps_data_and_flag "data" [Game.Tick 16; Game.Tick 17]))).
  intros s Hs.
  apply elem_of_cons in Hs as [->|Hs]; [eexists; reflexivity|].
  apply elem_of_cons in Hs as [->|Hs]; [eexists; reflexivity|].
  apply elem_of_nil in Hs. destruct Hs.
Defined.

(** * What load leaves alone in a button *)

Section LoadButtonFrame.

Import VentureBank.

Variable Actor_load : nat -> World -> World.

Lemma publish_container_rest (e : EventSubscription.t Renderable.Handler) :
  ∀ r,
    PIXI.height (Renderable.container (Renderable.publish e r).1)
      = PIXI.height (Renderable.container r)
    ∧ PIXI.children (Renderable.container (Renderable.publish e r).1)
      = PIXI.children (Renderable.container r)
    ∧ PIXI.destroyed (Renderable.container (Renderable.publish e r).1)
      = PIXI.destroyed (Renderable.container r)
    ∧ Renderable._internalAssetData (Renderable.publish e r).1
      = Renderable._internalAssetData r.
Proof.
  induction e as [|s e IH]; intros r; [repeat split|].
  cbn.
  destruct (IH (Renderable.invoke (EventSubscription.callback s) r))
    as (-> & -> & -> & ->).
  destruct (EventSubscription.callback s); repeat split.
Qed.

(** Placing a button whose renderable has the constructor's
    subscriptions runs no rotation callback. *)
Lemma placed_container_rotation (ctx : ObjId) (s h : number) (b : Button) :
  wired ctx (Actor.base b) ->
  PIXI.rotation (PIXI.transform (Renderable.container (Actor.base (placed s h b))))
  = PIXI.rotation (PIXI.transform (Renderable.container (Actor.base b))).
Proof.
  intros H. unfold placed. cbn [Actor.base Actor.with_base].
  rewrite (change_wired ctx (Renderable.Assign Transform.Position Vector.Y h) _
             (change_preserves_wired ctx _ _ H)).
  rewrite (change_wired ctx (Renderable.CallSet Transform.Scale s None) _ H).
  reflexivity.
Qed.

Lemma moved_vertically_refl (b : Button) : moved_vertically b b.
Proof. repeat split. Qed.

Lemma placed_moved_vertically (s h : number) (before b : Button) :
  moved_vertically before b -> moved_vertically before (placed s h b).
Proof.
  intros (Hd & Hc & Hdc & Hx & Hz & Hr & Hsub & Hh & Hch & Hdes & Hasset & Hrot).
  assert (Hwired : ∀ ctx, wired ctx (Actor.base before) -> wired ctx (Actor.base b)).
  { intros ctx (Hp & Hs & Hro).
    pose proof (Hsub Transform.Position) as Hp'.
    pose proof (Hsub Transform.Scale) as Hs'.
    pose proof (Hsub Transform.Rotation) as Hro'.
    cbn [Transform.get] in Hp', Hs', Hro'.
    split; [|split]; congruence. }
  assert (Hrot' : ∀ ctx, wired ctx (Actor.base before) ->
            PIXI.rotation (PIXI.transform
                             (Renderable.container (Actor.base (placed s h b))))
            = PIXI.rotation (PIXI.transform
                               (Renderable.container (Actor.base before)))).
  { intros ctx Hw.
    rewrite (placed_container_rotation ctx s h b (Hwired ctx Hw)).
    exact (Hrot ctx Hw). }
  unfold moved_vertically. rewrite placed_transform.
  split; [exact Hd|]. split; [exact Hc|]. split; [exact Hdc|].
  split; [exact Hx|]. split; [exact Hz|]. split; [exact Hr|].
  split; [intros c; rewrite <- Hsub; destruct c; reflexivity|].
  revert Hrot'.
  unfold placed. cbn [Actor.base Actor.with_base]. unfold Renderable.change.
  destruct (publish_container_rest
              (Vector.onComponentChanged
                 (Transform.get (Renderable.changed
                                   (Renderable.CallSet Transform.Scale s None))
                    (Renderable.transform
                       (Renderable.with_transform
                          (Renderable.write (Renderable.CallSet Transform.Scale s None)
                             (Renderable.transform (Actor.base b))) (Actor.base b)))))
              (Renderable.with_transform
                 (Renderable.write (Renderable.CallSet Transform.Scale s None)
                    (Renderable.transform (Actor.base b))) (Actor.base b)))
    as (H0 & H1 & H2 & H3).
  set (r1 := (Renderable.publish _ _).1) in *.
  destruct (publish_container_rest
              (Vector.onComponentChanged
                 (Transform.get (Renderable.changed
                                   (Renderable.Assign Transform.Position Vector.Y h))
                    (Renderable.transform
                       (Renderable.with_transform
                          (Renderable.write
                             (Renderable.Assign Transform.Position Vector.Y h)
                             (Renderable.transform r1)) r1))))
              (Renderable.with_transform
                 (Renderable.write (Renderable.Assign Transform.Position Vector.Y h)
                    (Renderable.transform r1)) r1))
    as (H7 & H4 & H5 & H6).
  rewrite H7, H4, H5, H6. cbn [Renderable.container Renderable.with_transform
                               Renderable._internalAssetData].
  rewrite H0, H1, H2, H3. cbn [Renderable.container Renderable.with_transform
                               Renderable._internalAssetData].
  intros Hrot'.
  split; [exact Hh|]. split; [exact Hch|]. split; [exact Hdes|].
  split; [exact Hasset|exact Hrot'].
Qed.

Lemma placements_keep (mb : gmap string nat) (sf slot : number) (Q : Button -> Prop) :
  (∀ s h b, Q b -> Q (placed s h b)) ->
  ∀ (businesses : list VentureBusinessData.t) (h : number) (l : list Button)
    (id : nat) (b0 : Button),
    l !! id = Some b0 -> Q b0 ->
    ∃ b, placements mb sf slot businesses h l !! id = Some b ∧ Q b.
Proof.
  intros HQ. induction businesses as [|business businesses IH];
    intros h l id b0 Hb0 Hq; [exists b0; split; assumption|].
  cbn [placements]. destruct (mb !! _) as [id0|]; [|exists b0; split; assumption].
  destruct (decide (id0 = id)) as [->|Hne].
  - apply (IH _ _ _ (placed sf h b0)); [|apply HQ, Hq].
    rewrite list_lookup_alter_eq, Hb0. reflexivity.
  - apply (IH _ _ _ b0); [|exact Hq].
    rewrite list_lookup_alter_ne by exact Hne. exact Hb0.
Qed.

(** X15.  [load] only scales the buttons and moves them vertically.
    When it returns, every button of the world, registered or not, has
    the data, the child actors, the display components, the position x
    and z, the rotation, the subscriptions and the asset data it had
    after the base class's [load], and its container has the measured
    height, the attached children and the destroyed flag it had; the
    container of a button with the subscriptions of its constructor has
    the rotation it had as well.  So of a button only the scale and the
    position y, and of its container only the position and the scale,
    can differ. *)
Theorem load_moves_buttons_vertically (w : World) (this : nat) (bank : t) :
  banks (Actor_load this w) !! this = Some bank ->
  VentureBankData.businesses (Actor._objectData (actor bank)) ≠ [] ->
  is_Some (Actor.getDisplayComponent "balanceText" (actor bank)) ->
  (∀ business,
     business ∈ VentureBankData.businesses (Actor._objectData (actor bank)) ->
     ∃ id, managerButtons bank !! VentureBusinessData.name business = Some id
           ∧ is_Some (buttons (Actor_load this w) !! id)) ->
  ∃ w',
    load Actor_load this w = Ok (tt, w')
    ∧ ∀ id before,
        buttons (Actor_load this w) !! id = Some before ->
        ∃ after, buttons w' !! id = Some after ∧ moved_vertically before after.
Proof.
  intros Hbank Hne [balanceText Htext] Hall.
  destruct (VentureBankData.businesses (Actor._objectData (actor bank)))
    as [|first rest] eqn:Hbs; [congruence|].
  destruct (Hall first) as (firstId & Hid & [firstButton Hbutton]); [left|].
  rewrite (load_Ok Actor_load w this bank balanceText first firstId firstButton
             Hbank Htext) by (rewrite ?Hbs; done).
  rewrite Hbs.
  rewrite (load_loop_placements this bank _ _ (first :: rest) _ _ Hbank Hall).
  eexists. split; [reflexivity|].
  intros id before Hbefore. cbn [buttons with_buttons].
  apply (placements_keep _ _ _ (moved_vertically before)
           (fun s h b => placed_moved_vertically s h before b) _ _ _ id before Hbefore).
  apply moved_vertically_refl.
Qed.

End LoadButtonFrame.

(** In the scenario the button of "Newspaper" keeps its display
    components, and its container its height and its rotation, through
    [load]. *)
Lemma load_moves_buttons_vertically_witness :
  ∃ w' before after,
    VentureBank.load (Scenario.measure 80 200) 0 Scenario.constructed
      = VentureBank.Ok (tt, w')
    ∧ VentureBank.buttons (Scenario.measure 80 200 0 Scenario.constructed) !! 1
      = Some before
    ∧ VentureBank.buttons w' !! 1 = Some after
    ∧ Actor.displayComponents after = Actor.displayComponents before
    ∧ PIXI.height (Renderable.container (Actor.base after))
      = PIXI.height (Renderable.container (Actor.base before))
    ∧ PIXI.rotation (PIXI.transform (Renderable.container (Actor.base after)))
      = PIXI.rotation (PIXI.transform (Renderable.container (Actor.base before))).
Proof.
  destruct (VentureBank.banks (Scenario.measure 80 200 0 Scenario.constructed) !! 0)
    as [bank|] eqn:Hbank; [|vm_compute in Hbank; discriminate].
  destruct (scenario_facts bank Hbank)
    as (Hbs & _ & _ & _ & Hsome & balanceText & _ & Htext & _).
  destruct (Hsome 1) as [before Hbefore]; [lia|].
  destruct (load_moves_buttons_vertically (Scenario.measure 80 200)
              Scenario.constructed 0 bank Hbank)
    as (w' & Hrun & Hkeep).
  { rewrite Hbs. discriminate. }
  { rewrite Htext. eexists; reflexivity. }
  { exact (scenario_buttons bank Hbank). }
  destruct (Hkeep 1 before Hbefore)
    as (after & Hafter & _ & _ & Hcomponents & _ & _ & _ & _ & Hheight & _ & _ & _ & Hrot).
  exists w', before, after.
  split; [exact Hrun|]. split; [exact Hbefore|]. split; [exact Hafter|].
  split; [exact Hcomponents|]. split; [exact Hheight|].
  exact (Hrot (ButtonId 1) (scenario_buttons_wired 1 before Hbefore)).
Defined.

(** * Deviations from the layout of the specification *)

(** C1, the claim as stated fails.  In a window of height 681 the
    height per button is 601 / 3 and the button of the third business
    is placed at (80 + 601 / 3) + 601 / 3, which is not
    80 + 2 * (601 / 3) in binary64.  With the businesses "Lemonade",
    "Newspaper", "Lemonade" in a window of height 680 the bank has three
    buttons and the locals are those of the scenario, but the buttons
    are at y = 0, 280 and 480: the first button is never placed. *)
Lemma load_lays_out_buttons_counterexample :
  (Deviations.layout_in 681 Scenario.actorData
   = Some (80, 601, 601 /. 3, 601 /. 3 /. 200)%float
   ∧ ∃ w',
       Deviations.loaded_in 681 Scenario.actorData = VentureBank.Ok (tt, w')
       ∧ Scenario.button_y w' "Lemonade" = Some 80%float
       ∧ Scenario.button_y w' "Newspaper" = Some (80 +. 601 /. 3)
       ∧ Scenario.button_y w' "CarWash" = Some ((80 +. 601 /. 3) +. 601 /. 3)
       ∧ (80 +. 601 /. 3) +. 601 /. 3 ≠ 80 +. PrimFloat.mul 2 (601 /. 3))
  ∧ (Deviations.layout_in 680 Deviations.actorData_twice
     = Some (80, 600, 200, 1)%float
     ∧ ∃ w',
         Deviations.loaded_in 680 Deviations.actorData_twice = VentureBank.Ok (tt, w')
         ∧ Deviations.bank_children w' = Some [ButtonId 0; ButtonId 1; ButtonId 2]
         ∧ Deviations.buttons_y w' = [0; 280; 480]%float).
Proof.
  split; (split; [vm_compute; reflexivity|]).
  - destruct (Deviations.loaded_in 681 Scenario.actorData) as [[[] w']|e] eqn:Hloaded;
      [|vm_compute in Hloaded; discriminate].
    exists w'. split; [reflexivity|].
    vm_compute in Hloaded. injection Hloaded as <-.
    repeat split; try (vm_compute; reflexivity).
    vm_compute. discriminate.
  - destruct (Deviations.loaded_in 680 Deviations.actorData_twice)
      as [[[] w']|e] eqn:Hloaded; [|vm_compute in Hloaded; discriminate].
    exists w'. split; [reflexivity|].
    vm_compute in Hloaded. injection Hloaded as <-.
    split; vm_compute; reflexivity.
Qed.

(** * A change on a button of the scenario *)

(** Assigning 5 to the position x of the second button of the scenario,
    a renderable with attached children and a measured height, runs
    [onPositionChanged] once and leaves its container at x = 5. *)
Lemma change_runs_one_synchronization_witness :
  ∃ b,
    VentureBank.buttons (Scenario.measure 80 200 0 Scenario.constructed) !! 1 = Some b
    ∧ (Renderable.change (Renderable.Assign Transform.Position Vector.X 5)
         (Actor.base b)).2
      = [Renderable.Call Renderable.OnPositionChanged]
    ∧ PIXI.x (PIXI.position (PIXI.transform (Renderable.container
               (Renderable.change (Renderable.Assign Transform.Position Vector.X 5)
                  (Actor.base b)).1)))
      = 5%float.
Proof.
  destruct (VentureBank.buttons (Scenario.measure 80 200 0 Scenario.constructed) !! 1)
    as [b|] eqn:Hb; [|vm_compute in Hb; discriminate].
  exists b. split; [reflexivity|].
  pose proof (proj1 (proj2 (proj2 change_runs_one_synchronization))
                (ButtonId 1) (Actor.base b)
                (Renderable.Assign Transform.Position Vector.X 5)
                (scenario_buttons_wired 1 b Hb)) as H.
  cbn [Renderable.changed] in H.
  destruct H as (_ & Htr & Hlog & Hx & _).
  split; [exact Hlog|]. rewrite Hx, Htr. reflexivity.
Defined.
